(** * Cross-chain tracing pipeline of the Agoric MCP server

    A shallow embedding of [src/tools/cross-chain-tracing] (helpers, the four
    step handlers, the planner, the portfolio reader and the schemas of the
    tools) and of [src/utils/api-client.ts], followed by the properties of
    the specification that concern them and by further properties of the
    code.

    Conventions of the embedding.
    - A JavaScript string is a [string]: a sequence of code units below 256
      (ASCII and Latin-1).  Every address, hash, base64 blob and event name
      handled by the pipeline lives in that range.
    - A dynamically typed value ([any] in the TypeScript source, a parsed
      provider payload) is a [JS] tree.  Numbers are integers.
    - An exception is a [Throw] in the [Exn] monad; [try]/[catch] is a match.
    - The network is an oracle consulted through an explicit [World].
    - Builtins of the platform that the properties do not depend on
      ([JSON.parse], [Date], [Number]) are fields of a [Platform] record. *)

From Stdlib Require Import ZArith NArith Ascii String List Bool Lia.
From Stdlib Require Import DecimalString HexadecimalString.
From stdpp Require Import base option list strings gmap.
Import ListNotations.
Open Scope string_scope.
Open Scope list_scope.

(** ** Characters and strings *)

Module Str.

Definition code (c : ascii) : N := N_of_ascii c.

Definition between (lo hi : N) (c : ascii) : bool :=
  (lo <=? code c)%N && (code c <=? hi)%N.

(** The double quote, U+0022. *)
Definition dquote : ascii := ascii_of_N 34.

(** [String.prototype.toLowerCase]: A-Z, and the Latin-1 capitals
    U+00C0..U+00DE except the multiplication sign U+00D7. *)
Definition lower_char (c : ascii) : ascii :=
  if between 65 90 c then ascii_of_N (code c + 32)
  else if between 192 222 c && negb (code c =? 215)%N
       then ascii_of_N (code c + 32)
  else c.

(** [String.prototype.toUpperCase] on the letters whose capital is again a
    single code unit below 256: a-z and U+00E0..U+00FE except the division
    sign U+00F7.  (The capitals of U+00B5, U+00DF and U+00FF leave the range;
    none of them occurs in a chain name.) *)
Definition upper_char (c : ascii) : ascii :=
  if between 97 122 c then ascii_of_N (code c - 32)
  else if between 224 254 c && negb (code c =? 247)%N
       then ascii_of_N (code c - 32)
  else c.

Fixpoint map (f : ascii -> ascii) (s : string) : string :=
  match s with
  | EmptyString => EmptyString
  | String c r => String (f c) (map f r)
  end.

Definition toLowerCase (s : string) : string := map lower_char s.
Definition toUpperCase (s : string) : string := map upper_char s.

(** White space and line terminators removed by [String.prototype.trim]:
    TAB, LF, VT, FF, CR, SPACE and NBSP. *)
Definition is_space (c : ascii) : bool :=
  between 9 13 c || (code c =? 32)%N || (code c =? 160)%N.

Fixpoint trimStart (s : string) : string :=
  match s with
  | EmptyString => EmptyString
  | String c r => if is_space c then trimStart r else s
  end.

Fixpoint trimEnd (s : string) : string :=
  match s with
  | EmptyString => EmptyString
  | String c r =>
      match trimEnd r with
      | EmptyString => if is_space c then EmptyString else String c EmptyString
      | r' => String c r'
      end
  end.

Definition trim (s : string) : string := trimEnd (trimStart s).

(** [s.startsWith(p)] *)
Fixpoint startsWith (p s : string) : bool :=
  match p, s with
  | EmptyString, _ => true
  | String a p', String b s' => Ascii.eqb a b && startsWith p' s'
  | String _ _, EmptyString => false
  end.

(** [s.slice(n)] for [0 <= n]. *)
Fixpoint drop (n : nat) (s : string) : string :=
  match n, s with
  | O, _ => s
  | S n', String _ r => drop n' r
  | S _, EmptyString => EmptyString
  end.

(** [s.replace(/^0x/, '')] *)
Definition strip_0x (s : string) : string :=
  if startsWith "0x" s then drop 2 s else s.

Fixpoint forallb (p : ascii -> bool) (s : string) : bool :=
  match s with
  | EmptyString => true
  | String c r => p c && forallb p r
  end.

Definition is_digit (c : ascii) : bool := between 48 57 c.
Definition is_hex_digit (c : ascii) : bool :=
  is_digit c || between 97 102 c || between 65 70 c.
Definition is_lower_hex_digit (c : ascii) : bool :=
  is_digit c || between 97 102 c.

(** Digits of a numeral: value of a digit character in bases up to 36. *)
Definition digit_value (c : ascii) : option N :=
  if is_digit c then Some (code c - 48)%N
  else if between 97 122 c then Some (code c - 87)%N
  else if between 65 90 c then Some (code c - 55)%N
  else None.

Fixpoint parse_digits_from (base acc : N) (s : string) : option N :=
  match s with
  | EmptyString => Some acc
  | String c r =>
      match digit_value c with
      | Some d =>
          if (d <? base)%N then parse_digits_from base (acc * base + d)%N r
          else None
      | None => None
      end
  end.

(** A non-empty run of digits of the given base. *)
Definition parse_digits (base : N) (s : string) : option N :=
  match s with
  | EmptyString => None
  | _ => parse_digits_from base 0%N s
  end.

(** Decimal rendering of an integer, as [Number.prototype.toString] and
    [BigInt.prototype.toString] print integers. *)
Definition of_Z (z : Z) : string :=
  DecimalString.NilZero.string_of_int (Z.to_int z).

(** [n.toString(16)] for a natural number. *)
Definition hex_of_N (n : N) : string :=
  HexadecimalString.NilZero.string_of_uint (N.to_hex_uint n).

(** [s.padStart(2, '0')] *)
Definition padStart2 (s : string) : string :=
  match s with
  | EmptyString => "00"
  | String c EmptyString => String "0" (String c EmptyString)
  | _ => s
  end.

Fixpoint concat (l : list string) : string :=
  match l with
  | [] => EmptyString
  | x :: r => x +:+ concat r
  end.

(** The characters of [s], front to back. *)
Fixpoint chars (s : string) : list ascii :=
  match s with
  | EmptyString => []
  | String c r => c :: chars r
  end.

(** [s.replace(/^"+|"+$/g, '')]: the leading run and the trailing run of
    double quotes are removed. *)
Fixpoint dropWhile (p : ascii -> bool) (s : string) : string :=
  match s with
  | EmptyString => EmptyString
  | String c r => if p c then dropWhile p r else s
  end.

Fixpoint dropWhileEnd (p : ascii -> bool) (s : string) : string :=
  match s with
  | EmptyString => EmptyString
  | String c r =>
      match dropWhileEnd p r with
      | EmptyString => if p c then EmptyString else String c EmptyString
      | r' => String c r'
      end
  end.

Definition is_dquote (c : ascii) : bool := Ascii.eqb c dquote.

Definition strip_quotes (s : string) : string :=
  dropWhileEnd is_dquote (dropWhile is_dquote s).

(** [s.replace(/'/g, '')] *)
Fixpoint remove_squotes (s : string) : string :=
  match s with
  | EmptyString => EmptyString
  | String c r =>
      if Ascii.eqb c "'" then remove_squotes r else String c (remove_squotes r)
  end.

(** [s.split('(')[0]]: the part of [s] before the first parenthesis. *)
Fixpoint before_paren (s : string) : string :=
  match s with
  | EmptyString => EmptyString
  | String c r => if Ascii.eqb c "(" then EmptyString else String c (before_paren r)
  end.

End Str.

Arguments Str.lower_char : simpl never.
Arguments Str.upper_char : simpl never.
Arguments Str.is_space : simpl never.
Arguments Str.is_digit : simpl never.
Arguments Str.is_hex_digit : simpl never.
Arguments Str.is_lower_hex_digit : simpl never.

(** ** [schemas.ts] *)

(** The parameter schemas, applied by the server before a handler runs. *)
Module Schema.

(** [/^0x[a-fA-F0-9]{40}$/] *)
Definition evmAddress (s : string) : bool :=
  match s with
  | String "0" (String "x" b) =>
      (String.length b =? 40)%nat && Str.forallb Str.is_hex_digit b
  | _ => false
  end.

(** [z.enum(['avalanche', 'arbitrum', 'ethereum', 'optimism', 'base'])] *)
Definition evmChainEnum (s : string) : bool :=
  existsb (String.eqb s) ["avalanche"; "arbitrum"; "ethereum"; "optimism"; "base"].

Definition is_bech32_char (c : ascii) : bool :=
  Str.is_digit c || Str.between 97 122 c || Str.between 65 90 c.

(** [/^<prefix>[0-9a-z]{38,58}$/i] for a lower-case [prefix]. *)
Definition bech32 (prefix s : string) : bool :=
  Str.startsWith prefix (Str.toLowerCase s)
  && let rest := Str.drop (String.length prefix) s in
     (38 <=? String.length rest)%nat && (String.length rest <=? 58)%nat
     && Str.forallb is_bech32_char rest.

Definition bech32Agoric : string -> bool := bech32 "agoric1".
Definition bech32Noble : string -> bool := bech32 "noble1".

End Schema.

(** ** [helpers.ts]: address normalisation *)

(** [(s || '').trim().toLowerCase().replace(/^0x/, '')]; on a string
    argument [s || ''] is [s]. *)
Definition normalizeAddress (s : string) : string :=
  Str.strip_0x (Str.toLowerCase (Str.trim s)).

(** [(chain || '').toLowerCase()] *)
Definition canonicalizeChain (chain : string) : string :=
  Str.toLowerCase chain.

(** An address-like string: hexadecimal digits, bare or behind the prefix
    [0x] (in either case). *)
Definition hex_prefix (p : string) : Prop := p = "" \/ p = "0x" \/ p = "0X".


(** ** Exceptions *)

(** The outcome of an expression that may throw; [Throw m] carries the
    [message] of the error. *)
Inductive Exn (A : Type) : Type :=
| Ok (a : A)
| Throw (message : string).
Arguments Ok {A} a.
Arguments Throw {A} message.

#[global] Instance Exn_ret : MRet Exn := fun A a => Ok a.
#[global] Instance Exn_bind : MBind Exn := fun A B f m =>
  match m with
  | Ok a => f a
  | Throw e => Throw e
  end.

#[global] Instance Exn_fmap : FMap Exn := fun A B f m =>
  match m with
  | Ok a => Ok (f a)
  | Throw e => Throw e
  end.

(** ** Dynamically typed values *)

#[warnings="-register-all"] Inductive JS : Type :=
| JUndef
| JNull
| JBool (b : bool)
| JNum (n : Z)
| JStr (s : string)
| JArr (xs : list JS)
| JObj (fields : list (string * JS)).

Module Js.

(** ToBoolean *)
Definition truthy (v : JS) : bool :=
  match v with
  | JUndef | JNull => false
  | JBool b => b
  | JNum n => negb (n =? 0)%Z
  | JStr s => negb (String.eqb s "")
  | JArr _ | JObj _ => true
  end.

Definition nullish (v : JS) : bool :=
  match v with
  | JUndef | JNull => true
  | _ => false
  end.

(** [a || b] and [a ?? b] *)
Definition or (a b : JS) : JS := if truthy a then a else b.
Definition coalesce (a b : JS) : JS := if nullish a then b else a.

Definition isArray (v : JS) : bool :=
  match v with
  | JArr _ => true
  | _ => false
  end.

(** Own property of an object literal: the first binding of the key. *)
Fixpoint lookup (k : string) (fields : list (string * JS)) : JS :=
  match fields with
  | [] => JUndef
  | (k', v) :: r => if String.eqb k k' then v else lookup k r
  end.

(** [v?.k] for a named property [k]: [undefined] on [null] and [undefined],
    the own property of an object, the [length] of an array or a string, and
    [undefined] otherwise (no property name read by the pipeline is defined
    on a prototype). *)
Definition get (k : string) (v : JS) : JS :=
  match v with
  | JObj fields => lookup k fields
  | JArr xs => if String.eqb k "length" then JNum (Z.of_nat (length xs)) else JUndef
  | JStr s => if String.eqb k "length" then JNum (Z.of_nat (String.length s)) else JUndef
  | _ => JUndef
  end.

Definition describe (v : JS) : string :=
  match v with
  | JNull => "null"
  | _ => "undefined"
  end.

(** [v.k]: a TypeError on [null] and [undefined]. *)
Definition getE (k : string) (v : JS) : Exn JS :=
  if nullish v
  then Throw ("Cannot read properties of " +:+ describe v +:+ " (reading '" +:+ k +:+ "')")
  else Ok (get k v).

(** [v?.[i]] for an index [i]. *)
Definition idx (i : nat) (v : JS) : JS :=
  match v with
  | JArr xs => nth i xs JUndef
  | JStr s => match String.get i s with
              | Some c => JStr (String c EmptyString)
              | None => JUndef
              end
  | JObj fields => lookup (Str.of_Z (Z.of_nat i)) fields
  | _ => JUndef
  end.

(** [String(v)], which is also the conversion applied by a template literal
    and by a computed property key.  An integer prints in decimal, as
    JavaScript prints it below 10^21. *)
Fixpoint toString (v : JS) : string :=
  match v with
  | JUndef => "undefined"
  | JNull => "null"
  | JBool true => "true"
  | JBool false => "false"
  | JNum n => Str.of_Z n
  | JStr s => s
  | JArr xs =>
      (fix join (l : list JS) : string :=
         match l with
         | [] => ""
         | x :: r =>
             let e := match x with
                      | JUndef | JNull => ""
                      | _ => toString x
                      end in
             match r with
             | [] => e
             | _ => e +:+ "," +:+ join r
             end
         end) xs
  | JObj _ => "[object Object]"
  end.

(** [v === s] for a string [s]. *)
Definition eqStr (v : JS) (s : string) : bool :=
  match v with
  | JStr t => String.eqb t s
  | _ => false
  end.

(** The values produced by [for (const x of v)]: the elements of an array,
    the characters of a string; anything else is not iterable. *)
Definition iterate (v : JS) : Exn (list JS) :=
  match v with
  | JArr xs => Ok xs
  | JStr s => Ok (List.map (fun c => JStr (String c EmptyString)) (Str.chars s))
  | _ => Throw "value is not iterable"
  end.

(** The receiver of an array method ([flatMap], [reduce], [find], [map]):
    anything but an array has no such method. *)
Definition asArray (method : string) (v : JS) : Exn (list JS) :=
  match v with
  | JArr xs => Ok xs
  | JUndef | JNull =>
      Throw ("Cannot read properties of " +:+ describe v +:+ " (reading '"
               +:+ method +:+ "')")
  | _ => Throw (method +:+ " is not a function")
  end.

(** [xs.flatMap(f)]: a result that is an array is spliced in, any other
    result is kept as one element. *)
Definition flatMap (f : JS -> JS) (xs : list JS) : list JS :=
  List.concat (List.map (fun x => match f x with
                                  | JArr ys => ys
                                  | y => [y]
                                  end) xs).

(** [xs.find(p)], [undefined] when nothing satisfies [p]. *)
Fixpoint find (p : JS -> bool) (xs : list JS) : JS :=
  match xs with
  | [] => JUndef
  | x :: r => if p x then x else find p r
  end.

(** [BigInt(s)] on a string: optional white space around a decimal numeral
    with an optional sign, or a binary, octal or hexadecimal numeral; the
    empty string is zero.  [None] is a SyntaxError. *)
Definition stringToBigInt (s : string) : option Z :=
  let t := Str.trim s in
  match t with
  | EmptyString => Some 0%Z
  | String "0" (String "x" r) | String "0" (String "X" r) =>
      Z.of_N <$> Str.parse_digits 16 r
  | String "0" (String "o" r) | String "0" (String "O" r) =>
      Z.of_N <$> Str.parse_digits 8 r
  | String "0" (String "b" r) | String "0" (String "B" r) =>
      Z.of_N <$> Str.parse_digits 2 r
  | String "-" r => (fun n => (- Z.of_N n)%Z) <$> Str.parse_digits 10 r
  | String "+" r => Z.of_N <$> Str.parse_digits 10 r
  | _ => Z.of_N <$> Str.parse_digits 10 t
  end.

(** [BigInt(v)] *)
Definition BigInt (v : JS) : Exn Z :=
  match v with
  | JUndef | JNull => Throw ("Cannot convert " +:+ describe v +:+ " to a BigInt")
  | JBool b => Ok (if b then 1 else 0)%Z
  | JNum n => Ok n
  | _ => match stringToBigInt (toString v) with
         | Some n => Ok n
         | None => Throw ("Cannot convert " +:+ toString v +:+ " to a BigInt")
         end
  end.

(** An object literal; [item] builds the [TraceItem]s of [types.ts]. *)
Definition item (label : string) (value : JS) : JS :=
  JObj [("label", JStr label); ("value", value)].
Definition item_href (label : string) (value href : JS) : JS :=
  JObj [("label", JStr label); ("value", value); ("href", href)].

End Js.

(** ** [response-formatter.ts] *)

(** The envelope returned by a tool.  [ResponseFormatter.success(data)] wraps
    the JSON text of [data], kept here as the value itself (every [data]
    passed by the handlers is an object literal, hence truthy);
    [ResponseFormatter.error(message)] wraps the message. *)
Inductive ToolResponse : Type :=
| Success (data : JS)
| Error (message : string).

(** ** [atob] *)

(** The platform's [atob] is the forgiving-base64 decoder of the WHATWG
    Infra standard; it is not code of the repository and is written here
    from that standard. *)
Module Base64.

(** ASCII white space of the Infra standard: TAB, LF, FF, CR and SPACE. *)
Definition is_ascii_whitespace (c : ascii) : bool :=
  let n := Str.code c in
  (n =? 9)%N || (n =? 10)%N || (n =? 12)%N || (n =? 13)%N || (n =? 32)%N.

(** Position of a character in the base64 alphabet. *)
Definition sextet (c : ascii) : option N :=
  let n := Str.code c in
  if Str.between 65 90 c then Some (n - 65)%N
  else if Str.between 97 122 c then Some (n - 71)%N
  else if Str.between 48 57 c then Some (n + 4)%N
  else if (n =? 43)%N then Some 62%N
  else if (n =? 47)%N then Some 63%N
  else None.

Definition is_pad (c : ascii) : bool := (Str.code c =? 61)%N.

(** Step 2: with a length that is a multiple of four, one or two trailing
    [=] signs are removed. *)
Definition strip_padding (cs : list ascii) : list ascii :=
  if (length cs mod 4 =? 0)%nat then
    match rev cs with
    | p1 :: p2 :: r =>
        if is_pad p1 then (if is_pad p2 then rev r else rev (p2 :: r)) else cs
    | _ => cs
    end
  else cs.

Fixpoint sextets (cs : list ascii) : option (list N) :=
  match cs with
  | [] => Some []
  | c :: r =>
      match sextet c, sextets r with
      | Some v, Some vs => Some (v :: vs)
      | _, _ => None
      end
  end.

(** Steps 5 to 10: every four sextets give three bytes; twelve left-over
    bits give one byte and eighteen give two, the spare bits being dropped. *)
Fixpoint bytes_of (vs : list N) : list N :=
  match vs with
  | a :: b :: c :: d :: r =>
      let n := (a * 262144 + b * 4096 + c * 64 + d)%N in
      (n / 65536)%N :: ((n / 256) mod 256)%N :: (n mod 256)%N :: bytes_of r
  | [a; b; c] =>
      let n := (a * 4096 + b * 64 + c)%N in
      [(n / 1024)%N; ((n / 4) mod 256)%N]
  | [a; b] => [((a * 64 + b) / 16)%N]
  | _ => []
  end.

(** Forgiving-base64 decode: the decoded bytes, or [None] for failure (a
    length that leaves remainder one, a character outside the alphabet). *)
Definition decode (s : string) : option (list N) :=
  let cs := strip_padding (List.filter (fun c => negb (is_ascii_whitespace c)) (Str.chars s)) in
  if (length cs mod 4 =? 1)%nat then None
  else bytes_of <$> sextets cs.

(** The standard encoder, against which the decoder is checked: three bytes
    give four characters, and a last group of one or two bytes is padded
    with [=]. *)
Definition digit (v : N) : ascii :=
  if (v <? 26)%N then ascii_of_N (v + 65)
  else if (v <? 52)%N then ascii_of_N (v + 71)
  else if (v <? 62)%N then ascii_of_N (v - 4)
  else if (v =? 62)%N then "+"%char
  else "/"%char.

Fixpoint values (bytes : list N) : list N :=
  match bytes with
  | a :: b :: c :: r =>
      let n := (a * 65536 + b * 256 + c)%N in
      (n / 262144)%N :: ((n / 4096) mod 64)%N :: ((n / 64) mod 64)%N
        :: (n mod 64)%N :: values r
  | [a; b] =>
      let n := (a * 1024 + b * 4)%N in
      [(n / 4096)%N; ((n / 64) mod 64)%N; (n mod 64)%N]
  | [a] => [(a * 16 / 64)%N; ((a * 16) mod 64)%N]
  | [] => []
  end.

Definition padding (bytes : list N) : list ascii :=
  match (length bytes mod 3)%nat with
  | 1%nat => ["="; "="]%char
  | 2%nat => ["="]%char
  | _ => []
  end.

Definition encode (bytes : list N) : string :=
  string_of_list_ascii (List.map digit (values bytes) ++ padding bytes).

End Base64.

(** [atob(s)]: the bytes of the binary string, or an InvalidCharacterError. *)
Definition atob (s : string) : Exn (list N) :=
  match Base64.decode s with
  | Some bytes => Ok bytes
  | None => Throw "The string to be decoded is not correctly encoded."
  end.

(** ** [constants.ts] *)

Record ChainInfo := {
  CHAIN_ID : Z;
  EXPLORER_URL : string;
  FACTORY_CONTRACTS : list string;
  DOMAIN : string
}.

Definition EVM_CHAIN_INFO : list (string * ChainInfo) :=
  [ ("AVALANCHE",
     {| CHAIN_ID := 43114;
        EXPLORER_URL := "https://snowscan.xyz/tx/";
        FACTORY_CONTRACTS := [ "0x647Ead1a35dbC2b0160Cbe6e565f25C4915a125F";
                               "0x13cA288486f2bb6B3619c5fd6A2917Ec98a41E7f" ];
        DOMAIN := "1" |});
    ("ARBITRUM",
     {| CHAIN_ID := 42161;
        EXPLORER_URL := "https://arbiscan.io/tx/";
        FACTORY_CONTRACTS := [ "0x647Ead1a35dbC2b0160Cbe6e565f25C4915a125F";
                               "0x51e589D94b51d01B75442AE1504cD8c50d6127C9" ];
        DOMAIN := "3" |});
    ("ETHEREUM",
     {| CHAIN_ID := 1;
        EXPLORER_URL := "https://etherscan.io/tx/";
        FACTORY_CONTRACTS := [ "0x647Ead1a35dbC2b0160Cbe6e565f25C4915a125F";
                               "0x3bF3056835f7C25b1f71aff99B734Ad07d644577";
                               "0x6ca3e8BFe9196A463136cB2442672e46BBe00BCc" ];
        DOMAIN := "0" |});
    ("OPTIMISM",
     {| CHAIN_ID := 10;
        EXPLORER_URL := "https://optimistic.etherscan.io/tx/";
        FACTORY_CONTRACTS := [ "0x6ca3e8BFe9196A463136cB2442672e46BBe00BCc" ];
        DOMAIN := "2" |});
    ("BASE",
     {| CHAIN_ID := 8453;
        EXPLORER_URL := "https://basescan.org/tx/";
        FACTORY_CONTRACTS := [ "0x724fB9Fd9876d12Da33223C84E7Abf46fFc159C1" ];
        DOMAIN := "6" |}) ].

Module LogEventType.
Definition RecvPacket : string := "recv_packet".
Definition WriteAcknowledgement : string := "write_acknowledgement".
Definition FungibleTokenPacket : string := "fungible_token_packet".
End LogEventType.

(** ** [helpers.ts]: the chain registry *)

Fixpoint assoc {A} (k : string) (l : list (string * A)) : option A :=
  match l with
  | [] => None
  | (k', v) :: r => if String.eqb k k' then Some v else assoc k r
  end.

(** [EVM_CHAIN_INFO[(chain || '').toUpperCase()] || null].  The table is an
    object literal; the only names it answers to are its five keys, since no
    property inherited from [Object.prototype] is spelt in capitals. *)
Definition getChainInfo (chain : string) : option ChainInfo :=
  assoc (Str.toUpperCase chain) EVM_CHAIN_INFO.

(** ** [steps/cctp-noble.ts]: decoding *)

(** [Array.from(evmBytes, (b) => b.toString(16).padStart(2, '0')).join('')] *)
Definition hex_of_bytes (bytes : list N) : string :=
  Str.concat (List.map (fun b => Str.padStart2 (Str.hex_of_N b)) bytes).

(** [bytes.slice(-20)] for an array of at least twenty bytes. *)
Definition last20 (bytes : list N) : list N :=
  skipn (length bytes - 20) bytes.

(** [decodeMintRecipient]: the [try] block around [atob], the length test
    and the hexadecimal rendering of the last twenty bytes.  [None] is the
    [null] of the source. *)
Definition decodeMintRecipient (base64Str : string) : option string :=
  match atob base64Str with
  | Ok bytes =>
      if (length bytes <? 20)%nat then None
      else Some ("0x" +:+ hex_of_bytes (last20 bytes))
  | Throw _ => None
  end.

Record CctpLogExtraction := {
  mintRecipient : option string;
  destinationDomain : option string
}.

Definition DepositForBurn : string := "circle.cctp.v1.DepositForBurn".

(** The events of all logs: [logs.flatMap((l) => l?.events ?? [])]. *)
Definition events_of_logs (logs : list JS) : list JS :=
  Js.flatMap (fun l => Js.coalesce (Js.get "events" l) (JArr [])) logs.

(** The reducer of [extractCctpDataFromLogs]: an attribute with a truthy
    [key] and a [value] that is neither [undefined] nor [null] is recorded
    under its key, the value converted to a string and stripped of
    surrounding double quotes. *)
Definition add_attribute (m : gmap string string) (a : JS) : gmap string string :=
  if Js.truthy (Js.get "key" a) && negb (Js.nullish (Js.get "value" a))
  then <[ Js.toString (Js.get "key" a) :=
            Str.strip_quotes (Js.toString (Js.get "value" a)) ]> m
  else m.

Definition is_event (type : string) (e : JS) : bool :=
  Js.eqStr (Js.get "type" e) type.

(** [extractCctpDataFromLogs].  The attribute table [m] is only ever read
    at the two keys below. *)
Definition extractCctpDataFromLogs (logs : JS) : Exn CctpLogExtraction :=
  ls ← Js.asArray "flatMap" (Js.coalesce logs (JArr []));
  match Js.find (is_event DepositForBurn) (events_of_logs ls) with
  | JUndef => Ok {| mintRecipient := None; destinationDomain := None |}
  | evt =>
      attributes ← Js.asArray "reduce" (Js.coalesce (Js.get "attributes" evt) (JArr []));
      let attrs := fold_left add_attribute attributes (∅ : gmap string string) in
      let base64Recipient := attrs !! "mint_recipient" in
      Ok {| mintRecipient :=
              match base64Recipient with
              | Some b => if String.eqb b "" then None else decodeMintRecipient b
              | None => None
              end;
            destinationDomain := attrs !! "destination_domain" |}
  end.

(** ** The platform *)

(** Builtins whose result the pipeline only passes on, and the two secrets
    of the worker's environment. *)
Record Platform := {
  (** [JSON.parse(v)] *)
  JSON_parse : JS -> Exn JS;
  (** [new Date(v).toISOString()], a RangeError on an invalid date *)
  Date_toISOString : JS -> Exn string;
  (** [new Date(Number(v) * 1000).toISOString()] *)
  seconds_toISOString : JS -> Exn string;
  (** [Number(v)] *)
  Number_ : JS -> JS;
  (** the sign of [Number(x) - Number(y)], [None] when it is NaN *)
  Number_compare : JS -> JS -> option comparison;
  (** [(Number(v) / 1e9).toFixed(2)] *)
  gwei_toFixed2 : JS -> string;
  MINTSCAN_ACCESS_TOKEN : option string;
  ETHERSCAN_API_KEY : option string
}.

(** ** The network *)

Inductive Url : Type :=
| Href (href : string)
    (** a URL written out as text *)
| WithParams (base : string) (params : list (string * string))
    (** [new URL(base)] followed by [searchParams.set] for each pair *).

Record Request := {
  method : string;
  url : Url;
  headers : list (string * string);
  body : option JS
}.

(** What one call of [fetch] comes to: a rejected promise, or a response
    with its status line, the outcome of [response.json()] and its text. *)
Inductive FetchOutcome : Type :=
| NetworkError (message : string)
| Response (status : Z) (statusText : string) (json : Exn JS) (text : string).

(** The providers, seen from the worker: the outcome of the [n]-th call of
    [fetch] for a given request. *)
Definition Network : Type := nat -> Request -> FetchOutcome.

Record World := {
  clock : nat;
  fetched : list Request;
  delays : list Z
}.

Definition start : World := {| clock := 0; fetched := []; delays := [] |}.

Definition fetch (net : Network) (r : Request) (w : World) : FetchOutcome * World :=
  (net (clock w) r,
   {| clock := S (clock w); fetched := fetched w ++ [r]; delays := delays w |}).

(** [await new Promise((resolve) => setTimeout(resolve, ms))] *)
Definition sleep (ms : Z) (w : World) : World :=
  {| clock := clock w; fetched := fetched w; delays := delays w ++ [ms] |}.

(** ** [utils/api-client.ts] *)

Module ApiClient.

(** [response.ok] *)
Definition ok (status : Z) : bool := (200 <=? status)%Z && (status <=? 299)%Z.

(** The [try] block of [makeRequest] once [fetch] has settled. *)
Definition read (toJson : bool) (o : FetchOutcome) : Exn JS :=
  match o with
  | NetworkError m => Throw m
  | Response status statusText json text =>
      if ok status then (if toJson then json else Ok (JStr text))
      else Throw ("HTTP error! status: " +:+ Str.of_Z status +:+ " - " +:+ statusText)
  end.

(** The loop of [makeRequest] with [remaining = retries - attempt] rounds to
    go.  A failed attempt is followed by a doubled delay unless it was the
    last; when no attempt succeeds the result is [null]. *)
Fixpoint attempts (net : Network) (r : Request) (toJson : bool)
    (remaining : nat) (currentRetryDelay : Z) (w : World) : JS * World :=
  match remaining with
  | O => (JNull, w)
  | S k =>
      let '(o, w1) := fetch net r w in
      match read toJson o with
      | Ok v => (v, w1)
      | Throw lastError =>
          match k with
          | O => attempts net r toJson k currentRetryDelay w1
          | S _ => attempts net r toJson k (currentRetryDelay * 2)
                     (sleep currentRetryDelay w1)
          end
      end
  end.

Definition makeRequest (net : Network) (u : Url) (meth : string)
    (optionHeaders : list (string * string)) (payload : option JS)
    (acceptHeaders : string) (toJson : bool) (retries : nat) (retryDelay : Z)
    (w : World) : JS * World :=
  let r := {| method := meth; url := u;
              headers := ("Accept", acceptHeaders) :: optionHeaders;
              body := payload |} in
  attempts net r toJson retries retryDelay w.

(** [get(url, acceptHeaders, toJson, retries, customHeaders)] *)
Definition get (net : Network) (u : Url) (acceptHeaders : string)
    (toJson : bool) (retries : nat)
    (customHeaders : option (list (string * string))) (w : World) : JS * World :=
  makeRequest net u "GET" (default [] customHeaders) None
    acceptHeaders toJson retries 1000 w.

(** [post(url, data, toJson, retries)] *)
Definition post (net : Network) (u : Url) (data : JS) (toJson : bool)
    (retries : nat) (w : World) : JS * World :=
  makeRequest net u "POST" [("Content-Type", "application/json")] (Some data)
    "application/json" toJson retries 1000 w.

End ApiClient.

(** ** [helpers.ts]: credentials and the IBC reverse lookup *)

(** [!s] for an optional string parameter. *)
Definition missing (s : option string) : bool :=
  match s with
  | Some t => String.eqb t ""
  | None => true
  end.

Definition getMintscanHeaders (P : Platform) : option (list (string * string)) :=
  if missing (MINTSCAN_ACCESS_TOKEN P) then None
  else Some [("Authorization", "Bearer " +:+ default "" (MINTSCAN_ACCESS_TOKEN P))].

Definition getEtherscanApiKey (P : Platform) : option string :=
  ETHERSCAN_API_KEY P.

(** [xs.map((tx) => tx.txhash)] *)
Fixpoint txhashes (txs : list JS) : Exn (list JS) :=
  match txs with
  | [] => Ok []
  | tx :: r => h ← Js.getE "txhash" tx; hs ← txhashes r; Ok (h :: hs)
  end.

Definition getNobleTxByIbc (net : Network) (channel sequence : JS) (w : World)
    : list JS * World :=
  if negb (Js.truthy channel) || negb (Js.truthy sequence) then ([], w)
  else
    let sanitizedChannel := Str.remove_squotes (Js.toString channel) in
    let sanitizedSequence := Str.remove_squotes (Js.toString sequence) in
    let queryValue :=
      "recv_packet.packet_dst_channel='" +:+ sanitizedChannel
        +:+ "' AND recv_packet.packet_sequence='" +:+ sanitizedSequence +:+ "'" in
    let u := WithParams "https://noble-api.polkachu.com/cosmos/tx/v1beta1/txs"
               [("pagination.limit", "3"); ("limit", "3"); ("query", queryValue)] in
    let '(data, w1) := ApiClient.get net u "application/json" true 3 None w in
    if negb (Js.truthy data) then ([], w1)
    else
      match (txs ← Js.asArray "map" (Js.coalesce (Js.get "tx_responses" data) (JArr []));
             txhashes txs) with
      | Ok hs => (List.filter Js.truthy hs, w1)
      | Throw _ => ([], w1)
      end.

(** ** [steps/cctp-noble.ts]: Step 3, the burn on Noble *)

Module CctpNoble.

Record Params := {
  nobleAddress : option string;
  destChain : option string;
  destinationEvmAddress : option string;
  take : option Z
}.

Definition MsgBurn : string := "/circle.fiattokenfactory.v1.MsgBurn".

(** [msg?.['@type'] === '/circle.fiattokenfactory.v1.MsgBurn' && msg?.amount] *)
Definition is_burn (msg : JS) : bool :=
  Js.eqStr (Js.get "@type" msg) MsgBurn && Js.truthy (Js.get "amount" msg).

(** The loop over [messages]: amount and denomination of the first message
    of type [MsgBurn] with a truthy [amount]; both stay [null] otherwise. *)
Fixpoint find_burn (messages : list JS) : JS * JS :=
  match messages with
  | [] => (JNull, JNull)
  | msg :: rest =>
      if is_burn msg
      then (Js.get "amount" (Js.get "amount" msg), Js.get "denom" (Js.get "amount" msg))
      else find_burn rest
  end.

(** [String(destinationDomain)] *)
Definition domain_text (e : CctpLogExtraction) : string :=
  match destinationDomain e with
  | Some d => d
  | None => "null"
  end.

Definition sameDomain (chainInfo : ChainInfo) (e : CctpLogExtraction) : bool :=
  String.eqb (domain_text e) (DOMAIN chainInfo).

Definition sameAddress (destinationEvmAddress : string) (e : CctpLogExtraction) : bool :=
  String.eqb (normalizeAddress (default "" (mintRecipient e)))
             (normalizeAddress destinationEvmAddress).

Definition not_found : JS :=
  JObj [("title", JStr "CCTP on Noble");
        ("found", JBool false);
        ("items", JArr []);
        ("message", JStr "No matching CCTP burn transactions found")].

Section Handler.
Context (P : Platform) (net : Network).

(** The body of [if (sameDomain && sameAddress)]. *)
Definition matched (destinationEvmAddress : string) (tx : JS)
    (e : CctpLogExtraction) : Exn ToolResponse :=
  txHash ← Js.getE "txhash" tx;
  let txUrl := "https://www.mintscan.io/noble/txs/" +:+ Js.toString txHash in
  messages ← Js.iterate
    (Js.or (Js.get "messages" (Js.get "body" (Js.get "tx" tx))) (JArr []));
  let '(burnAmount, burnDenom) := find_burn messages in
  let items :=
    [ Js.item_href "Noble CCTP Tx" txHash (JStr txUrl);
      Js.item "Destination EVM" (JStr destinationEvmAddress);
      Js.item "Destination Domain" (JStr (domain_text e)) ]
    ++ (if Js.truthy burnAmount && Js.truthy burnDenom
        then [ Js.item "Amount"
                 (JStr (Js.toString burnAmount +:+ " " +:+ Js.toString burnDenom)) ]
        else []) in
  timestamp ← Date_toISOString P (Js.get "timestamp" tx);
  let sanitizedTx :=
    JObj [("hash", JStr (Js.toString txHash));
          ("height", Number_ P (Js.coalesce (Js.get "height" tx) (JNum 0)));
          ("code", Number_ P (Js.coalesce (Js.get "code" tx) (JNum 0)));
          ("timestamp", JStr timestamp);
          ("explorerUrl", JStr txUrl)] in
  Ok (Success (JObj [("title", JStr "CCTP on Noble");
                     ("found", JBool true);
                     ("txHash", JStr (Js.toString txHash));
                     ("burnAmount", burnAmount);
                     ("burnDenom", burnDenom);
                     ("transaction", sanitizedTx);
                     ("items", JArr items)])).

(** [for (const tx of transactions)] and the [found: false] result that
    follows it. *)
Fixpoint scan (chainInfo : ChainInfo) (destinationEvmAddress : string)
    (transactions : list JS) : Exn ToolResponse :=
  match transactions with
  | [] => Ok (Success not_found)
  | tx :: rest =>
      e ← extractCctpDataFromLogs (Js.or (Js.get "logs" tx) (JArr []));
      if sameDomain chainInfo e && sameAddress destinationEvmAddress e
      then matched destinationEvmAddress tx e
      else scan chainInfo destinationEvmAddress rest
  end.

(** [response?.data?.transactions || response?.transactions || []] *)
Definition transactions_of (response : JS) : JS :=
  Js.or (Js.get "transactions" (Js.get "data" response))
        (Js.or (Js.get "transactions" response) (JArr [])).

Definition request_url (nobleAddress : string) (take : Z) : Url :=
  Href ("https://apis.mintscan.io/v1/noble/accounts/" +:+ nobleAddress
          +:+ "/transactions?take=" +:+ Str.of_Z take
          +:+ "&messageTypes%5B0%5D=circle.fiattokenfactory.v1.MsgBurn").

(** Everything after the request, inside the [try] block. *)
Definition respond (destChain destinationEvmAddress : string) (response : JS)
    : ToolResponse :=
  match getChainInfo destChain with
  | None => Error ("Unsupported destination chain: " +:+ destChain)
  | Some chainInfo =>
      match (transactions ← Js.iterate (transactions_of response);
             scan chainInfo destinationEvmAddress transactions) with
      | Ok r => r
      | Throw message => Error ("Error tracing CCTP Noble step: " +:+ message)
      end
  end.

Definition cctpNobleTxHandler (params : Params) (w : World) : ToolResponse * World :=
  if missing (nobleAddress params) || missing (destChain params)
     || missing (destinationEvmAddress params)
  then (Error "Missing required parameters", w)
  else
    let destChain := canonicalizeChain (default "" (destChain params)) in
    let u := request_url (default "" (nobleAddress params)) (default 20%Z (take params)) in
    let '(response, w1) :=
      ApiClient.get net u "application/json" true 3 (getMintscanHeaders P) w in
    (respond destChain (default "" (destinationEvmAddress params)) response, w1).

End Handler.
End CctpNoble.

(** ** [steps/axelar-gmp.ts]: Step 1, the GMP call *)

Module AxelarGmp.

Record Params := {
  destChain : option string;
  agoricAddress : option string;
  size : option Z
}.

Definition not_found : JS :=
  JObj [("step", JStr "step1");
        ("title", JStr "Axelar GMP (make account)");
        ("found", JBool false);
        ("message", JStr "No GMP transactions found");
        ("items", JArr [])].

(** [Array.isArray(data?.data) && data.data.length > 0] *)
Definition has_results (data : JS) : bool :=
  match Js.get "data" data with
  | JArr (_ :: _) => true
  | _ => false
  end.

Definition search_body (size : Z) (agoricAddress factoryAddress destChain : string) : JS :=
  JObj [("size", JNum size);
        ("sourceAddress", JStr agoricAddress);
        ("address", JStr factoryAddress);
        ("destinationChain", JStr destChain)].

Definition searchGMP : Url := Href "https://api.axelarscan.io/gmp/searchGMP".

(** [cond ? String(v) : undefined] *)
Definition string_if_truthy (v : JS) : JS :=
  if Js.truthy v then JStr (Js.toString v) else JUndef.

Section Handler.
Context (P : Platform) (net : Network).

(** [for (const factoryAddress of chainInfo.FACTORY_CONTRACTS)]: the value
    left in [gmpData] when the loop ends. *)
Fixpoint probe (size : Z) (agoricAddress destChain : string)
    (contracts : list string) (w : World) : JS * World :=
  match contracts with
  | [] => (JNull, w)
  | factoryAddress :: rest =>
      let '(data, w1) :=
        ApiClient.post net searchGMP
          (search_body size agoricAddress factoryAddress destChain) true 3 w in
      if has_results data then (data, w1)
      else probe size agoricAddress destChain rest w1
  end.

(** The result built from the first record of a non-empty [gmpData.data]. *)
Definition report (chainInfo : ChainInfo) (first : JS) : Exn ToolResponse :=
  let gmpId := Js.get "_id" (Js.get "call" first) in
  let event := Js.get "event" (Js.get "call" first) in
  let destTxHash := Js.get "transactionHash" (Js.get "approved" first) in
  let timestamp :=
    Js.or (Js.get "timestamp" (Js.get "call" first)) (Js.get "timestamp" first) in
  let sourceTxHash := Js.get "transactionHash" (Js.get "call" first) in
  let explorer := EXPLORER_URL chainInfo in
  let items :=
    (if Js.truthy destTxHash && negb (String.eqb explorer "")
     then [ Js.item_href "Destination Tx" destTxHash
              (JStr (explorer +:+ Js.toString destTxHash)) ]
     else [])
    ++ (if Js.truthy sourceTxHash
        then [ Js.item_href "Source Tx" sourceTxHash
                 (JStr ("https://axelarscan.io/tx/" +:+ Js.toString sourceTxHash)) ]
        else [])
    ++ (if Js.truthy gmpId
        then [ Js.item_href "Axelar GMP ID" gmpId
                 (JStr ("https://axelarscan.io/gmp/" +:+ Js.toString gmpId)) ]
        else [])
    ++ (if Js.truthy event
        then [ Js.item "Event" (JStr (Js.toString event)) ]
        else []) in
  iso ← (if Js.truthy timestamp
         then t ← Date_toISOString P timestamp; Ok (JStr t)
         else Ok JUndef);
  let sanitizedTx :=
    JObj [("gmpId", JStr (Js.toString (Js.coalesce gmpId (JStr ""))));
          ("event", string_if_truthy event);
          ("destTxHash", string_if_truthy destTxHash);
          ("sourceTxHash", string_if_truthy sourceTxHash);
          ("timestamp", iso);
          ("explorerUrl",
             if Js.truthy destTxHash
             then JStr (explorer +:+ Js.toString destTxHash) else JUndef);
          ("gmpUrl",
             if Js.truthy gmpId
             then JStr ("https://axelarscan.io/gmp/" +:+ Js.toString gmpId)
             else JUndef)] in
  Ok (Success (JObj [("title", JStr "Axelar GMP (make account)");
                     ("found", JBool true);
                     ("transaction", sanitizedTx);
                     ("items", JArr items)])).

(** What follows the loop. *)
Definition conclude (chainInfo : ChainInfo) (gmpData : JS) : ToolResponse :=
  if negb (Js.truthy (Js.get "length" (Js.get "data" gmpData)))
  then Success not_found
  else
    match report chainInfo (Js.idx 0 (Js.get "data" gmpData)) with
    | Ok r => r
    | Throw message => Error ("Error tracing Axelar GMP step: " +:+ message)
    end.

Definition axelarGmpTxHandler (params : Params) (w : World) : ToolResponse * World :=
  if missing (destChain params) || missing (agoricAddress params)
  then (Error "Missing required parameters", w)
  else
    let destChain := canonicalizeChain (default "" (destChain params)) in
    match getChainInfo destChain with
    | Some chainInfo =>
        match FACTORY_CONTRACTS chainInfo with
        | [] => (Error ("No factory contracts configured for chain: " +:+ destChain), w)
        | contracts =>
            let '(gmpData, w1) :=
              probe (default 1%Z (size params)) (default "" (agoricAddress params))
                destChain contracts w in
            (conclude chainInfo gmpData, w1)
        end
    | None => (Error ("No factory contracts configured for chain: " +:+ destChain), w)
    end.

End Handler.
End AxelarGmp.

(** ** [steps/agoric-funding.ts]: Step 2, funding and IBC acknowledgement *)

Module AgoricFunding.

Record Params := {
  agoricAddress : option string;
  nobleAddress : option string;
  take : option Z
}.

(** [attributes.find((a) => a.key === k)]: reading [a.key] throws on an
    attribute that is [null] or [undefined]. *)
Fixpoint find_attribute (k : string) (attributes : list JS) : Exn JS :=
  match attributes with
  | [] => Ok JUndef
  | a :: rest =>
      key ← Js.getE "key" a;
      if Js.eqStr key k then Ok a else find_attribute k rest
  end.

(** The default of the destructuring [{ type, attributes = [] }]: it
    applies to [undefined] only. *)
Definition attributes_of (event : JS) : JS :=
  match Js.get "attributes" event with
  | JUndef => JArr []
  | v => v
  end.

Section Handler.
Context (P : Platform) (net : Network).

(** [for (const event of events)] in [extractReceiverFromLogs]. *)
Fixpoint receiver_of_events (events : list JS) : Exn JS :=
  match events with
  | [] => Ok JNull
  | event :: rest =>
      let type := Js.get "type" event in
      let attributes := attributes_of event in
      if Js.eqStr type LogEventType.RecvPacket
         || Js.eqStr type LogEventType.WriteAcknowledgement
      then
        attrs ← Js.asArray "find" attributes;
        a ← find_attribute "packet_data" attrs;
        let packetData := Js.get "value" a in
        if negb (Js.truthy packetData) then receiver_of_events rest
        else
          match JSON_parse P packetData with
          | Ok packet =>
              if Js.truthy (Js.get "receiver" packet)
              then Ok (Js.get "receiver" packet)
              else receiver_of_events rest
          | Throw _ => receiver_of_events rest
          end
      else if Js.eqStr type LogEventType.FungibleTokenPacket
      then
        attrs ← Js.asArray "find" attributes;
        a ← find_attribute "receiver" attrs;
        let receiver := Js.get "value" a in
        if Js.truthy receiver then Ok receiver else receiver_of_events rest
      else receiver_of_events rest
  end.

Definition extractReceiverFromLogs (logs : JS) : Exn JS :=
  match logs with
  | JArr ls => receiver_of_events (events_of_logs ls)
  | _ => Ok JNull
  end.

(** The items pushed for one message of the acknowledged transaction. *)
Definition packet_items (msg : JS) : list JS :=
  let packet := Js.get "packet" msg in
  (if Js.truthy (Js.get "sequence" packet)
   then [ Js.item "IBC Packet Seq" (JStr (Js.toString (Js.get "sequence" packet))) ]
   else [])
  ++ (if Js.truthy (Js.get "destination_channel" packet)
      then [ Js.item "IBC Channel"
               (JStr (Js.toString (Js.get "destination_channel" packet))) ]
      else [])
  ++ (if Js.truthy (Js.get "destination_port" packet)
      then [ Js.item "IBC Port"
               (JStr (Js.toString (Js.get "destination_port" packet))) ]
      else []).

(** The secondary lookup on Noble; it adds at most one item. *)
Definition noble_items (messages : list JS) (w : World) : list JS * World :=
  let packetMsg := Js.find (fun m => Js.truthy (Js.get "packet" m)) messages in
  let packet := Js.get "packet" packetMsg in
  if Js.truthy packet then
    let destChannel := Js.get "destination_channel" packet in
    let sequence := Js.get "sequence" packet in
    if Js.truthy destChannel && Js.truthy sequence then
      let '(hashes, w1) := getNobleTxByIbc net destChannel sequence w in
      match hashes with
      | nobleHash :: _ =>
          ([ Js.item_href "Noble Tx" nobleHash
               (JStr ("https://www.mintscan.io/noble/txs/" +:+ Js.toString nobleHash)) ],
           w1)
      | [] => ([], w1)
      end
    else ([], w)
  else ([], w).

(** The body of [if (receiverAddress === nobleAddress)], up to [break]. *)
Definition matched (nobleAddress : string) (tx : JS) (w : World)
    : Exn (list JS) * World :=
  match (txHash ← Js.getE "txhash" tx;
         let messages :=
           Js.or (Js.get "messages" (Js.get "body" (Js.get "tx" tx))) (JArr []) in
         msgs ← Js.iterate messages;
         found ← Js.asArray "find" messages;
         Ok (txHash, msgs, found)) with
  | Throw message => (Throw message, w)
  | Ok (txHash, msgs, found) =>
      let '(noble, w1) := noble_items found w in
      (Ok ([ Js.item_href "Agoric Tx" txHash
               (JStr ("https://www.mintscan.io/agoric/txs/" +:+ Js.toString txHash));
             Js.item "Receiver" (JStr nobleAddress) ]
           ++ List.concat (List.map packet_items msgs)
           ++ noble),
       w1)
  end.

(** [for (const tx of transactions)]: the items of the first transaction
    whose receiver is [nobleAddress], or [None] when the loop runs out. *)
Fixpoint scan (nobleAddress : string) (transactions : list JS) (w : World)
    : Exn (option (list JS)) * World :=
  match transactions with
  | [] => (Ok None, w)
  | tx :: rest =>
      match extractReceiverFromLogs (Js.or (Js.get "logs" tx) (JArr [])) with
      | Throw message => (Throw message, w)
      | Ok receiverAddress =>
          if Js.eqStr receiverAddress nobleAddress
          then
            let '(r, w1) := matched nobleAddress tx w in
            (Some <$> r, w1)
          else scan nobleAddress rest w
      end
  end.

Definition transactions_of (response : JS) : JS :=
  Js.or (Js.get "transactions" (Js.get "data" response))
        (Js.or (Js.get "transactions" response) (JArr [])).

Definition request_url (agoricAddress : string) (take : Z) : Url :=
  Href ("https://apis.mintscan.io/v1/agoric/accounts/" +:+ agoricAddress
          +:+ "/transactions?take=" +:+ Str.of_Z take
          +:+ "&messageTypes%5B0%5D=/ibc.core.channel.v1.MsgAcknowledgement").

Definition result (transactions : JS) (found : option (list JS)) : JS :=
  JObj [("title", JStr "Funding of Noble ICA + IBC ACK");
        ("found", JBool (bool_decide (is_Some found)));
        ("items", JArr (default [] found));
        ("message",
           match found with
           | Some _ => JUndef
           | None =>
               JStr ("No relevant IBC acknowledgment transactions found in the last "
                       +:+ Js.toString (Js.get "length" transactions)
                       +:+ " transactions (Mintscan limit: 20)")
           end)].

Definition respond (nobleAddress : string) (response : JS) (w : World)
    : ToolResponse * World :=
  let transactions := transactions_of response in
  match Js.iterate transactions with
  | Throw message =>
      (Error ("Error tracing Agoric funding ACK step: " +:+ message), w)
  | Ok txs =>
      match scan nobleAddress txs w with
      | (Ok found, w1) => (Success (result transactions found), w1)
      | (Throw message, w1) =>
          (Error ("Error tracing Agoric funding ACK step: " +:+ message), w1)
      end
  end.

Definition agoricFundingTxHandler (params : Params) (w : World)
    : ToolResponse * World :=
  if missing (agoricAddress params) || missing (nobleAddress params)
  then (Error "Missing required parameters", w)
  else
    let u := request_url (default "" (agoricAddress params))
                         (default 20%Z (take params)) in
    let '(response, w1) :=
      ApiClient.get net u "application/json" true 3 (getMintscanHeaders P) w in
    respond (default "" (nobleAddress params)) response w1.

End Handler.
End AgoricFunding.

(** ** [steps/final-evm.ts]: Step 4, the settlement on the EVM chain *)

Module FinalEvm.

Record Params := {
  destChain : option string;
  destinationEvmAddress : option string;
  expectedAmount : option string
}.

Definition transferTopic : string :=
  "0xddf252ad1be2c89b69c2b068fc378daa952ba7f163c4a11628f55a4df523b3ef".

Definition baseUrl : string := "https://api.etherscan.io/v2/api".

Definition not_found : JS :=
  JObj [("step", JStr "step4");
        ("title", JStr "Final EVM Transaction");
        ("found", JBool false);
        ("items", JArr []);
        ("message", JStr "No execute* transactions found")].

Definition amount_match : JS :=
  Js.item "Amount Match" (JStr "Matches expected base-unit amount").

(** [transactions.filter((t) => String(t.functionName || '').startsWith('execute'))] *)
Fixpoint executes_of (transactions : list JS) : Exn (list JS) :=
  match transactions with
  | [] => Ok []
  | t :: rest =>
      functionName ← Js.getE "functionName" t;
      r ← executes_of rest;
      Ok (if Str.startsWith "execute" (Js.toString (Js.or functionName (JStr "")))
          then t :: r else r)
  end.

(** [log.topics[2].slice(26)], as the text that is appended to ['0x']. *)
Definition slice26 (v : JS) : Exn string :=
  match v with
  | JStr s => Ok (Str.drop 26 s)
  | JArr xs => Ok (Js.toString (JArr (skipn 26 xs)))
  | JUndef | JNull =>
      Throw ("Cannot read properties of " +:+ Js.describe v +:+ " (reading 'slice')")
  | _ => Throw "slice is not a function"
  end.

(** What the body of the loop over [receipt.logs] does with one log. *)
Inductive LogStep : Type :=
| Skip
    (** not a transfer to the target address *)
| Unparsed (data : JS)
    (** [tokenTransferAmount = log.data], then [continue] *)
| Transfer (data : JS) (items : list JS)
    (** the items pushed before [break] *).

(** The block guarded by [if (expectedAmount)]. *)
Definition compare_expected (expectedAmount : option string) (amountBaseUnits : Z)
    : list JS :=
  if missing expectedAmount then []
  else
    match Js.BigInt (JStr (default "" expectedAmount)) with
    | Ok expectedBaseUnits =>
        if (amountBaseUnits =? expectedBaseUnits)%Z then [amount_match] else []
    | Throw _ => []
    end.

Section Handler.
Context (P : Platform) (net : Network).

(** The comparator [(a, b) => Number(b.timeStamp || 0) - Number(a.timeStamp || 0)],
    by its sign; a NaN counts as zero. *)
Definition by_time_desc (a b : JS) : comparison :=
  default Eq (Number_compare P (Js.or (Js.get "timeStamp" b) (JNum 0))
                               (Js.or (Js.get "timeStamp" a) (JNum 0))).

Fixpoint insert (x : JS) (l : list JS) : list JS :=
  match l with
  | [] => [x]
  | y :: r =>
      match by_time_desc x y with
      | Gt => y :: insert x r
      | _ => x :: l
      end
  end.

(** [executes.sort(...)]: the stable sort. *)
Definition sort (l : list JS) : list JS := fold_right insert [] l.

(** [len >= 3] *)
Definition at_least_3 (len : JS) : bool :=
  match len with
  | JNum n => (3 <=? n)%Z
  | _ => match Number_compare P len (JNum 3) with
         | Some Gt | Some Eq => true
         | _ => false
         end
  end.

Definition inspect (destinationEvmAddress : string) (expectedAmount : option string)
    (log : JS) : Exn LogStep :=
  topics ← Js.getE "topics" log;
  if Js.eqStr (Js.idx 0 topics) transferTopic && at_least_3 (Js.get "length" topics)
  then
    tail ← slice26 (Js.idx 2 topics);
    let toAddress := "0x" +:+ tail in
    if String.eqb (Str.toLowerCase toAddress) (Str.toLowerCase destinationEvmAddress)
    then
      let data := Js.get "data" log in
      match Js.BigInt data with
      | Throw _ => Ok (Unparsed data)
      | Ok amountBaseUnits =>
          Ok (Transfer data
                (Js.item "Token Transfer (base units)" (JStr (Str.of_Z amountBaseUnits))
                   :: compare_expected expectedAmount amountBaseUnits))
      end
    else Ok Skip
  else Ok Skip.

(** [for (const log of receipt.logs)]: the final [tokenTransferAmount] and
    the items pushed.  An exception ends the loop; the enclosing [catch]
    keeps what was assigned before. *)
Fixpoint scan_logs (destinationEvmAddress : string) (expectedAmount : option string)
    (logs : list JS) (tokenTransferAmount : JS) : JS * list JS :=
  match logs with
  | [] => (tokenTransferAmount, [])
  | log :: rest =>
      match inspect destinationEvmAddress expectedAmount log with
      | Throw _ => (tokenTransferAmount, [])
      | Ok Skip => scan_logs destinationEvmAddress expectedAmount rest tokenTransferAmount
      | Ok (Unparsed data) => scan_logs destinationEvmAddress expectedAmount rest data
      | Ok (Transfer data items) => (data, items)
      end
  end.

Definition receipt_url (chainId : Z) (hash : JS) (apiKey : string) : Url :=
  WithParams baseUrl
    [("chainid", Str.of_Z chainId); ("module", "proxy");
     ("action", "eth_getTransactionReceipt");
     ("txhash", Js.toString hash); ("apikey", apiKey)].

(** The inner [try] block: fetch the receipt and scan its logs. *)
Definition transfer_of_receipt (chainId : Z) (apiKey destinationEvmAddress : string)
    (expectedAmount : option string) (evmTx : JS) (w : World)
    : (JS * list JS) * World :=
  let '(receiptResponse, w1) :=
    ApiClient.get net (receipt_url chainId (Js.get "hash" evmTx) apiKey)
      "application/json" true 3 None w in
  let receipt := Js.get "result" receiptResponse in
  if Js.truthy (Js.get "logs" receipt) then
    match Js.iterate (Js.get "logs" receipt) with
    | Ok logs => (scan_logs destinationEvmAddress expectedAmount logs JNull, w1)
    | Throw _ => ((JNull, []), w1)
    end
  else ((JNull, []), w1).

(** [String(evmTx.functionName).split('(')[0]] *)
Definition method_name (functionName : JS) : string :=
  Str.before_paren (Js.toString functionName).

(** The items describing the transaction itself. *)
Definition tx_items (explorer : string) (evmTx : JS) : Exn (list JS) :=
  let field k := Js.get k evmTx in
  time ← (if Js.truthy (field "timeStamp")
          then t ← seconds_toISOString P (field "timeStamp");
               Ok [ Js.item "Time" (JStr t) ]
          else Ok []);
  Ok ((if Js.truthy (field "hash")
       then [ Js.item_href "Tx Hash" (field "hash")
                (if String.eqb explorer "" then JUndef
                 else JStr (explorer +:+ Js.toString (field "hash"))) ]
       else [])
      ++ (if Js.truthy (field "from") then [ Js.item "From" (field "from") ] else [])
      ++ (if Js.truthy (field "to") then [ Js.item "To" (field "to") ] else [])
      ++ (if Js.truthy (field "blockNumber")
          then [ Js.item "Block" (JStr (Js.toString (field "blockNumber"))) ] else [])
      ++ time
      ++ (if Js.truthy (field "functionName")
          then [ Js.item "Method" (JStr (method_name (field "functionName"))) ] else [])
      ++ (if Js.truthy (field "gasUsed")
          then [ Js.item "Gas Used" (JStr (Js.toString (field "gasUsed"))) ] else [])
      ++ (if Js.truthy (field "gasPrice")
          then [ Js.item "Gas Price (Gwei)" (JStr (gwei_toFixed2 P (field "gasPrice"))) ]
          else [])).

Definition sanitize (explorer : string) (evmTx : JS) : Exn JS :=
  let field k := Js.get k evmTx in
  timeStamp ← seconds_toISOString P (field "timeStamp");
  Ok (JObj [("hash", JStr (Js.toString (field "hash")));
            ("from", JStr (Js.toString (field "from")));
            ("to", JStr (Js.toString (field "to")));
            ("value", JStr (Js.toString (Js.coalesce (field "value") (JStr "0"))));
            ("blockNumber", Number_ P (Js.coalesce (field "blockNumber") (JNum 0)));
            ("timeStamp", JStr timeStamp);
            ("gasUsed", JStr (Js.toString (Js.coalesce (field "gasUsed") (JStr "0"))));
            ("gasPrice", JStr (Js.toString (Js.coalesce (field "gasPrice") (JStr "0"))));
            ("method",
               if Js.truthy (field "functionName")
               then JStr (method_name (field "functionName")) else JUndef);
            ("confirmations", Number_ P (Js.coalesce (field "confirmations") (JNum 0)));
            ("explorerUrl",
               if String.eqb explorer "" then JUndef
               else JStr (explorer +:+ Js.toString (field "hash")))]).

(** From the chosen transaction to the [found: true] result. *)
Definition report (chainInfo : ChainInfo) (apiKey destinationEvmAddress : string)
    (expectedAmount : option string) (evmTx : JS) (w : World)
    : Exn ToolResponse * World :=
  match tx_items (EXPLORER_URL chainInfo) evmTx with
  | Throw message => (Throw message, w)
  | Ok items =>
      let '((tokenTransferAmount, pushed), w1) :=
        transfer_of_receipt (CHAIN_ID chainInfo) apiKey destinationEvmAddress
          expectedAmount evmTx w in
      (sanitizedTx ← sanitize (EXPLORER_URL chainInfo) evmTx;
       Ok (Success (JObj [("title", JStr "Final EVM Transaction");
                          ("found", JBool true);
                          ("txHash", Js.get "hash" sanitizedTx);
                          ("tokenTransferAmount", tokenTransferAmount);
                          ("transaction", sanitizedTx);
                          ("items", JArr (items ++ pushed))])),
       w1)
  end.

(** [typeof result === 'string' ? result : message || 'NOTOK'] *)
Definition etherscan_error (message result : JS) : string :=
  match result with
  | JStr r => r
  | _ => Js.toString (Js.or message (JStr "NOTOK"))
  end.

(** The handler once the transaction list has been fetched.  An element
    that passes the filter is an object, so [!evmTx] holds exactly when no
    element passes. *)
Definition respond (chainInfo : ChainInfo) (apiKey destinationEvmAddress : string)
    (expectedAmount : option string) (response : JS) (w : World)
    : ToolResponse * World :=
  if negb (Js.truthy response) then (Error "Etherscan API request failed", w)
  else
    let status := Js.get "status" response in
    let message := Js.get "message" response in
    let result := Js.get "result" response in
    if Js.eqStr status "0" && negb (Js.isArray result)
    then (Error ("Etherscan error: " +:+ etherscan_error message result), w)
    else
      let transactions := match result with JArr ts => ts | _ => [] end in
      match executes_of transactions with
      | Throw m => (Error ("Error tracing final EVM transaction: " +:+ m), w)
      | Ok executes =>
          match sort executes with
          | [] => (Success not_found, w)
          | evmTx :: _ =>
              match report chainInfo apiKey destinationEvmAddress expectedAmount evmTx w with
              | (Ok r, w1) => (r, w1)
              | (Throw m, w1) =>
                  (Error ("Error tracing final EVM transaction: " +:+ m), w1)
              end
          end
      end.

Definition txlist_url (chainId : Z) (destinationEvmAddress apiKey : string) : Url :=
  WithParams baseUrl
    [("chainid", Str.of_Z chainId); ("module", "account"); ("action", "txlist");
     ("address", destinationEvmAddress); ("sort", "desc"); ("page", "1");
     ("offset", "20"); ("apikey", apiKey)].

Definition finalEvmTxHandler (params : Params) (w : World) : ToolResponse * World :=
  if missing (destChain params) || missing (destinationEvmAddress params)
  then (Error "Missing required parameters", w)
  else
    let destChain := canonicalizeChain (default "" (destChain params)) in
    let destinationEvmAddress := default "" (destinationEvmAddress params) in
    match getChainInfo destChain with
    | None => (Error ("Unsupported destination chain: " +:+ destChain), w)
    | Some chainInfo =>
        if missing (getEtherscanApiKey P)
        then (Error "Missing Etherscan API key", w)
        else
          let apiKey := default "" (getEtherscanApiKey P) in
          let '(response, w1) :=
            ApiClient.get net (txlist_url (CHAIN_ID chainInfo) destinationEvmAddress apiKey)
              "application/json" true 3 None w in
          respond chainInfo apiKey destinationEvmAddress (expectedAmount params)
            response w1
    end.

End Handler.
End FinalEvm.

(** ** [utils/api-client.ts]: joining a base address and an endpoint *)

(** [s.replace(/\/$/, '')]: a slash that is the last character is removed. *)
Fixpoint strip_trailing_slash (s : string) : string :=
  match s with
  | EmptyString => EmptyString
  | String c EmptyString => if Ascii.eqb c "/" then EmptyString else s
  | String c r => String c (strip_trailing_slash r)
  end.

Definition buildUrl (baseUrl endpoint : string) : string :=
  strip_trailing_slash baseUrl +:+ endpoint.

(** The last character of [s] is a slash. *)
Fixpoint ends_with_slash (s : string) : bool :=
  match s with
  | EmptyString => false
  | String c EmptyString => Ascii.eqb c "/"
  | String _ r => ends_with_slash r
  end.

(** ** [steps/complete-flow.ts]: the planner *)

Module CompleteFlow.

Record Params := {
  agoricAddress : option string;
  nobleAddress : option string;
  destChain : option string;
  destinationEvmAddress : option string;
  positionName : option string
}.

(** The plan for the position [USDN]. *)
Definition usdn_plan (agoricAddress nobleAddress : string) : JS :=
  JObj [("flow", JStr "USDN");
        ("message",
         JStr "USDN flow uses different steps: Agoric funding + IBC ACK, then Noble swap");
        ("recommendedSequence",
         JArr [JObj [("tool", JStr "trace-agoric-funding-ack-step");
                     ("params", JObj [("agoricAddress", JStr agoricAddress);
                                      ("nobleAddress", JStr nobleAddress);
                                      ("take", JNum 20)]);
                     ("description",
                      JStr "Find Agoric funding and IBC acknowledgment to Noble")];
               JObj [("tool", JStr "mintscan-get-address-transactions");
                     ("params", JObj [("network", JStr "noble");
                                      ("address", JStr nobleAddress);
                                      ("messageType", JStr "noble.swap.v1.Swapped")]);
                     ("description",
                      JStr "Find Noble swap transaction (USDC <> USDN)")]])].

(** The plan of the four tracing steps. *)
Definition cross_chain_plan (agoricAddress nobleAddress destChain
    destinationEvmAddress : string) : JS :=
  JObj [("flow", JStr "cross-chain");
        ("agoricAddress", JStr agoricAddress);
        ("nobleAddress", JStr nobleAddress);
        ("destChain", JStr destChain);
        ("destinationEvmAddress", JStr destinationEvmAddress);
        ("message",
         JStr "Execute these tools in sequence to trace the complete cross-chain flow:");
        ("recommendedSequence",
         JArr [JObj [("step", JNum 1);
                     ("tool", JStr "trace-axelar-gmp-step");
                     ("params", JObj [("destChain", JStr destChain);
                                      ("agoricAddress", JStr agoricAddress);
                                      ("size", JNum 1)]);
                     ("description",
                      JStr "Find Axelar GMP transaction for account creation on destination chain")];
               JObj [("step", JNum 2);
                     ("tool", JStr "trace-agoric-funding-ack-step");
                     ("params", JObj [("agoricAddress", JStr agoricAddress);
                                      ("nobleAddress", JStr nobleAddress);
                                      ("take", JNum 20)]);
                     ("description",
                      JStr "Find Agoric funding transaction and IBC acknowledgment to Noble ICA")];
               JObj [("step", JNum 3);
                     ("tool", JStr "trace-cctp-noble-step");
                     ("params", JObj [("nobleAddress", JStr nobleAddress);
                                      ("destChain", JStr destChain);
                                      ("destinationEvmAddress", JStr destinationEvmAddress);
                                      ("take", JNum 20)]);
                     ("description", JStr "Find CCTP burn transaction on Noble")];
               JObj [("step", JNum 4);
                     ("tool", JStr "trace-final-evm-step");
                     ("params", JObj [("destChain", JStr destChain);
                                      ("destinationEvmAddress", JStr destinationEvmAddress)]);
                     ("description",
                      JStr "Find final EVM transaction (add expectedAmount from step 3 if available)")]]);
        ("notes",
         JArr [JStr "Execute tools in order as each step may provide data needed for the next";
               JStr "Step 3 returns burnAmount which should be passed as expectedAmount to step 4";
               JStr "Each tool returns structured data with found/items/error fields"])].

(** [completeFlowHandler]: nothing in its [try] block throws. *)
Definition completeFlowHandler (params : Params) : ToolResponse :=
  if missing (agoricAddress params) || missing (nobleAddress params)
     || missing (destChain params) || missing (destinationEvmAddress params)
  then Error "Missing required parameters"
  else
    let agoricAddress := default "" (agoricAddress params) in
    let nobleAddress := default "" (nobleAddress params) in
    let destChain := canonicalizeChain (default "" (destChain params)) in
    let destinationEvmAddress := default "" (destinationEvmAddress params) in
    match positionName params with
    | Some "USDN" => Success (usdn_plan agoricAddress nobleAddress)
    | _ => Success (cross_chain_plan agoricAddress nobleAddress destChain
                      destinationEvmAddress)
    end.

End CompleteFlow.

(** ** The parameter schemas of the tools *)

(** The part of zod that the schemas use: a string or a number with its
    refinements, and [.optional()], which also accepts [undefined] (a
    [.default(v)] behind it then fills the value in). *)
Inductive Zod : Type :=
| ZString (check : string -> bool)
| ZNumber (check : Z -> bool)
| ZOptional (inner : Zod).

Fixpoint parses (z : Zod) (v : JS) : bool :=
  match z, v with
  | ZOptional _, JUndef => true
  | ZOptional inner, _ => parses inner v
  | ZString check, JStr s => check s
  | ZNumber check, JNum n => check n
  | _, _ => false
  end.

(** A tool is registered with the shape of its parameters; the server
    parses the arguments of a call against [z.object(shape)], which looks at
    the keys of the shape only. *)
Definition Shape : Type := list (string * Zod).

Definition accepts (shape : Shape) (args : JS) : bool :=
  match args with
  | JObj _ => forallb (fun '(k, z) => parses z (Js.get k args)) shape
  | _ => false
  end.

Definition any_string : Zod := ZString (fun _ => true).
Definition any_number : Zod := ZNumber (fun _ => true).
(** [z.string().min(1)] *)
Definition nonempty_string : Zod := ZString (fun s => negb (String.eqb s "")).

Definition axelarGmpTxHandlerSchema : Shape :=
  [("destChain", ZString Schema.evmChainEnum);
   ("agoricAddress", ZString Schema.bech32Agoric);
   ("size", ZOptional any_number)].

Definition agoricFundingTxHandlerSchema : Shape :=
  [("agoricAddress", ZString Schema.bech32Agoric);
   ("nobleAddress", ZString Schema.bech32Noble);
   ("take", ZOptional any_number)].

Definition cctpNobleTxHandlerSchema : Shape :=
  [("nobleAddress", ZString Schema.bech32Noble);
   ("destChain", ZString Schema.evmChainEnum);
   ("destinationEvmAddress", ZString Schema.evmAddress);
   ("take", ZOptional any_number)].

Definition finalEvmTxHandlerSchema : Shape :=
  [("destChain", ZString Schema.evmChainEnum);
   ("destinationEvmAddress", ZString Schema.evmAddress);
   ("expectedAmount", ZOptional any_string)].

Definition completeFlowSchema : Shape :=
  [("agoricAddress", ZString Schema.bech32Agoric);
   ("nobleAddress", ZString Schema.bech32Noble);
   ("destChain", ZString Schema.evmChainEnum);
   ("destinationEvmAddress", ZString Schema.evmAddress);
   ("positionName", ZOptional any_string)].

Definition fetchPortfolioAddressesSchema : Shape :=
  [("portfolioPath", any_string); ("network", ZOptional any_string)].

(** [tools/cross-chain-tracing/index.ts]: the tools in the order of their
    registration. *)
Definition registerCrossChainTracing : list (string * Shape) :=
  [("fetch-portfolio-addresses", fetchPortfolioAddressesSchema);
   ("trace-axelar-gmp-step", axelarGmpTxHandlerSchema);
   ("trace-agoric-funding-ack-step", agoricFundingTxHandlerSchema);
   ("trace-cctp-noble-step", cctpNobleTxHandlerSchema);
   ("trace-final-evm-step", finalEvmTxHandlerSchema);
   ("trace-complete-cross-chain-flow", completeFlowSchema)].

(** [tools/mintscan.ts]: the tools of the Mintscan module. *)
Definition registerMintscan : list (string * Shape) :=
  [("mintscan-search-transactions-by-hash", [("hash", nonempty_string)]);
   ("mintscan-get-network-tx-details",
    [("network", nonempty_string); ("hash", nonempty_string);
     ("height", ZOptional any_string)]);
   ("mintscan-get-account",
    [("network", nonempty_string); ("address", nonempty_string)]);
   ("mintscan-get-address-transactions",
    [("network", nonempty_string); ("address", nonempty_string);
     ("take", ZOptional (ZNumber (fun n => (0 <? n)%Z && (n <=? 200)%Z)));
     ("messageType", ZOptional any_string)])].

(** ** [steps/fetch-portfolio-addresses.ts]: reading a portfolio *)

Module Portfolio.

(** [s.split(sep)] for a separator of one character: the pieces between
    the occurrences of [sep], at least one piece. *)
Fixpoint split (sep : ascii) (s : string) : list string :=
  match s with
  | EmptyString => [EmptyString]
  | String c r =>
      if Ascii.eqb c sep then EmptyString :: split sep r
      else match split sep r with
           | piece :: pieces => String c piece :: pieces
           | [] => [String c EmptyString]
           end
  end.

(** [id.split(':').at(-1) || null] *)
Definition last_segment (id : string) : option string :=
  let piece := List.last (split ":" id) EmptyString in
  if String.eqb piece "" then None else Some piece.

(** [extractChainFromPosition] *)
Definition extractChainFromPosition (position : string) : option string :=
  if String.eqb position "USDN" then Some "noble"
  else
    match split "_" position with
    | [_; chain] =>
        if String.eqb (Str.toLowerCase chain) "" then None
        else Some (Str.toLowerCase chain)
    | _ => None
    end.

(** The tail shared by the three extractors:
    [if (typeof id !== 'string' || !id) return null;
     return id.split(':').at(-1) || null]. *)
Definition address_of_id (id : JS) : option string :=
  match id with
  | JStr s => if String.eqb s "" then None else last_segment s
  | _ => None
  end.

(** [extractAgoricLCAAddress] and [extractNobleAddress] *)
Definition extractAgoricLCAAddress (portfolio : JS) : option string :=
  address_of_id (Js.get "agoric" (Js.get "accountIdByChain" portfolio)).

Definition extractNobleAddress (portfolio : JS) : option string :=
  address_of_id (Js.get "noble" (Js.get "accountIdByChain" portfolio)).

(** [Object.entries(v)]: the own properties of an object in their order,
    the indexed elements of an array or of a string, nothing for a number or
    a boolean. *)
Fixpoint indexed {A} (i : nat) (l : list A) : list (string * A) :=
  match l with
  | [] => []
  | x :: r => (Str.of_Z (Z.of_nat i), x) :: indexed (S i) r
  end.

Definition entries (v : JS) : list (string * JS) :=
  match v with
  | JObj fields => fields
  | JArr xs => indexed 0 xs
  | JStr s => indexed 0 (List.map (fun c => JStr (String c EmptyString)) (Str.chars s))
  | _ => []
  end.

(** The reducer of [extractEvmAddress]: a string value is stored under the
    lower-case form of its key.  (On a plain object the assignment to the
    key [__proto__] stores nothing.) *)
Definition add_lower (acc : gmap string string) (entry : string * JS)
    : gmap string string :=
  match entry with
  | (k, JStr v) =>
      if String.eqb (Str.toLowerCase k) "__proto__" then acc
      else <[ Str.toLowerCase k := v ]> acc
  | _ => acc
  end.

(** [extractEvmAddress].  Reading a key that was not stored gives
    [undefined] or a member of [Object.prototype], which is not a string:
    both end in [null]. *)
Definition extractEvmAddress (portfolio : JS) (evmChain : string) : option string :=
  if String.eqb evmChain "" then None
  else
    let accountIdByChainLower :=
      fold_left add_lower
        (entries (Js.coalesce (Js.get "accountIdByChain" portfolio) (JObj [])))
        (∅ : gmap string string) in
    match accountIdByChainLower !! Str.toLowerCase evmChain with
    | Some id => if String.eqb id "" then None else last_segment id
    | None => None
    end.

End Portfolio.

(** ** [steps/fetch-portfolio-addresses.ts]: the handler *)

Module FetchPortfolio.

Record Params := {
  portfolioPath : option string;
  network : option string
}.

Definition MAIN_API : string := "https://main-a.api.agoric.net".

Definition supportedChains : list string :=
  ["avalanche"; "arbitrum"; "ethereum"; "optimism"; "base"].

(** [s.startsWith('#') ? s.slice(1) : s] *)
Definition strip_hash (s : string) : string :=
  match s with
  | String "#" r => r
  | _ => s
  end.

(** [null] or a string, as a value. *)
Definition nullable (s : option string) : JS :=
  match s with
  | Some t => JStr t
  | None => JNull
  end.

(** [for (const chain of supportedChains)]: the entries of [evmAddresses],
    in the order in which they are assigned. *)
Definition evmAddresses_of (portfolio : JS) : list (string * string) :=
  flat_map (fun chain =>
              match Portfolio.extractEvmAddress portfolio chain with
              | Some addr => [(chain, addr)]
              | None => []
              end) supportedChains.

(** [Object.keys(evmAddresses).join(', ')] *)
Fixpoint join_keys (keys : list string) : string :=
  match keys with
  | [] => ""
  | [k] => k
  | k :: r => k +:+ ", " +:+ join_keys r
  end.

(** [destChain ? evmAddresses[destChain] : null].  [evmAddresses] is a
    plain object whose own keys are supported chains; the one other name a
    chain read from a position can hit is [constructor], inherited from
    [Object.prototype] and a function. *)
Inductive Destination : Type :=
| NoDestination (v : JS)
    (** [null] without a chain, [undefined] without an entry *)
| Address (addr : string)
| ObjectConstructor.

Definition destination_of (evmAddresses : list (string * string))
    (destChain : option string) : Destination :=
  match destChain with
  | None => NoDestination JNull
  | Some chain =>
      match assoc chain evmAddresses with
      | Some addr => Address addr
      | None => if String.eqb chain "constructor" then ObjectConstructor
                else NoDestination JUndef
      end
  end.

Section Handler.
Context (P : Platform).
(** [makeGetRequest] of [utils], which is not among the sources: the body
    it returns for an address, or the message of what it throws. *)
Variable makeGetRequest : string -> Exn JS.
(** [JSON.stringify] on a value other than [undefined]. *)
Variable JSON_stringify : JS -> string.

(** [typeof v === 'string' ? v : JSON.stringify(v)], followed by the call
    of [startsWith] on the result. *)
Definition text_of (v : JS) : Exn string :=
  match v with
  | JStr s => Ok s
  | JUndef => Throw "Cannot read properties of undefined (reading 'startsWith')"
  | _ => Ok (JSON_stringify v)
  end.

(** The inner [try] block: from [response.value] to the portfolio. *)
Definition parse_portfolio (rawValue : JS) : Exn JS :=
  match rawValue with
  | JStr raw =>
      parsed ← JSON_parse P (JStr raw);
      match Js.get "values" parsed with
      | JArr (v :: vs) =>
          let latestValue := List.last (v :: vs) JUndef in
          bodyStr ← text_of latestValue;
          bodyData ← JSON_parse P (JStr (strip_hash bodyStr));
          if Js.truthy (Js.get "body" bodyData)
          then
            JSON_parse P
              (JStr (match Js.get "body" bodyData with
                     | JStr body => strip_hash body
                     | body => JSON_stringify body
                     end))
          else Ok bodyData
      | _ => JSON_parse P (JStr (strip_hash raw))
      end
  | _ => Ok rawValue
  end.

(** [positionName ? extractChainFromPosition(positionName) : null]; a
    truthy value that is not a string has no method [split]. *)
Definition destChain_of (positionName : JS) : Exn (option string) :=
  if Js.truthy positionName then
    match positionName with
    | JStr position => Ok (Portfolio.extractChainFromPosition position)
    | _ => Throw "position.split is not a function"
    end
  else Ok None.

(** From the portfolio to the data of the result.  A property whose value
    is a function is absent from the JSON text, like one that is
    [undefined]. *)
Definition summary (portfolioPath : string) (portfolio : JS) : Exn JS :=
  let agoricAddress := nullable (Portfolio.extractAgoricLCAAddress portfolio) in
  let nobleAddress := nullable (Portfolio.extractNobleAddress portfolio) in
  let evmAddresses := evmAddresses_of portfolio in
  let positionKeys :=
    match Js.get "positionKeys" portfolio with
    | JArr keys => keys
    | _ => []
    end in
  let positionName :=
    match positionKeys with
    | first :: _ => first
    | [] => JNull
    end in
  destChain ← destChain_of positionName;
  let destination := destination_of evmAddresses destChain in
  Ok (JObj
        [("portfolioPath", JStr portfolioPath);
         ("agoricAddress", agoricAddress);
         ("nobleAddress", nobleAddress);
         ("evmAddresses", JObj (List.map (fun '(k, v) => (k, JStr v)) evmAddresses));
         ("positionKeys", JArr positionKeys);
         ("positionName", positionName);
         ("destChain", nullable destChain);
         ("destinationEvmAddress",
          match destination with
          | NoDestination v => v
          | Address addr => JStr addr
          | ObjectConstructor => JUndef
          end);
         ("accountIdByChain", Js.or (Js.get "accountIdByChain" portfolio) (JObj []));
         ("message", JStr "Use these addresses with the trace-complete-cross-chain-flow tool");
         ("nextSteps",
          JObj [("tool", JStr "trace-complete-cross-chain-flow");
                ("params",
                 JObj [("agoricAddress", agoricAddress);
                       ("nobleAddress", nobleAddress);
                       ("destChain",
                        match destChain with
                        | Some chain => JStr chain
                        | None =>
                            JStr ("<choose from: "
                                    +:+ join_keys (List.map fst evmAddresses) +:+ ">")
                        end);
                       ("destinationEvmAddress",
                        match destination with
                        | Address addr => JStr addr
                        | ObjectConstructor => JUndef
                        | NoDestination _ =>
                            JStr "<use corresponding address from evmAddresses>"
                        end);
                       ("positionName", Js.or positionName JUndef)])])]).

Definition fetchPortfolioAddressesHandler (params : Params) : ToolResponse :=
  if missing (portfolioPath params)
  then Error "Missing required parameter: portfolioPath"
  else
    let portfolioPath := default "" (portfolioPath params) in
    let url := MAIN_API +:+ "/agoric/vstorage/data/" +:+ portfolioPath in
    match makeGetRequest url with
    | Throw message => Error ("Error fetching portfolio addresses: " +:+ message)
    | Ok response =>
        if negb (Js.truthy (Js.get "value" response))
        then Error "Portfolio not found or invalid vstorage path"
        else
          match parse_portfolio (Js.get "value" response) with
          | Throw message => Error ("Failed to parse portfolio data: " +:+ message)
          | Ok portfolio =>
              match summary portfolioPath portfolio with
              | Ok data => Success data
              | Throw message =>
                  Error ("Error fetching portfolio addresses: " +:+ message)
              end
          end
    end.

End Handler.
End FetchPortfolio.

(** ** Vocabulary of the statements *)

(** Reading back a string of hexadecimal byte pairs. *)
Fixpoint bytes_of_hex (s : string) : option (list N) :=
  match s with
  | EmptyString => Some []
  | String h (String l r) =>
      match Str.digit_value h, Str.digit_value l, bytes_of_hex r with
      | Some a, Some b, Some bs => Some ((a * 16 + b)%N :: bs)
      | _, _, _ => None
      end
  | String _ EmptyString => None
  end.

(** The lower-case hexadecimal digit of a value below sixteen. *)
Definition hex_digit (n : N) : ascii :=
  if (n <? 10)%N then ascii_of_N (n + 48) else ascii_of_N (n + 87).

(** The extraction that reports nothing. *)
Definition no_cctp_data : CctpLogExtraction :=
  {| mintRecipient := None; destinationDomain := None |}.

(** A log list that holds the single event [evt]. *)
Definition only_event (evt : JS) : JS :=
  JArr [JObj [("events", JArr [evt])]].

(** Step 3: what the logs of [tx] say, the transaction that burns towards
    the address [dest] on the chain of [chainInfo], and the transaction that
    is read without error and does not. *)
Definition cctp_data (tx : JS) : Exn CctpLogExtraction :=
  extractCctpDataFromLogs (Js.or (Js.get "logs" tx) (JArr [])).

Definition burns_to (chainInfo : ChainInfo) (dest : string) (e : CctpLogExtraction)
    : Prop :=
  (exists recipient,
     mintRecipient e = Some recipient
     /\ normalizeAddress recipient = normalizeAddress dest)
  /\ destinationDomain e = Some (DOMAIN chainInfo).

Definition other_burn (chainInfo : ChainInfo) (dest : string) (tx : JS) : Prop :=
  exists e, cctp_data tx = Ok e /\ ~ burns_to chainInfo dest e.

(** The messages of a transaction: [tx?.tx?.body?.messages]. *)
Definition messages_of (tx : JS) : JS :=
  Js.get "messages" (Js.get "body" (Js.get "tx" tx)).

(** A provider that cannot be reached: every attempt ends in the [catch]
    block of [makeRequest], whether [fetch] rejects, the status is not 2xx
    or the body is not JSON. *)
Definition unreachable (net : Network) : Prop :=
  forall n r, exists lastError, ApiClient.read true (net n r) = Throw lastError.




(** The search request of Step 1 for one factory contract. *)
Definition gmp_request (size : Z) (agoricAddress destChain factoryAddress : string)
    : Request :=
  {| method := "POST";
     url := AxelarGmp.searchGMP;
     headers := [("Accept", "application/json"); ("Content-Type", "application/json")];
     body := Some (AxelarGmp.search_body size agoricAddress factoryAddress destChain) |}.

(** Step 2: the receiver read from the logs of [tx], and the transaction
    that is read without error and names another receiver, or none.  The
    comparison is equality of values: a receiver that differs from the
    target in case, or in anything else, is another receiver. *)
Definition receiver_of (P : Platform) (tx : JS) : Exn JS :=
  AgoricFunding.extractReceiverFromLogs P (Js.or (Js.get "logs" tx) (JArr [])).

Definition other_receiver (P : Platform) (noble : string) (tx : JS) : Prop :=
  exists r, receiver_of P tx = Ok r /\ r <> JStr noble.

(** Step 4: a log of a receipt as the provider lists it, an object whose
    [topics] are an array of strings; the log that records a transfer of
    [amount] base units to [dest]; and the expected amount that was
    supplied, reads as a big integer and is that amount. *)
Definition is_string (v : JS) : bool :=
  match v with
  | JStr _ => true
  | _ => false
  end.

Definition receipt_log (log : JS) : bool :=
  match log with
  | JObj _ =>
      match Js.get "topics" log with
      | JArr topics => forallb is_string topics
      | _ => false
      end
  | _ => false
  end.

Definition transfer_to (dest : string) (log : JS) (amount : Z) : Prop :=
  exists topics recipient,
    Js.get "topics" log = JArr topics
    /\ 3 <= length topics
    /\ nth 0 topics JUndef = JStr FinalEvm.transferTopic
    /\ nth 2 topics JUndef = JStr recipient
    /\ Str.toLowerCase ("0x" +:+ Str.drop 26 recipient) = Str.toLowerCase dest
    /\ Js.BigInt (Js.get "data" log) = Ok amount.

Definition supplied (expected : option string) (amount : Z) : Prop :=
  exists s, expected = Some s /\ s <> "" /\ Js.stringToBigInt s = Some amount.

(** AddressMatch of the specification: two address-like strings are equal
    after case folding and without the prefix [0x]. *)
Definition unprefixed (s : string) : string :=
  match s with
  | String "0" (String "x" r) => r
  | String "0" (String "X" r) => r
  | _ => s
  end.

Definition AddressMatch (a b : string) : Prop :=
  Str.toLowerCase (unprefixed a) = Str.toLowerCase (unprefixed b).

(** Step 3 in the words of the specification: the logs of the transaction
    decode to a recipient that matches the target address and name the
    domain of the chain; the transaction whose logs are read without error
    and do not; and the message that carries the burn, of type [MsgBurn]
    with an [amount]. *)
Definition burn_target (chainInfo : ChainInfo) (dest : string)
    (e : CctpLogExtraction) : Prop :=
  (exists recipient, mintRecipient e = Some recipient /\ AddressMatch recipient dest)
  /\ destinationDomain e = Some (DOMAIN chainInfo).

Definition burn_match (chainInfo : ChainInfo) (dest : string) (tx : JS) : Prop :=
  exists e, cctp_data tx = Ok e /\ burn_target chainInfo dest e.

Definition burn_mismatch (chainInfo : ChainInfo) (dest : string) (tx : JS) : Prop :=
  exists e, cctp_data tx = Ok e /\ ~ burn_target chainInfo dest e.

Definition carries_burn (msg : JS) : Prop :=
  Js.get "@type" msg = JStr "/circle.fiattokenfactory.v1.MsgBurn"
  /\ Js.truthy (Js.get "amount" msg) = true.

(** The messages of a transaction, none when the field is missing:
    [tx?.tx?.body?.messages || []]. *)
Definition messages_or_none (tx : JS) : JS := Js.or (messages_of tx) (JArr []).

(** Step 2: the item that shows the hash of a transaction. *)
Definition agoric_tx_item (tx : JS) : JS :=
  Js.item_href "Agoric Tx" (Js.get "txhash" tx)
    (JStr ("https://www.mintscan.io/agoric/txs/" +:+ Js.toString (Js.get "txhash" tx))).

(** Step 4: a log as the provider lists it that records no transfer to
    [dest] with data that reads as an integer. *)
Definition other_log (dest : string) (log : JS) : Prop :=
  receipt_log log = true /\ forall amount, ~ transfer_to dest log amount.

(** *** Vocabulary of the further properties *)

(** What a recommended step of a plan names. *)
Definition tool_of (step : JS) : string := Js.toString (Js.get "tool" step).

Definition callable (tools : list (string * Shape)) (step : JS) : Prop :=
  exists shape,
    assoc (tool_of step) tools = Some shape
    /\ accepts shape (Js.get "params" step) = true.

(** How often the character [c] occurs in [s]. *)
Fixpoint occurrences (c : ascii) (s : string) : nat :=
  match s with
  | EmptyString => 0
  | String a r => (if Ascii.eqb a c then 1 else 0) + occurrences c r
  end.

(** [id] ends in the segment [a]: [a] is not empty, holds no colon, and is
    all of [id] or what follows its last colon. *)
Definition last_segment_is (id a : string) : Prop :=
  a <> "" /\ occurrences ":" a = 0
  /\ (id = a \/ exists pre, id = pre +:+ ":" +:+ a).

(** Step 3: the attribute [a] is recorded by the reducer of
    [extractCctpDataFromLogs] under the key [k]. *)
Definition records (k : string) (a : JS) : bool :=
  Js.truthy (Js.get "key" a) && negb (Js.nullish (Js.get "value" a))
  && String.eqb (Js.toString (Js.get "key" a)) k.

(** The delays of an exponential backoff that starts at [d]: [d], [2d],
    [4d], ... *)
Fixpoint backoff (d : Z) (n : nat) : list Z :=
  match n with
  | O => []
  | S k => d :: backoff (d * 2) k
  end.

(** The request that [makeRequest] hands to [fetch]. *)
Definition request_of (u : Url) (meth : string) (optionHeaders : list (string * string))
    (payload : option JS) (acceptHeaders : string) : Request :=
  {| method := meth; url := u;
     headers := ("Accept", acceptHeaders) :: optionHeaders;
     body := payload |}.

(** The attempt made at time [t] ends in the [catch] block. *)
Definition fails (net : Network) (toJson : bool) (r : Request) (t : nat) : Prop :=
  exists lastError, ApiClient.read toJson (net t r) = Throw lastError.

(** The requests of consecutive calls of the client: the [i]-th call sends
    its request [ks !! i] times. *)
Fixpoint calls (requests : list Request) (ks : list nat) : list Request :=
  match requests, ks with
  | r :: rs, k :: ks' => repeat r k ++ calls rs ks'
  | _, _ => []
  end.

(** Between one and three attempts, as a call with three retries makes. *)
Definition attempted (k : nat) : Prop := 1 <= k <= 3.

(** The reverse lookup of [getNobleTxByIbc]: the query it builds from the
    channel and the sequence, and the request that carries it. *)
Definition ibc_query (channel sequence : JS) : string :=
  "recv_packet.packet_dst_channel='" +:+ Str.remove_squotes (Js.toString channel)
    +:+ "' AND recv_packet.packet_sequence='"
    +:+ Str.remove_squotes (Js.toString sequence) +:+ "'".

Definition ibc_request (channel sequence : JS) : Request :=
  request_of
    (WithParams "https://noble-api.polkachu.com/cosmos/tx/v1beta1/txs"
       [("pagination.limit", "3"); ("limit", "3");
        ("query", ibc_query channel sequence)])
    "GET" [] None "application/json".

(** Step 4: the filter of [executes], the time stamp that the comparator
    reads, and a list whose time stamps are the numbers [key]: on it the
    comparator is the comparison of the keys. *)
Definition is_execute (t : JS) : bool :=
  Str.startsWith "execute" (Js.toString (Js.or (Js.get "functionName" t) (JStr ""))).

Definition timeStamp_of (t : JS) : JS := Js.or (Js.get "timeStamp" t) (JNum 0).

Definition dated (P : Platform) (key : JS -> Z) (l : list JS) : Prop :=
  forall a b, In a l -> In b l ->
    Number_compare P (timeStamp_of a) (timeStamp_of b) = Some (key a ?= key b)%Z.

(** ** Sample payloads *)

(** Concrete providers and payloads on which the statements are exercised.
    The platform below agrees with JavaScript on the values that occur in
    them: ISO timestamps, decimal strings and small integers. *)
Module Sample.

Definition number (v : JS) : option Z :=
  match v with
  | JNum n => Some n
  | JStr s => Z.of_N <$> Str.parse_digits 10 s
  | _ => None
  end.

Definition platform : Platform :=
  {| JSON_parse := fun _ => Throw "Unexpected token";
     Date_toISOString := fun v =>
       match v with
       | JStr "2025-03-01T12:00:00.000Z" => Ok "2025-03-01T12:00:00.000Z"
       | _ => Throw "Invalid time value"
       end;
     seconds_toISOString := fun v =>
       match v with
       | JStr "0" => Ok "1970-01-01T00:00:00.000Z"
       | _ => Throw "Invalid time value"
       end;
     Number_ := fun v => match number v with Some n => JNum n | None => JNull end;
     Number_compare := fun x y =>
       match number x, number y with
       | Some a, Some b => Some (a ?= b)%Z
       | _, _ => None
       end;
     gwei_toFixed2 := fun _ => "0.00";
     MINTSCAN_ACCESS_TOKEN := Some "token";
     ETHERSCAN_API_KEY := Some "key" |}.

(** A provider that always answers [200 OK] with the body [v]. *)
Definition always (v : JS) : Network := fun _ _ => Response 200 "OK" (Ok v) "".

(** A provider that is down: every request ends in [503]. *)
Definition down : Network :=
  fun _ _ => Response 503 "Service Unavailable" (Throw "Unexpected token") "".

Definition quoted (s : string) : string :=
  String Str.dquote (s +:+ String Str.dquote EmptyString).

Definition attribute (k v : string) : JS :=
  JObj [("key", JStr k); ("value", JStr v)].

Definition nobleAddress : string := "noble1qqqqqqqqqqqqqqqqqqqqqqqqqqqqqqqqqqqqqqq".
Definition agoricAddress : string := "agoric1qqqqqqqqqqqqqqqqqqqqqqqqqqqqqqqqqqqqqqq".
Definition evmAddress : string := "0x1234567890abcdef1234567890abcdef1234abcd".

Definition burn_message : JS :=
  JObj [("@type", JStr "/circle.fiattokenfactory.v1.MsgBurn");
        ("amount", JObj [("amount", JStr "1000000"); ("denom", JStr "uusdc")])].

(** A burn of 1000000 uusdc towards [evmAddress] on domain [domain]; the
    recipient is the address left-padded to thirty-two bytes. *)
Definition burn_tx (hash domain : string) : JS :=
  JObj [("txhash", JStr hash);
        ("height", JStr "1200");
        ("code", JNum 0);
        ("timestamp", JStr "2025-03-01T12:00:00.000Z");
        ("logs",
         JArr [JObj [("events",
           JArr [JObj [("type", JStr "message");
                       ("attributes", JArr [attribute "action" "burn"])];
                 JObj [("type", JStr "circle.cctp.v1.DepositForBurn");
                       ("attributes",
                        JArr [attribute "destination_domain" domain;
                              attribute "mint_recipient"
                                (quoted "AAAAAAAAAAAAAAAAEjRWeJCrze8SNFZ4kKvN7xI0q80=")])]])]]);
        ("tx", JObj [("body", JObj [("messages", JArr [burn_message])])])].

Definition cctp_params : CctpNoble.Params :=
  {| CctpNoble.nobleAddress := Some nobleAddress;
     CctpNoble.destChain := Some "avalanche";
     CctpNoble.destinationEvmAddress := Some evmAddress;
     CctpNoble.take := None |}.

Definition gmp_params : AxelarGmp.Params :=
  {| AxelarGmp.destChain := Some "avalanche";
     AxelarGmp.agoricAddress := Some agoricAddress;
     AxelarGmp.size := None |}.

Definition funding_params : AgoricFunding.Params :=
  {| AgoricFunding.agoricAddress := Some agoricAddress;
     AgoricFunding.nobleAddress := Some nobleAddress;
     AgoricFunding.take := None |}.

Definition evm_params (expected : option string) : FinalEvm.Params :=
  {| FinalEvm.destChain := Some "avalanche";
     FinalEvm.destinationEvmAddress := Some evmAddress;
     FinalEvm.expectedAmount := expected |}.

(** The Ethereum contracts of the registry, in order. *)
Definition contract1 : string := "0x647Ead1a35dbC2b0160Cbe6e565f25C4915a125F".
Definition contract2 : string := "0x3bF3056835f7C25b1f71aff99B734Ad07d644577".
Definition contract3 : string := "0x6ca3e8BFe9196A463136cB2442672e46BBe00BCc".

Definition gmp_record (id : string) : JS :=
  JObj [("call", JObj [("_id", JStr id); ("event", JStr "ContractCall");
                       ("transactionHash", JStr "0xsource")]);
        ("approved", JObj [("transactionHash", JStr "0xdestination")])].


(** An acknowledged transfer whose token packet names [receiver]. *)
Definition ack_tx (hash receiver : string) : JS :=
  JObj [("txhash", JStr hash);
        ("logs",
         JArr [JObj [("events",
           JArr [JObj [("type", JStr "fungible_token_packet");
                       ("attributes",
                        JArr [attribute "sender" agoricAddress;
                              attribute "receiver" receiver])]])]]);
        ("tx", JObj [("body", JObj [("messages",
           JArr [JObj [("packet", JObj [("sequence", JStr "7");
                                        ("destination_port", JStr "transfer")])]])])])].

(** Etherscan, as a provider that answers the transaction list with
    [txlist] and the receipt lookup with [receipt]. *)
Definition etherscan (txlist receipt : JS) : Network := fun _ r =>
  match url r with
  | WithParams _ params =>
      match assoc "module" params with
      | Some "proxy" => Response 200 "OK" (Ok receipt) ""
      | _ => Response 200 "OK" (Ok txlist) ""
      end
  | Href _ => NetworkError "fetch failed"
  end.

Definition execute_tx : JS :=
  JObj [("hash", JStr "0xfeed");
        ("from", JStr "0x00000000000000000000000000000000000000aa");
        ("to", JStr evmAddress);
        ("value", JStr "0");
        ("blockNumber", JStr "100");
        ("timeStamp", JStr "0");
        ("functionName", JStr "execute(bytes32 commandId, string sourceChain)")].

Definition txlist (status : string) (result : JS) : JS :=
  JObj [("status", JStr status); ("message", JStr "No transactions found");
        ("result", result)].

(** An approval, then a transfer of 1000000 base units to [evmAddress]. *)
Definition approval_log : JS :=
  JObj [("topics",
         JArr [JStr "0x8c5be1e5ebec7d5bd14f71427d1e84f3dd0314c0f7b2291e5b200ac8c7c3b925";
               JStr "0x00000000000000000000000000000000000000000000000000000000000000aa";
               JStr "0x0000000000000000000000001234567890abcdef1234567890abcdef1234abcd"]);
        ("data", JStr "0x01")].

Definition transfer_log : JS :=
  JObj [("topics",
         JArr [JStr FinalEvm.transferTopic;
               JStr "0x00000000000000000000000000000000000000000000000000000000000000aa";
               JStr "0x0000000000000000000000001234567890ABCDEF1234567890abcdef1234abcd"]);
        ("data",
         JStr "0x00000000000000000000000000000000000000000000000000000000000f4240")].

Definition receipt : JS :=
  JObj [("result", JObj [("logs", JArr [approval_log; transfer_log])])].

(** A log with an event that carries CCTP-looking attributes under another
    type, and a burn event. *)
Definition message_event : JS :=
  JObj [("type", JStr "message");
        ("attributes",
         JArr [attribute "mint_recipient" "EjRWeJCrze8SNFZ4kKvN7xI0q80=";
               attribute "destination_domain" "7"])].

Definition burn_event : JS :=
  JObj [("type", JStr "circle.cctp.v1.DepositForBurn");
        ("attributes", JArr [attribute "destination_domain" "1"])].

(** A page of burns: one towards Arbitrum, then two towards Avalanche. *)
Definition burn_page : list JS :=
  [burn_tx "AA11" "3"; burn_tx "BB22" "1"; burn_tx "CC33" "1"].

Definition mintscan (page : list JS) : Network :=
  always (JObj [("transactions", JArr page)]).

(** A page of acknowledgements: the first names the target in capitals. *)
Definition ack_page : list JS :=
  [ack_tx "H1" "NOBLE1QQQQQQQQQQQQQQQQQQQQQQQQQQQQQQQQQQQQQQQ";
   ack_tx "H2" nobleAddress; ack_tx "H3" nobleAddress].

Definition settled : Network :=
  etherscan (txlist "1" (JArr [execute_tx])) receipt.

End Sample.

(** ** Further sample payloads *)

Module Cases.

(** A provider that answers [503] to its first [failures] requests and
    [200 OK] with the body [v] from then on. *)
Definition flaky (failures : nat) (v : JS) : Network := fun t _ =>
  if (t <? failures)%nat
  then Response 503 "Service Unavailable" (Throw "Unexpected token") ""
  else Response 200 "OK" (Ok v) "".

(** The twenty bytes of [Sample.evmAddress] and the zero bytes that pad
    them to a word of thirty-two. *)
Definition address_bytes : list N :=
  [18; 52; 86; 120; 144; 171; 205; 239; 18; 52; 86; 120; 144; 171; 205; 239;
   18; 52; 171; 205]%N.

Definition padding : list N := repeat 0%N 12.

(** A burn event that names its destination domain twice. *)
Definition twice_event : JS :=
  JObj [("type", JStr "circle.cctp.v1.DepositForBurn");
        ("attributes",
         JArr [Sample.attribute "destination_domain" "1";
               Sample.attribute "destination_domain" (Sample.quoted "3");
               Sample.attribute "amount" "1000000"])].

(** Transactions of an account: a transfer, then three calls of
    [execute], the second and the third at the same, latest, time. *)
Definition call (hash functionName timeStamp : string) : JS :=
  JObj [("hash", JStr hash);
        ("from", JStr "0x00000000000000000000000000000000000000aa");
        ("to", JStr Sample.evmAddress);
        ("timeStamp", JStr timeStamp);
        ("functionName", JStr functionName)].

Definition account_txs : list JS :=
  [call "0xa1" "transfer(address to, uint256 value)" "1740830500";
   call "0xb2" "execute(bytes32 commandId)" "1740830300";
   call "0xc3" "execute(bytes32 commandId)" "1740830400";
   call "0xd4" "executeWithToken(bytes32 commandId)" "1740830400"].

(** The platform of the samples, with a calendar that knows the latest of
    these time stamps. *)
Definition platform : Platform :=
  {| JSON_parse := JSON_parse Sample.platform;
     Date_toISOString := Date_toISOString Sample.platform;
     seconds_toISOString := fun v =>
       match v with
       | JStr "1740830400" => Ok "2025-03-01T12:00:00.000Z"
       | _ => Throw "Invalid time value"
       end;
     Number_ := Number_ Sample.platform;
     Number_compare := Number_compare Sample.platform;
     gwei_toFixed2 := gwei_toFixed2 Sample.platform;
     MINTSCAN_ACCESS_TOKEN := None;
     ETHERSCAN_API_KEY := Some "key" |}.

(** The time stamp of a transaction as a number. *)
Definition seconds (t : JS) : Z := default 0%Z (Sample.number (timeStamp_of t)).

(** A portfolio as vstorage publishes it once unwrapped, and the service
    that answers with it. *)
Definition portfolio (position : string) : JS :=
  JObj [("accountIdByChain",
         JObj [("agoric", JStr "cosmos:agoric-3:agoric1qqqqqqqqqqqqqqqqqqqqqqqqqqqqqqqqqqqqqqq");
               ("noble", JStr "cosmos:noble-1:noble1qqqqqqqqqqqqqqqqqqqqqqqqqqqqqqqqqqqqqqq");
               ("Arbitrum", JStr "eip155:42161:0x1234567890abcdef1234567890abcdef1234abcd")]);
        ("positionKeys", JArr [JStr position])].

Definition vstorage (position : string) : string -> Exn JS :=
  fun _ => Ok (JObj [("value", portfolio position)]).

(** The portfolio above reaches the handler as an object: nothing is
    rendered as text. *)
Definition stringify : JS -> string := fun _ => "null".

Definition portfolio_params : FetchPortfolio.Params :=
  {| FetchPortfolio.portfolioPath := Some "published.ymax0.portfolios.portfolio0";
     FetchPortfolio.network := None |}.

(** The target address of the samples with capitals among its digits. *)
Definition capitals : string := "0x1234567890ABCDEF1234567890abcdef1234ABCD".

Definition capitals_params : CctpNoble.Params :=
  {| CctpNoble.nobleAddress := Some Sample.nobleAddress;
     CctpNoble.destChain := Some "avalanche";
     CctpNoble.destinationEvmAddress := Some capitals;
     CctpNoble.take := None |}.

(** The logs of a burn towards [Sample.evmAddress] on domain [domain]. *)
Definition burn_logs (domain : string) : JS :=
  JArr [JObj [("events",
    JArr [JObj [("type", JStr "circle.cctp.v1.DepositForBurn");
                ("attributes",
                 JArr [Sample.attribute "destination_domain" domain;
                       Sample.attribute "mint_recipient"
                         (Sample.quoted "AAAAAAAAAAAAAAAAEjRWeJCrze8SNFZ4kKvN7xI0q80=")])]])]].

(** A bank transfer: it holds an [amount], under another type. *)
Definition send_message : JS :=
  JObj [("@type", JStr "/cosmos.bank.v1beta1.MsgSend");
        ("amount", JArr [JObj [("amount", JStr "5"); ("denom", JStr "uusdc")]])].

(** A burn whose messages open with a bank transfer, and a burn that
    comes without a timestamp. *)
Definition burn_after_send (hash domain : string) : JS :=
  JObj [("txhash", JStr hash);
        ("height", JStr "1200");
        ("code", JNum 0);
        ("timestamp", JStr "2025-03-01T12:00:00.000Z");
        ("logs", burn_logs domain);
        ("tx", JObj [("body",
           JObj [("messages", JArr [send_message; Sample.burn_message])])])].

Definition untimed_burn (hash domain : string) : JS :=
  JObj [("txhash", JStr hash);
        ("height", JStr "1200");
        ("code", JNum 0);
        ("logs", burn_logs domain);
        ("tx", JObj [("body", JObj [("messages", JArr [Sample.burn_message])])])].

Definition mixed_page : list JS :=
  [Sample.burn_tx "AA11" "3"; burn_after_send "BB22" "1"; Sample.burn_tx "CC33" "1"].

(** A call of [execute] that comes without a time stamp. *)
Definition untimed_execute_tx : JS :=
  JObj [("hash", JStr "0xfeed");
        ("from", JStr "0x00000000000000000000000000000000000000aa");
        ("to", JStr Sample.evmAddress);
        ("value", JStr "0");
        ("blockNumber", JStr "100");
        ("functionName", JStr "execute(bytes32 commandId, string sourceChain)")].

Definition untimed : Network :=
  Sample.etherscan (Sample.txlist "1" (JArr [untimed_execute_tx])) Sample.receipt.

End Cases.

(** * Properties *)

(** ** Basic facts *)

Section Basics.

Lemma append_cons c s t : String c s +:+ t = String c (s +:+ t).
Proof. reflexivity. Qed.

Lemma append_nil t : "" +:+ t = t.
Proof. reflexivity. Qed.

Lemma eqStr_iff v s : Js.eqStr v s = true <-> v = JStr s.
Proof.
  destruct v; cbn; try (split; [discriminate|intros [=]]).
  rewrite String.eqb_eq. split; [now intros ->|now intros [= ->]].
Qed.

Lemma find_none p xs :
  Forall (fun x => p x = false) xs -> Js.find p xs = JUndef.
Proof. induction 1 as [|x r Hx _ IH]; simpl; [reflexivity|]. now rewrite Hx. Qed.

Lemma find_first p pre x post :
  Forall (fun y => p y = false) pre -> p x = true ->
  Js.find p (pre ++ x :: post) = x.
Proof.
  induction 1 as [|y r Hy _ IH]; simpl; intros Hx.
  - now rewrite Hx.
  - rewrite Hy. now apply IH.
Qed.

Lemma missing_false s : s <> "" -> missing (Some s) = false.
Proof. intros H. cbn. now apply String.eqb_neq. Qed.

Lemma getChainInfo_nonempty chain chainInfo :
  getChainInfo (canonicalizeChain chain) = Some chainInfo -> chain <> "".
Proof. intros H ->. discriminate H. Qed.

Lemma evmAddress_nonempty dest : Schema.evmAddress dest = true -> dest <> "".
Proof. intros H ->. discriminate H. Qed.

(** Every chain of the registry has a factory contract. *)
Lemma getChainInfo_contracts chain chainInfo :
  getChainInfo chain = Some chainInfo -> FACTORY_CONTRACTS chainInfo <> [].
Proof.
  unfold getChainInfo, EVM_CHAIN_INFO. cbn [assoc].
  repeat destruct (String.eqb _ _); intros [= <-]; discriminate.
Qed.

End Basics.

(** ** Properties of [normalizeAddress] *)

Section NormalizeAddress.

Lemma lower_char_idem c : Str.lower_char (Str.lower_char c) = Str.lower_char c.
Proof. destruct c as [[] [] [] [] [] [] [] []]; reflexivity. Qed.

Lemma lower_char_space c : Str.is_space (Str.lower_char c) = Str.is_space c.
Proof. destruct c as [[] [] [] [] [] [] [] []]; reflexivity. Qed.

Lemma lower_char_hex c :
  Str.is_hex_digit c = true -> Str.is_lower_hex_digit (Str.lower_char c) = true.
Proof. destruct c as [[] [] [] [] [] [] [] []]; vm_compute; congruence. Qed.

Lemma lower_hex_not_space c :
  Str.is_lower_hex_digit c = true -> Str.is_space c = false.
Proof. destruct c as [[] [] [] [] [] [] [] []]; vm_compute; congruence. Qed.

Lemma lower_hex_not_x c :
  Str.is_lower_hex_digit c = true -> Ascii.eqb "x" c = false.
Proof. destruct c as [[] [] [] [] [] [] [] []]; vm_compute; congruence. Qed.

Lemma lower_hex_is_lower c :
  Str.is_lower_hex_digit c = true -> Str.lower_char c = c.
Proof. destruct c as [[] [] [] [] [] [] [] []]; vm_compute; congruence. Qed.

Lemma toLowerCase_idem s : Str.toLowerCase (Str.toLowerCase s) = Str.toLowerCase s.
Proof.
  unfold Str.toLowerCase.
  induction s as [|c r IH]; simpl; [reflexivity|].
  now rewrite lower_char_idem, IH.
Qed.

Lemma toLowerCase_hex s :
  Str.forallb Str.is_hex_digit s = true ->
  Str.forallb Str.is_lower_hex_digit (Str.toLowerCase s) = true.
Proof.
  unfold Str.toLowerCase.
  induction s as [|c r IH]; simpl; [reflexivity|].
  intros [Hc Hr]%andb_prop. now rewrite lower_char_hex, IH.
Qed.

Lemma toLowerCase_fixed s :
  Str.forallb Str.is_lower_hex_digit s = true -> Str.toLowerCase s = s.
Proof.
  unfold Str.toLowerCase.
  induction s as [|c r IH]; simpl; [reflexivity|].
  intros [Hc Hr]%andb_prop. now rewrite lower_hex_is_lower, IH.
Qed.

Lemma trimStart_lower s :
  Str.trimStart (Str.toLowerCase s) = Str.toLowerCase (Str.trimStart s).
Proof.
  unfold Str.toLowerCase.
  induction s as [|c r IH]; simpl; [reflexivity|].
  rewrite lower_char_space. now destruct (Str.is_space c).
Qed.

Lemma trimEnd_lower s :
  Str.trimEnd (Str.toLowerCase s) = Str.toLowerCase (Str.trimEnd s).
Proof.
  unfold Str.toLowerCase.
  induction s as [|c r IH]; simpl; [reflexivity|].
  rewrite IH, lower_char_space.
  destruct (Str.trimEnd r); simpl; [now destruct (Str.is_space c)|reflexivity].
Qed.

Lemma trim_lower s : Str.trim (Str.toLowerCase s) = Str.toLowerCase (Str.trim s).
Proof. unfold Str.trim. now rewrite trimStart_lower, trimEnd_lower. Qed.

Lemma trimEnd_lower_hex s :
  Str.forallb Str.is_lower_hex_digit s = true -> Str.trimEnd s = s.
Proof.
  induction s as [|c r IH]; simpl; [reflexivity|].
  intros [Hc Hr]%andb_prop. rewrite (IH Hr), (lower_hex_not_space _ Hc).
  now destruct r.
Qed.

Lemma trim_lower_hex s :
  Str.forallb Str.is_lower_hex_digit s = true -> Str.trim s = s.
Proof.
  intros H. unfold Str.trim.
  replace (Str.trimStart s) with s; [now apply trimEnd_lower_hex|].
  destruct s as [|c r]; simpl in *; [reflexivity|].
  apply andb_prop in H as [Hc _]. now rewrite (lower_hex_not_space _ Hc).
Qed.

Lemma strip_0x_lower_hex s :
  Str.forallb Str.is_lower_hex_digit s = true -> Str.strip_0x s = s.
Proof.
  intros H. unfold Str.strip_0x.
  destruct s as [|a [|b r]]; cbn [Str.startsWith Str.forallb] in *.
  - reflexivity.
  - now rewrite andb_false_r.
  - apply andb_prop in H as [_ [Hb _]%andb_prop].
    now rewrite (lower_hex_not_x _ Hb), andb_false_r.
Qed.

(** On lower-case hexadecimal digits the three stages are the identity. *)
Lemma normalizeAddress_lower_hex s :
  Str.forallb Str.is_lower_hex_digit s = true -> normalizeAddress s = s.
Proof.
  intros H. unfold normalizeAddress.
  now rewrite trim_lower_hex, toLowerCase_fixed, strip_0x_lower_hex.
Qed.

(** Case is folded before anything is compared: two strings with the same
    lower-case form normalise alike. *)
Lemma normalizeAddress_case x y :
  Str.toLowerCase x = Str.toLowerCase y -> normalizeAddress x = normalizeAddress y.
Proof.
  intros H. unfold normalizeAddress. now rewrite <- !trim_lower, H.
Qed.

Lemma normalizeAddress_0x_lower_hex h :
  Str.forallb Str.is_lower_hex_digit h = true -> normalizeAddress ("0x" +:+ h) = h.
Proof.
  intros H. change ("0x" +:+ h) with (String "0" (String "x" h)).
  unfold normalizeAddress.
  assert (T : Str.trim (String "0" (String "x" h)) = String "0" (String "x" h)).
  { unfold Str.trim. cbn [Str.trimStart].
    change (Str.is_space "0") with false. cbn iota.
    cbn [Str.trimEnd]. rewrite (trimEnd_lower_hex _ H).
    now destruct h. }
  rewrite T. unfold Str.toLowerCase. cbn [Str.map].
  change (Str.map Str.lower_char h) with (Str.toLowerCase h).
  now rewrite (toLowerCase_fixed _ H).
Qed.

Lemma normalizeAddress_prefixed p b :
  hex_prefix p -> Str.forallb Str.is_hex_digit b = true ->
  normalizeAddress (p +:+ b) = Str.toLowerCase b.
Proof.
  intros Hp Hb. pose proof (toLowerCase_hex _ Hb) as Hl.
  rewrite (normalizeAddress_case _ (Str.toLowerCase (p +:+ b)))
    by now rewrite toLowerCase_idem.
  destruct Hp as [-> | [-> | ->]].
  - now apply normalizeAddress_lower_hex.
  - now apply normalizeAddress_0x_lower_hex.
  - now apply normalizeAddress_0x_lower_hex.
Qed.

(** C3, as stated, fails: a second prefix survives the first pass and is
    removed by the second. *)
Lemma normalizeAddress_not_idempotent :
  normalizeAddress (normalizeAddress "0x0xABC") <> normalizeAddress "0x0xABC".
Proof. vm_compute. discriminate. Qed.

Lemma toLowerCase_app a b :
  Str.toLowerCase (a +:+ b) = Str.toLowerCase a +:+ Str.toLowerCase b.
Proof.
  unfold Str.toLowerCase. induction a as [|c r IH]; simpl; [reflexivity|].
  now rewrite IH.
Qed.

(** C3 (amended): on address-like strings, that is hexadecimal digits [b]
    behind an optional prefix [0x] or [0X], [normalizeAddress] is
    idempotent, and neither the case of the letters nor the presence of the
    prefix changes the result. *)
Theorem normalizeAddress_address_like (p q b c : string) :
  hex_prefix p -> hex_prefix q ->
  Str.forallb Str.is_hex_digit b = true ->
  Str.toLowerCase c = Str.toLowerCase b ->
  normalizeAddress (normalizeAddress (p +:+ b)) = normalizeAddress (p +:+ b)
  /\ normalizeAddress (q +:+ c) = normalizeAddress (p +:+ b).
Proof.
  intros Hp Hq Hb Hc.
  pose proof (toLowerCase_hex _ Hb) as Hl.
  rewrite (normalizeAddress_prefixed p b Hp Hb). split.
  - now apply normalizeAddress_lower_hex.
  - rewrite (normalizeAddress_case (q +:+ c) (q +:+ b))
      by now rewrite !toLowerCase_app, Hc.
    now apply normalizeAddress_prefixed.
Qed.

Lemma normalizeAddress_address_like_witness :
  normalizeAddress (normalizeAddress "0xABC") = normalizeAddress "0xABC"
  /\ normalizeAddress "abc" = normalizeAddress "0xABC".
Proof.
  apply (normalizeAddress_address_like "0x" "" "ABC" "abc").
  - right; left; reflexivity.
  - left; reflexivity.
  - reflexivity.
  - reflexivity.
Defined.

End NormalizeAddress.

(** ** Properties of [decodeMintRecipient] *)

Section DecodeMintRecipient.

Lemma list_ind4 {A} (Q : list A -> Prop) :
  Q [] -> (forall a, Q [a]) -> (forall a b, Q [a; b]) -> (forall a b c, Q [a; b; c]) ->
  (forall a b c d r, Q r -> Q (a :: b :: c :: d :: r)) ->
  forall l, Q l.
Proof.
  intros H0 H1 H2 H3 H4.
  assert (G : forall l, Q l /\ (forall a, Q (a :: l)) /\ (forall a b, Q (a :: b :: l))
                        /\ (forall a b c, Q (a :: b :: c :: l))).
  { induction l as [|x l (Ha & Hb & Hc & Hd)]; [now repeat split|].
    repeat split; auto. }
  intros l. apply G.
Qed.

Lemma sextet_bound c v : Base64.sextet c = Some v -> (v < 64)%N.
Proof.
  destruct c as [[] [] [] [] [] [] [] []]; vm_compute; intros H;
    first [discriminate H | injection H as <-; reflexivity].
Qed.

Lemma sextets_bound cs : forall vs,
  Base64.sextets cs = Some vs -> Forall (fun v => (v < 64)%N) vs.
Proof.
  induction cs as [|c r IH]; simpl; intros vs H.
  - injection H as <-. constructor.
  - destruct (Base64.sextet c) as [v|] eqn:Hv; [|discriminate].
    destruct (Base64.sextets r) as [vs'|]; [|discriminate].
    injection H as <-. constructor; [now apply sextet_bound with c|now apply IH].
Qed.

Lemma bytes_of_bound vs :
  Forall (fun v => (v < 64)%N) vs -> Forall (fun b => (b < 256)%N) (Base64.bytes_of vs).
Proof.
  induction vs as [| a | a b | a b c | a b c d r IH] using list_ind4; intros H.
  - constructor.
  - constructor.
  - rewrite !Forall_cons in H. destruct H as (Ha & Hb & _).
    change (Base64.bytes_of [a; b]) with [((a * 64 + b) / 16)%N].
    repeat constructor. apply N.Div0.div_lt_upper_bound; lia.
  - rewrite !Forall_cons in H. destruct H as (Ha & Hb & Hc & _).
    change (Base64.bytes_of [a; b; c])
      with [((a * 4096 + b * 64 + c) / 1024)%N;
            (((a * 4096 + b * 64 + c) / 4) mod 256)%N].
    repeat constructor;
      [apply N.Div0.div_lt_upper_bound; lia | now apply N.mod_lt].
  - rewrite !Forall_cons in H. destruct H as (Ha & Hb & Hc & Hd & H4).
    change (Base64.bytes_of (a :: b :: c :: d :: r))
      with (((a * 262144 + b * 4096 + c * 64 + d) / 65536)%N
            :: (((a * 262144 + b * 4096 + c * 64 + d) / 256) mod 256)%N
            :: ((a * 262144 + b * 4096 + c * 64 + d) mod 256)%N
            :: Base64.bytes_of r).
    repeat (constructor; [first [apply N.Div0.div_lt_upper_bound; lia
                                | now apply N.mod_lt]|]).
    now apply IH.
Qed.

(** Whatever [atob] returns is an array of bytes. *)
Lemma atob_bytes s bytes : atob s = Ok bytes -> Forall (fun b => (b < 256)%N) bytes.
Proof.
  unfold atob, Base64.decode.
  destruct (_ =? 1)%nat; [discriminate|].
  destruct (Base64.sextets _) as [vs|] eqn:Hvs; simpl; [|discriminate].
  intros [= <-]. apply bytes_of_bound. now apply sextets_bound in Hvs.
Qed.

Lemma hex_pair_ascii (c : ascii) :
  let b := N_of_ascii c in
  Str.padStart2 (Str.hex_of_N b)
  = String (hex_digit (b / 16)) (String (hex_digit (b mod 16)) EmptyString)
  /\ Str.is_lower_hex_digit (hex_digit (b / 16)) = true
  /\ Str.is_lower_hex_digit (hex_digit (b mod 16)) = true
  /\ Str.digit_value (hex_digit (b / 16)) = Some (b / 16)%N
  /\ Str.digit_value (hex_digit (b mod 16)) = Some (b mod 16)%N.
Proof. destruct c as [[] [] [] [] [] [] [] []]; vm_compute; now repeat split. Qed.

Lemma hex_pair b :
  (b < 256)%N ->
  Str.padStart2 (Str.hex_of_N b)
  = String (hex_digit (b / 16)) (String (hex_digit (b mod 16)) EmptyString)
  /\ Str.is_lower_hex_digit (hex_digit (b / 16)) = true
  /\ Str.is_lower_hex_digit (hex_digit (b mod 16)) = true
  /\ Str.digit_value (hex_digit (b / 16)) = Some (b / 16)%N
  /\ Str.digit_value (hex_digit (b mod 16)) = Some (b mod 16)%N.
Proof.
  intros Hb. pose proof (hex_pair_ascii (ascii_of_N b)) as H.
  cbv zeta in H. now rewrite (N_ascii_embedding b Hb) in H.
Qed.

(** The rendering of a byte array: two lower-case hexadecimal digits per
    byte, from which the bytes can be read back. *)
Lemma hex_of_bytes_spec bytes :
  Forall (fun b => (b < 256)%N) bytes ->
  String.length (hex_of_bytes bytes) = 2 * length bytes
  /\ Str.forallb Str.is_lower_hex_digit (hex_of_bytes bytes) = true
  /\ bytes_of_hex (hex_of_bytes bytes) = Some bytes.
Proof.
  unfold hex_of_bytes.
  induction 1 as [|b r Hb Hr (IH1 & IH2 & IH3)]; [now repeat split|].
  destruct (hex_pair b Hb) as (E & L1 & L2 & D1 & D2).
  cbn [List.map Str.concat]. rewrite E, !append_cons, append_nil.
  cbn [String.length Str.forallb bytes_of_hex length].
  rewrite IH1, IH2, IH3, L1, L2, D1, D2. repeat split; [lia|].
  do 2 f_equal. pose proof (N.div_mod b 16). lia.
Qed.

(** *** The decoder against the standard encoder *)

Lemma list_ind3 {A} (Q : list A -> Prop) :
  Q [] -> (forall a, Q [a]) -> (forall a b, Q [a; b]) ->
  (forall a b c r, Q r -> Q (a :: b :: c :: r)) ->
  forall l, Q l.
Proof.
  intros H0 H1 H2 H3.
  assert (G : forall l, Q l /\ (forall a, Q (a :: l)) /\ (forall a b, Q (a :: b :: l))).
  { induction l as [|x l (Ha & Hb & Hc)]; [now repeat split|].
    repeat split; auto. }
  intros l. apply G.
Qed.

Lemma digit_ascii (c : ascii) :
  (N_of_ascii c < 64)%N ->
  Base64.sextet (Base64.digit (N_of_ascii c)) = Some (N_of_ascii c)
  /\ Base64.is_ascii_whitespace (Base64.digit (N_of_ascii c)) = false
  /\ Base64.is_pad (Base64.digit (N_of_ascii c)) = false.
Proof.
  destruct c as [[] [] [] [] [] [] [] []]; vm_compute; intros H;
    first [discriminate H | now repeat split].
Qed.

Lemma digit_sextet v :
  (v < 64)%N ->
  Base64.sextet (Base64.digit v) = Some v
  /\ Base64.is_ascii_whitespace (Base64.digit v) = false
  /\ Base64.is_pad (Base64.digit v) = false.
Proof.
  intros H. pose proof (digit_ascii (ascii_of_N v)) as D.
  rewrite (N_ascii_embedding v) in D by lia. now apply D.
Qed.

Lemma values_bound bytes :
  Forall (fun b => (b < 256)%N) bytes -> Forall (fun v => (v < 64)%N) (Base64.values bytes).
Proof.
  induction bytes as [| a | a b | a b c r IH] using list_ind3; intros H;
    rewrite ?Forall_cons in H; cbv beta in H.
  - constructor.
  - destruct H as (Ha & _).
    change (Base64.values [a]) with [(a * 16 / 64)%N; ((a * 16) mod 64)%N].
    repeat constructor; [apply N.Div0.div_lt_upper_bound; lia|now apply N.mod_lt].
  - destruct H as (Ha & Hb & _).
    change (Base64.values [a; b])
      with [((a * 1024 + b * 4) / 4096)%N; (((a * 1024 + b * 4) / 64) mod 64)%N;
            ((a * 1024 + b * 4) mod 64)%N].
    repeat constructor;
      first [apply N.Div0.div_lt_upper_bound; lia | now apply N.mod_lt].
  - destruct H as (Ha & Hb & Hc & Hr).
    change (Base64.values (a :: b :: c :: r))
      with (((a * 65536 + b * 256 + c) / 262144)%N
            :: (((a * 65536 + b * 256 + c) / 4096) mod 64)%N
            :: (((a * 65536 + b * 256 + c) / 64) mod 64)%N
            :: ((a * 65536 + b * 256 + c) mod 64)%N :: Base64.values r).
    repeat (constructor; [first [apply N.Div0.div_lt_upper_bound; lia
                                | now apply N.mod_lt]|]).
    now apply IH.
Qed.

Lemma sextets_join3 n :
  (n / 4096 * 4096 + (n / 64) mod 64 * 64 + n mod 64 = n)%N.
Proof.
  pose proof (N.div_mod n 64). pose proof (N.div_mod (n / 64) 64).
  assert ((n / 64) / 64 = n / 4096)%N by (rewrite N.Div0.div_div; reflexivity).
  lia.
Qed.

Lemma sextets_join4 n :
  (n / 262144 * 262144 + (n / 4096) mod 64 * 4096 + (n / 64) mod 64 * 64
   + n mod 64 = n)%N.
Proof.
  pose proof (N.div_mod n 64). pose proof (N.div_mod (n / 64) 64).
  pose proof (N.div_mod (n / 4096) 64).
  assert ((n / 64) / 64 = n / 4096)%N by (rewrite N.Div0.div_div; reflexivity).
  assert ((n / 4096) / 64 = n / 262144)%N by (rewrite N.Div0.div_div; reflexivity).
  lia.
Qed.

Lemma bytes_of_values bytes :
  Forall (fun b => (b < 256)%N) bytes -> Base64.bytes_of (Base64.values bytes) = bytes.
Proof.
  induction bytes as [| a | a b | a b c r IH] using list_ind3; intros H;
    rewrite ?Forall_cons in H; cbv beta in H.
  - reflexivity.
  - destruct H as (Ha & _).
    change (Base64.bytes_of (Base64.values [a]))
      with [((a * 16 / 64 * 64 + (a * 16) mod 64) / 16)%N].
    f_equal. rewrite N.mul_comm, <- (N.div_mod (a * 16) 64) by lia.
    now rewrite N.div_mul.
  - destruct H as (Ha & Hb & _).
    change (Base64.bytes_of (Base64.values [a; b]))
      with (let n := (a * 1024 + b * 4)%N in
            let m := (n / 4096 * 4096 + (n / 64) mod 64 * 64 + n mod 64)%N in
            [(m / 1024)%N; ((m / 4) mod 256)%N]).
    cbv zeta.
    rewrite sextets_join3. f_equal; [|f_equal].
    + symmetry. apply N.div_unique with (b * 4)%N; lia.
    + replace (a * 1024 + b * 4)%N with ((a * 256 + b) * 4)%N by lia.
      rewrite N.div_mul by lia. symmetry. apply N.mod_unique with a; lia.
  - destruct H as (Ha & Hb & Hc & Hr).
    change (Base64.bytes_of (Base64.values (a :: b :: c :: r)))
      with (let n := (a * 65536 + b * 256 + c)%N in
            let m := (n / 262144 * 262144 + (n / 4096) mod 64 * 4096
                      + (n / 64) mod 64 * 64 + n mod 64)%N in
            (m / 65536)%N :: ((m / 256) mod 256)%N :: (m mod 256)%N
              :: Base64.bytes_of (Base64.values r)).
    cbv zeta.
    rewrite sextets_join4, (IH Hr). f_equal; [|f_equal; [|f_equal]].
    + symmetry. apply N.div_unique with (b * 256 + c)%N; lia.
    + replace ((a * 65536 + b * 256 + c) / 256)%N with (a * 256 + b)%N
        by (apply N.div_unique with c; lia).
      symmetry. apply N.mod_unique with a; lia.
    + symmetry. apply N.mod_unique with (a * 256 + b)%N; lia.
Qed.

Lemma chars_of_list l : Str.chars (string_of_list_ascii l) = l.
Proof. induction l as [|c r IH]; simpl; [reflexivity|]. now rewrite IH. Qed.

Lemma sextets_digits vs :
  Forall (fun v => (v < 64)%N) vs ->
  Base64.sextets (List.map Base64.digit vs) = Some vs.
Proof.
  induction 1 as [|v r Hv _ IH]; [reflexivity|].
  cbn [List.map Base64.sextets].
  destruct (digit_sextet v Hv) as (-> & _). now rewrite IH.
Qed.

(** The groups of the encoder: the text is a multiple of four characters
    long, with as many [=] as bytes are missing from the last group. *)
Lemma encode_shape bytes :
  (Base64.padding bytes = [] /\ (length (Base64.values bytes) mod 4 = 0)%nat)
  \/ (Base64.padding bytes = ["="%char]
      /\ (length (Base64.values bytes) mod 4 = 3)%nat)
  \/ (Base64.padding bytes = ["="%char; "="%char]
      /\ (length (Base64.values bytes) mod 4 = 2)%nat).
Proof.
  induction bytes as [| a | a b | a b c r IH] using list_ind3.
  - left. now split.
  - right; right. now split.
  - right; left. now split.
  - assert (P : Base64.padding (a :: b :: c :: r) = Base64.padding r).
    { unfold Base64.padding. cbn [length].
      replace (S (S (S (length r))) mod 3)%nat with (length r mod 3)%nat; [reflexivity|].
      change (S (S (S (length r)))) with (3 + length r)%nat.
      now rewrite <- Nat.Div0.add_mod_idemp_l. }
    assert (L : (length (Base64.values (a :: b :: c :: r)) mod 4
                 = length (Base64.values r) mod 4)%nat).
    { change (length (Base64.values (a :: b :: c :: r)))
        with (4 + length (Base64.values r))%nat.
      now rewrite <- Nat.Div0.add_mod_idemp_l. }
    now rewrite P, L.
Qed.

Lemma digits_kept vs :
  Forall (fun v => (v < 64)%N) vs ->
  Forall (fun c => Base64.is_ascii_whitespace c = false /\ Base64.is_pad c = false)
    (List.map Base64.digit vs).
Proof.
  induction 1 as [|v r Hv _ IH]; cbn [List.map]; constructor; [|exact IH].
  now destruct (digit_sextet v Hv) as (_ & ? & ?).
Qed.

Lemma filter_kept (body pad : list ascii) :
  Forall (fun c => Base64.is_ascii_whitespace c = false /\ Base64.is_pad c = false) body ->
  Forall (fun c => c = "="%char) pad ->
  List.filter (fun c => negb (Base64.is_ascii_whitespace c)) (body ++ pad) = body ++ pad.
Proof.
  intros Hb Hp. rewrite List.filter_app. f_equal.
  - induction Hb as [|c r [Hc _] _ IH]; [reflexivity|].
    cbn [List.filter]. now rewrite Hc, IH.
  - induction Hp as [|c r -> _ IH]; [reflexivity|].
    cbn [List.filter]. change (negb (Base64.is_ascii_whitespace "=")) with true.
    cbn iota. now rewrite IH.
Qed.

Lemma strip_padding_encoded (body pad : list ascii) :
  Forall (fun c => Base64.is_ascii_whitespace c = false /\ Base64.is_pad c = false) body ->
  (pad = [] /\ (length body mod 4 = 0)%nat)
  \/ (pad = ["="%char] /\ (length body mod 4 = 3)%nat)
  \/ (pad = ["="%char; "="%char] /\ (length body mod 4 = 2)%nat) ->
  Base64.strip_padding (body ++ pad) = body.
Proof.
  intros Hb Hshape. unfold Base64.strip_padding.
  assert (L : (length (body ++ pad) mod 4 =? 0)%nat = true).
  { apply Nat.eqb_eq. rewrite length_app.
    destruct Hshape as [[-> E] | [[-> E] | [-> E]]]; cbn [length];
      rewrite <- Nat.Div0.add_mod_idemp_l, E; reflexivity. }
  rewrite L.
  assert (Hr : Forall (fun c => Base64.is_pad c = false) (rev body)).
  { apply Forall_rev. eapply Forall_impl; [exact Hb|]. now intros c [_ H]. }
  destruct Hshape as [[-> E] | [[-> E] | [-> E]]].
  - rewrite app_nil_r. destruct (rev body) as [|p1 [|p2 r]] eqn:R; try reflexivity.
    apply Forall_cons in Hr as [H1 _]. now rewrite H1.
  - rewrite rev_app_distr. cbn [rev app].
    destruct (rev body) as [|p2 r] eqn:R.
    { apply (f_equal (@rev ascii)) in R. rewrite rev_involutive in R. subst body.
      discriminate E. }
    change (Base64.is_pad "=") with true. cbn iota.
    apply Forall_cons in Hr as [H2 _]. rewrite H2.
    now rewrite <- (rev_involutive body), R.
  - rewrite rev_app_distr. cbn [rev app].
    change (Base64.is_pad "=") with true. cbn iota. apply rev_involutive.
Qed.

(** Decoding what the standard encoder writes gives the bytes back. *)
Lemma atob_encode bytes :
  Forall (fun b => (b < 256)%N) bytes -> atob (Base64.encode bytes) = Ok bytes.
Proof.
  intros H. pose proof (values_bound bytes H) as Hv.
  pose proof (digits_kept _ Hv) as Hk. pose proof (encode_shape bytes) as Hs.
  assert (Hp : Forall (fun c => c = "="%char) (Base64.padding bytes)).
  { destruct Hs as [[-> _] | [[-> _] | [-> _]]]; repeat constructor. }
  assert (Hs' : (Base64.padding bytes = []
                 /\ (length (List.map Base64.digit (Base64.values bytes)) mod 4 = 0)%nat)
                \/ (Base64.padding bytes = ["="%char]
                    /\ (length (List.map Base64.digit (Base64.values bytes)) mod 4
                        = 3)%nat)
                \/ (Base64.padding bytes = ["="%char; "="%char]
                    /\ (length (List.map Base64.digit (Base64.values bytes)) mod 4
                        = 2)%nat)).
  { now rewrite length_map. }
  unfold atob, Base64.decode, Base64.encode.
  rewrite chars_of_list, (filter_kept _ _ Hk Hp), (strip_padding_encoded _ _ Hk Hs').
  rewrite length_map, (sextets_digits _ Hv).
  assert (N1 : (length (Base64.values bytes) mod 4 =? 1)%nat = false).
  { apply Nat.eqb_neq. destruct Hs as [[_ E] | [[_ E] | [_ E]]]; rewrite E; discriminate. }
  rewrite N1. cbn [fmap option_fmap option_map]. now rewrite bytes_of_values.
Qed.

Lemma last20_length (bytes : list N) :
  20 <= length bytes -> length (last20 bytes) = 20.
Proof. intros H. unfold last20. rewrite length_skipn. lia. Qed.

Lemma Forall_skipn {A} (Q : A -> Prop) n (l : list A) :
  Forall Q l -> Forall Q (skipn n l).
Proof.
  intros H. revert n. induction H; intros [|n]; simpl; auto.
Qed.

(** C5: [decodeMintRecipient] is a total function of its argument.  A blob
    that [atob] rejects and a blob that decodes to fewer than twenty bytes
    both give [null]; a blob that decodes to at least twenty bytes gives
    [0x] followed by forty lower-case hexadecimal digits which spell the last
    twenty bytes. *)
Theorem decodeMintRecipient_total (base64Str : string) :
  (forall message, atob base64Str = Throw message ->
     decodeMintRecipient base64Str = None)
  /\ (forall bytes, atob base64Str = Ok bytes -> length bytes < 20 ->
        decodeMintRecipient base64Str = None)
  /\ (forall bytes, atob base64Str = Ok bytes -> 20 <= length bytes ->
        exists digits,
          decodeMintRecipient base64Str = Some ("0x" +:+ digits)
          /\ String.length digits = 40
          /\ Str.forallb Str.is_lower_hex_digit digits = true
          /\ bytes_of_hex digits = Some (skipn (length bytes - 20) bytes)).
Proof.
  unfold decodeMintRecipient. repeat split.
  - intros m ->. reflexivity.
  - intros bytes -> H. apply Nat.ltb_lt in H. now rewrite H.
  - intros bytes E H. pose proof (atob_bytes _ _ E) as B. rewrite E.
    assert (L : (length bytes <? 20)%nat = false) by (apply Nat.ltb_ge; lia).
    rewrite L. exists (hex_of_bytes (last20 bytes)).
    destruct (hex_of_bytes_spec (last20 bytes)) as (H1 & H2 & H3).
    { now apply Forall_skipn. }
    rewrite H1, (last20_length _ H). now repeat split.
Qed.

Lemma decodeMintRecipient_total_witness :
  (exists digits,
     decodeMintRecipient "AAAAAAAAAAAAAAAAEjRWeJCrze8SNFZ4kKvN7xI0q80="
       = Some ("0x" +:+ digits)
     /\ String.length digits = 40
     /\ Str.forallb Str.is_lower_hex_digit digits = true
     /\ bytes_of_hex digits
        = Some [18; 52; 86; 120; 144; 171; 205; 239; 18; 52; 86; 120; 144; 171;
                205; 239; 18; 52; 171; 205]%N)
  /\ decodeMintRecipient "EjRWeJCrze8SNFZ4kKvN7xI0qw==" = None
  /\ decodeMintRecipient "not base64!" = None.
Proof.
  split; [|split].
  - apply (proj2 (proj2 (decodeMintRecipient_total
                           "AAAAAAAAAAAAAAAAEjRWeJCrze8SNFZ4kKvN7xI0q80="))
             [0; 0; 0; 0; 0; 0; 0; 0; 0; 0; 0; 0; 18; 52; 86; 120; 144; 171; 205;
              239; 18; 52; 86; 120; 144; 171; 205; 239; 18; 52; 171; 205]%N).
    + reflexivity.
    + simpl; lia.
  - apply (proj1 (proj2 (decodeMintRecipient_total "EjRWeJCrze8SNFZ4kKvN7xI0qw=="))
             [18; 52; 86; 120; 144; 171; 205; 239; 18; 52; 86; 120; 144; 171; 205;
              239; 18; 52; 171]%N).
    + reflexivity.
    + simpl; lia.
  - apply (proj1 (decodeMintRecipient_total "not base64!")
             "The string to be decoded is not correctly encoded.").
    reflexivity.
Defined.

(** On the standard encoding of at least twenty bytes the result spells the
    last twenty of them. *)
Lemma decodeMintRecipient_encoded bytes :
  Forall (fun b => (b < 256)%N) bytes -> 20 <= length bytes ->
  decodeMintRecipient (Base64.encode bytes)
  = Some ("0x" +:+ hex_of_bytes (skipn (length bytes - 20) bytes)).
Proof.
  intros H L. unfold decodeMintRecipient. rewrite (atob_encode bytes H).
  assert (E : (length bytes <? 20)%nat = false) by (apply Nat.ltb_ge; lia).
  now rewrite E.
Qed.

End DecodeMintRecipient.

(** ** Properties of [extractCctpDataFromLogs] *)

Section ExtractCctpData.

Lemma events_of_only_event evt :
  events_of_logs [JObj [("events", JArr [evt])]] = [evt].
Proof. reflexivity. Qed.

(** C6: without a [DepositForBurn] event in the logs both fields are
    [null]; with one, the result is that of the first such event alone, so
    no attribute of any other event reaches the two fields. *)
Theorem extractCctpDataFromLogs_marker (logs : list JS) :
  (Forall (fun e => is_event DepositForBurn e = false) (events_of_logs logs) ->
   extractCctpDataFromLogs (JArr logs) = Ok no_cctp_data)
  /\ (forall pre evt post,
        events_of_logs logs = pre ++ evt :: post ->
        Forall (fun e => is_event DepositForBurn e = false) pre ->
        is_event DepositForBurn evt = true ->
        extractCctpDataFromLogs (JArr logs) = extractCctpDataFromLogs (only_event evt)).
Proof.
  split.
  - intros H. unfold extractCctpDataFromLogs. cbn [Js.coalesce Js.nullish Js.asArray mbind Exn_bind].
    now rewrite (find_none _ _ H).
  - intros pre evt post E Hpre Hevt.
    unfold extractCctpDataFromLogs, only_event.
    cbn [Js.coalesce Js.nullish Js.asArray mbind Exn_bind].
    rewrite events_of_only_event, E, (find_first _ _ _ _ Hpre Hevt).
    cbn [Js.find]. now rewrite Hevt.
Qed.

Lemma extractCctpDataFromLogs_marker_witness :
  extractCctpDataFromLogs (JArr [JObj [("events", JArr [Sample.message_event])]])
  = Ok no_cctp_data
  /\ extractCctpDataFromLogs
       (JArr [JObj [("events", JArr [Sample.message_event; Sample.burn_event])]])
     = extractCctpDataFromLogs (only_event Sample.burn_event).
Proof.
  split.
  - apply (proj1 (extractCctpDataFromLogs_marker _)). repeat constructor.
  - apply (proj2 (extractCctpDataFromLogs_marker _)
             [Sample.message_event] Sample.burn_event []).
    + reflexivity.
    + repeat constructor.
    + reflexivity.
Defined.

End ExtractCctpData.

(** ** Step 3: the first matching burn *)

Section CctpNobleStep.
Context (P : Platform) (net : Network).

Lemma getChainInfo_domain chain chainInfo :
  getChainInfo chain = Some chainInfo ->
  In (DOMAIN chainInfo) ["0"; "1"; "2"; "3"; "6"].
Proof.
  unfold getChainInfo, EVM_CHAIN_INFO. cbn [assoc].
  repeat destruct (String.eqb _ _); intros [= <-]; cbn; tauto.
Qed.

Lemma getChainInfo_domain_not_null chain chainInfo :
  getChainInfo chain = Some chainInfo -> DOMAIN chainInfo <> "null".
Proof.
  intros H%getChainInfo_domain E. rewrite E in H. cbn in H.
  repeat destruct H as [H|H]; try discriminate H. exact H.
Qed.

Lemma evmAddress_shape dest :
  Schema.evmAddress dest = true ->
  exists b, dest = "0x" +:+ b /\ String.length b = 40
            /\ Str.forallb Str.is_hex_digit b = true.
Proof.
  unfold Schema.evmAddress.
  destruct dest as [|c0 [|c1 b]]; try discriminate.
  - destruct c0 as [[] [] [] [] [] [] [] []]; discriminate.
  - destruct (Ascii.eqb_spec c0 "0") as [->|N0];
      [|destruct c0 as [[] [] [] [] [] [] [] []]; try discriminate; now destruct N0].
    destruct (Ascii.eqb_spec c1 "x") as [->|N1];
      [|destruct c1 as [[] [] [] [] [] [] [] []]; try discriminate; now destruct N1].
    intros [L H]%andb_prop. apply Nat.eqb_eq in L. now exists b.
Qed.

Lemma toLowerCase_length s : String.length (Str.toLowerCase s) = String.length s.
Proof.
  unfold Str.toLowerCase. induction s as [|c r IH]; simpl; [reflexivity|].
  now rewrite IH.
Qed.

Lemma evmAddress_normalized dest :
  Schema.evmAddress dest = true -> normalizeAddress dest <> "".
Proof.
  intros (b & -> & L & H)%evmAddress_shape.
  rewrite (normalizeAddress_prefixed "0x" b) by (auto; right; now left).
  intros E. apply (f_equal String.length) in E.
  rewrite toLowerCase_length, L in E. discriminate E.
Qed.

(** The two tests of the loop say what [burns_to] says. *)
Lemma same_burns_to chainInfo dest e :
  DOMAIN chainInfo <> "null" -> normalizeAddress dest <> "" ->
  (CctpNoble.sameDomain chainInfo e && CctpNoble.sameAddress dest e = true
   <-> burns_to chainInfo dest e).
Proof.
  intros Hd Ha.
  unfold CctpNoble.sameDomain, CctpNoble.sameAddress, CctpNoble.domain_text, burns_to.
  rewrite andb_true_iff, !String.eqb_eq. split.
  - intros [D A]. split.
    + destruct (mintRecipient e) as [r|]; [now exists r|].
      cbn in A. now destruct Ha.
    + destruct (destinationDomain e) as [d|]; [now subst|]. now destruct Hd.
  - intros [(r & -> & A) ->]. now split.
Qed.

Lemma scan_skips chainInfo dest pre rest :
  DOMAIN chainInfo <> "null" -> normalizeAddress dest <> "" ->
  Forall (other_burn chainInfo dest) pre ->
  CctpNoble.scan P chainInfo dest (pre ++ rest) = CctpNoble.scan P chainInfo dest rest.
Proof.
  intros Hd Ha. induction 1 as [|tx r (e & E & N) _ IH]; [reflexivity|].
  cbn [app CctpNoble.scan]. unfold cctp_data in E. rewrite E.
  cbn [mbind Exn_bind].
  destruct (CctpNoble.sameDomain chainInfo e && CctpNoble.sameAddress dest e) eqn:B;
    [|exact IH].
  apply same_burns_to in B; auto. now destruct N.
Qed.

Lemma find_burn_first mpre msg mpost :
  Forall (fun m => CctpNoble.is_burn m = false) mpre ->
  CctpNoble.is_burn msg = true ->
  CctpNoble.find_burn (mpre ++ msg :: mpost)
  = (Js.get "amount" (Js.get "amount" msg), Js.get "denom" (Js.get "amount" msg)).
Proof.
  induction 1 as [|m r Hm _ IH]; cbn [app CctpNoble.find_burn]; intros H.
  - now rewrite H.
  - rewrite Hm. now apply IH.
Qed.

(** A transaction whose logs carry data is not [null] or [undefined]. *)
Lemma burns_to_not_nullish chainInfo dest tx e :
  cctp_data tx = Ok e -> burns_to chainInfo dest e -> Js.nullish tx = false.
Proof.
  intros E [(r & R & _) _].
  destruct tx; try reflexivity; cbv in E; injection E as <-; discriminate R.
Qed.

(** The handler of Step 3 is its request followed by [respond]. *)
Lemma cctpNobleTxHandler_respond noble chain dest take chainInfo w w1 response :
  noble <> "" ->
  Schema.evmAddress dest = true ->
  getChainInfo (canonicalizeChain chain) = Some chainInfo ->
  ApiClient.get net (CctpNoble.request_url noble (default 20%Z take))
    "application/json" true 3 (getMintscanHeaders P) w = (response, w1) ->
  CctpNoble.cctpNobleTxHandler P net
    {| CctpNoble.nobleAddress := Some noble; CctpNoble.destChain := Some chain;
       CctpNoble.destinationEvmAddress := Some dest; CctpNoble.take := take |} w
  = (CctpNoble.respond P (canonicalizeChain chain) dest response, w1).
Proof.
  intros Hn Hd Hc Hget. unfold CctpNoble.cctpNobleTxHandler.
  cbn [CctpNoble.nobleAddress CctpNoble.destChain CctpNoble.destinationEvmAddress
       CctpNoble.take default from_option id].
  rewrite (missing_false _ Hn), (missing_false _ (getChainInfo_nonempty _ _ Hc)),
    (missing_false _ (evmAddress_nonempty _ Hd)).
  cbn [orb]. now rewrite Hget.
Qed.

Lemma decodeMintRecipient_shape b r :
  decodeMintRecipient b = Some r ->
  exists digits, r = "0x" +:+ digits
                 /\ Str.forallb Str.is_lower_hex_digit digits = true.
Proof.
  unfold decodeMintRecipient. destruct (atob b) as [bytes|] eqn:E; [|discriminate].
  destruct (length bytes <? 20)%nat; [discriminate|]. intros [= <-].
  eexists. split; [reflexivity|].
  apply hex_of_bytes_spec, Forall_skipn. exact (atob_bytes _ _ E).
Qed.

Lemma cctp_data_recipient tx e r :
  cctp_data tx = Ok e -> mintRecipient e = Some r ->
  exists digits, r = "0x" +:+ digits
                 /\ Str.forallb Str.is_lower_hex_digit digits = true.
Proof.
  unfold cctp_data, extractCctpDataFromLogs.
  destruct (Js.asArray "flatMap" _) as [ls|]; cbn [mbind Exn_bind]; [|discriminate].
  destruct (Js.find _ _);
    try (intros [= <-] H; discriminate H);
    (destruct (Js.asArray "reduce" _) as [attrs|]; cbn [mbind Exn_bind];
     [|discriminate]);
    intros [= <-]; cbn [mintRecipient];
    (destruct (_ !! "mint_recipient") as [b|]; [|discriminate]);
    (destruct (String.eqb b ""); [discriminate|]);
    apply decodeMintRecipient_shape.
Qed.

(** On what the logs decode to, the comparison of the code is the
    AddressMatch of the specification. *)
Lemma burns_to_target chainInfo dest tx e :
  Schema.evmAddress dest = true -> cctp_data tx = Ok e ->
  (burns_to chainInfo dest e <-> burn_target chainInfo dest e).
Proof.
  intros (b & -> & L & Hb)%evmAddress_shape E.
  assert (A : forall r, mintRecipient e = Some r ->
            (normalizeAddress r = normalizeAddress ("0x" +:+ b)
             <-> AddressMatch r ("0x" +:+ b))).
  { intros r Hr. destruct (cctp_data_recipient _ _ _ E Hr) as (d & -> & Hd).
    rewrite (normalizeAddress_0x_lower_hex _ Hd).
    rewrite (normalizeAddress_prefixed "0x" b) by (auto; right; now left).
    unfold AddressMatch. change (unprefixed ("0x" +:+ d)) with d.
    change (unprefixed ("0x" +:+ b)) with b.
    now rewrite (toLowerCase_fixed _ Hd). }
  unfold burns_to, burn_target. split.
  - intros [(r & Hr & N) D]. split; [|exact D]. exists r. split; [exact Hr|].
    now apply A.
  - intros [(r & Hr & N) D]. split; [|exact D]. exists r. split; [exact Hr|].
    now apply A.
Qed.

Lemma burn_mismatch_other chainInfo dest tx :
  Schema.evmAddress dest = true ->
  burn_mismatch chainInfo dest tx -> other_burn chainInfo dest tx.
Proof.
  intros Hd (e & E & N). exists e. split; [exact E|].
  intros B. apply N. now apply (burns_to_target _ _ _ _ Hd E).
Qed.

Lemma is_burn_carries msg : CctpNoble.is_burn msg = true <-> carries_burn msg.
Proof.
  unfold CctpNoble.is_burn, carries_burn, CctpNoble.MsgBurn.
  now rewrite andb_true_iff, eqStr_iff.
Qed.

Lemma not_carries msgs :
  Forall (fun m => ~ carries_burn m) msgs ->
  Forall (fun m => CctpNoble.is_burn m = false) msgs.
Proof.
  intros H. apply (Forall_impl _ _ _ H). intros m N. destruct (CctpNoble.is_burn m) eqn:B; [|reflexivity].
  now apply is_burn_carries in B.
Qed.

Lemma find_burn_none msgs :
  Forall (fun m => CctpNoble.is_burn m = false) msgs ->
  CctpNoble.find_burn msgs = (JNull, JNull).
Proof.
  induction 1 as [|m r Hm _ IH]; cbn [CctpNoble.find_burn]; [reflexivity|].
  now rewrite Hm.
Qed.

(** C4: Step 3 settles on the first transaction, in the order of the
    provider, whose decoded mint recipient is the target address up to case
    and prefix and whose destination domain is that of the chain profile.
    When [Date] reads the timestamp of that transaction, the result is
    [found: true] with the hash of the transaction and the amount and
    denomination of its first [MsgBurn] message that holds an amount
    ([null] when it has none); when [Date] rejects the timestamp, as it does
    a missing one, the transaction is lost and the result is the error of
    [Date].  When no transaction of the list matches, the result is
    [found: false]. *)
Theorem cctpNoble_first_match
    (noble chain dest : string) (take : option Z) (chainInfo : ChainInfo)
    (w w1 : World) (response : JS) (txs : list JS) :
  let params :=
    {| CctpNoble.nobleAddress := Some noble; CctpNoble.destChain := Some chain;
       CctpNoble.destinationEvmAddress := Some dest; CctpNoble.take := take |} in
  let out := CctpNoble.cctpNobleTxHandler P net params w in
  noble <> "" ->
  Schema.evmAddress dest = true ->
  getChainInfo (canonicalizeChain chain) = Some chainInfo ->
  ApiClient.get net (CctpNoble.request_url noble (default 20%Z take))
    "application/json" true 3 (getMintscanHeaders P) w = (response, w1) ->
  CctpNoble.transactions_of response = JArr txs ->
  (forall pre tx post msgs,
     txs = pre ++ tx :: post ->
     Forall (burn_mismatch chainInfo dest) pre ->
     burn_match chainInfo dest tx ->
     messages_or_none tx = JArr msgs ->
     (forall iso,
        Date_toISOString P (Js.get "timestamp" tx) = Ok iso ->
        exists data,
          out = (Success data, w1)
          /\ Js.get "found" data = JBool true
          /\ Js.get "txHash" data = JStr (Js.toString (Js.get "txhash" tx))
          /\ (forall mpre msg mpost,
                msgs = mpre ++ msg :: mpost ->
                Forall (fun m => ~ carries_burn m) mpre -> carries_burn msg ->
                Js.get "burnAmount" data = Js.get "amount" (Js.get "amount" msg)
                /\ Js.get "burnDenom" data = Js.get "denom" (Js.get "amount" msg))
          /\ (Forall (fun m => ~ carries_burn m) msgs ->
              Js.get "burnAmount" data = JNull /\ Js.get "burnDenom" data = JNull))
     /\ (forall message,
           Date_toISOString P (Js.get "timestamp" tx) = Throw message ->
           out = (Error ("Error tracing CCTP Noble step: " +:+ message), w1)))
  /\ (Forall (burn_mismatch chainInfo dest) txs ->
      out = (Success CctpNoble.not_found, w1)).
Proof.
  intros params out Hn Hd Hc Hget Htxs. subst params out.
  rewrite (cctpNobleTxHandler_respond _ _ _ _ _ _ _ _ Hn Hd Hc Hget).
  pose proof (getChainInfo_domain_not_null _ _ Hc) as Hdom.
  pose proof (evmAddress_normalized _ Hd) as Ha.
  unfold CctpNoble.respond. rewrite Hc, Htxs.
  cbn [Js.iterate mbind Exn_bind]. split.
  - intros pre tx post msgs -> Hpre (e & E & B) M.
    apply (burns_to_target _ _ _ _ Hd E) in B.
    rewrite (scan_skips _ _ _ _ Hdom Ha
               (Forall_impl _ _ _ Hpre (fun t => burn_mismatch_other _ _ t Hd))).
    cbn [CctpNoble.scan]. fold (cctp_data tx). rewrite E. cbn [mbind Exn_bind].
    rewrite (proj2 (same_burns_to _ _ _ Hdom Ha) B).
    unfold CctpNoble.matched, Js.getE.
    rewrite (burns_to_not_nullish _ _ _ _ E B). cbn [mbind Exn_bind].
    fold (messages_of tx). fold (messages_or_none tx). rewrite M.
    cbn [Js.iterate mbind Exn_bind].
    destruct (CctpNoble.find_burn msgs) as [amount denom] eqn:F. split.
    + intros iso ->. cbn [mbind Exn_bind]. eexists. split; [reflexivity|].
      split; [reflexivity|]. split; [reflexivity|]. split.
      * intros mpre msg mpost -> Hm1 Hm2.
        rewrite (find_burn_first _ _ _ (not_carries _ Hm1)
                   (proj2 (is_burn_carries _) Hm2)) in F.
        injection F as <- <-. now split.
      * intros Hm. rewrite (find_burn_none _ (not_carries _ Hm)) in F.
        injection F as <- <-. now split.
    + intros message ->. reflexivity.
  - intros Hall. rewrite <- (app_nil_r txs).
    now rewrite (scan_skips _ _ _ _ Hdom Ha
                   (Forall_impl _ _ _ Hall (fun t => burn_mismatch_other _ _ t Hd))).
Qed.

End CctpNobleStep.

Lemma cctpNoble_first_match_witness :
  (exists data w1,
     CctpNoble.cctpNobleTxHandler Sample.platform (Sample.mintscan Cases.mixed_page)
       Cases.capitals_params start
     = (Success data, w1)
     /\ Js.get "found" data = JBool true
     /\ Js.get "txHash" data = JStr "BB22"
     /\ Js.get "burnAmount" data = JStr "1000000"
     /\ Js.get "burnDenom" data = JStr "uusdc")
  /\ (exists w1,
        CctpNoble.cctpNobleTxHandler Sample.platform
          (Sample.mintscan [Sample.burn_tx "AA11" "3"]) Cases.capitals_params start
        = (Success CctpNoble.not_found, w1))
  /\ (exists w1,
        CctpNoble.cctpNobleTxHandler Sample.platform
          (Sample.mintscan [Cases.untimed_burn "DD44" "1"]) Cases.capitals_params start
        = (Error "Error tracing CCTP Noble step: Invalid time value", w1)).
Proof.
  set (avalanche :=
         {| CHAIN_ID := 43114; EXPLORER_URL := "https://snowscan.xyz/tx/";
            FACTORY_CONTRACTS := [ "0x647Ead1a35dbC2b0160Cbe6e565f25C4915a125F";
                                   "0x13cA288486f2bb6B3619c5fd6A2917Ec98a41E7f" ];
            DOMAIN := "1" |}).
  assert (Other : burn_mismatch avalanche Cases.capitals (Sample.burn_tx "AA11" "3")).
  { eexists. split; [vm_compute; reflexivity|]. intros [_ D]. discriminate D. }
  assert (Match : forall tx,
            cctp_data tx
            = Ok {| mintRecipient := Some Sample.evmAddress;
                    destinationDomain := Some "1" |} ->
            burn_match avalanche Cases.capitals tx).
  { intros tx E. eexists. split; [exact E|]. split; [|reflexivity].
    exists Sample.evmAddress. split; reflexivity. }
  split; [|split].
  - epose proof (cctpNoble_first_match Sample.platform (Sample.mintscan Cases.mixed_page)
                   Sample.nobleAddress "avalanche" Cases.capitals None _ start _ _
                   Cases.mixed_page) as T.
    cbv zeta in T.
    specialize (T ltac:(discriminate) eq_refl eq_refl eq_refl eq_refl).
    destruct T as [T _].
    edestruct (T [Sample.burn_tx "AA11" "3"] (Cases.burn_after_send "BB22" "1")
                 [Sample.burn_tx "CC33" "1"]
                 [Cases.send_message; Sample.burn_message]) as [Found _].
    + reflexivity.
    + constructor; [exact Other|constructor].
    + apply Match. vm_compute. reflexivity.
    + reflexivity.
    + destruct (Found "2025-03-01T12:00:00.000Z" eq_refl)
        as (data & H & F & Tx & Burn & _).
      destruct (Burn [Cases.send_message] Sample.burn_message [] eq_refl) as [A Dn].
      * constructor; [|constructor]. intros [Ty _]. discriminate Ty.
      * split; reflexivity.
      * exists data. eexists. repeat split; [exact H|exact F|exact Tx|exact A|exact Dn].
  - epose proof (cctpNoble_first_match Sample.platform
                   (Sample.mintscan [Sample.burn_tx "AA11" "3"])
                   Sample.nobleAddress "avalanche" Cases.capitals None _ start _ _
                   [Sample.burn_tx "AA11" "3"]) as T.
    cbv zeta in T.
    specialize (T ltac:(discriminate) eq_refl eq_refl eq_refl eq_refl).
    destruct T as [_ T]. eexists. apply T.
    constructor; [exact Other|constructor].
  - epose proof (cctpNoble_first_match Sample.platform
                   (Sample.mintscan [Cases.untimed_burn "DD44" "1"])
                   Sample.nobleAddress "avalanche" Cases.capitals None _ start _ _
                   [Cases.untimed_burn "DD44" "1"]) as T.
    cbv zeta in T.
    specialize (T ltac:(discriminate) eq_refl eq_refl eq_refl eq_refl).
    destruct T as [T _].
    edestruct (T [] (Cases.untimed_burn "DD44" "1") [] [Sample.burn_message])
      as [_ Lost].
    + reflexivity.
    + constructor.
    + apply Match. vm_compute. reflexivity.
    + reflexivity.
    + eexists. exact (Lost "Invalid time value" eq_refl).
Defined.

(** ** The retrying client *)

Section Client.
Context (net : Network).

(** When every attempt at [r] fails [makeRequest] returns [null] after
    exactly [retries] calls of [fetch]; the message of the last error is
    dropped. *)
Lemma attempts_failing r n :
  (forall k, exists lastError, ApiClient.read true (net k r) = Throw lastError) ->
  forall delay w,
  exists w', ApiClient.attempts net r true n delay w = (JNull, w')
             /\ fetched w' = fetched w ++ repeat r n.
Proof.
  intros Hfail.
  induction n as [|k IH]; intros delay w; cbn [ApiClient.attempts repeat].
  - exists w. now rewrite app_nil_r.
  - unfold fetch. destruct (Hfail (clock w)) as [e ->].
    destruct k as [|k'].
    + destruct (IH delay {| clock := S (clock w); fetched := fetched w ++ [r];
                            delays := delays w |}) as (w' & -> & F).
      exists w'. split; [reflexivity|]. rewrite F. cbn [fetched].
      now rewrite <- app_assoc.
    + destruct (IH (delay * 2)%Z
                  (sleep delay {| clock := S (clock w); fetched := fetched w ++ [r];
                                  delays := delays w |})) as (w' & -> & F).
      exists w'. split; [reflexivity|]. rewrite F. cbn [fetched sleep].
      now rewrite <- app_assoc.
Qed.

End Client.

(** ** Exhausted retries *)

Section ExhaustedRetries.
Context (P : Platform) (net : Network).
Hypothesis Hdown : unreachable net.

Lemma attempts_unreachable r n delay w :
  exists w', ApiClient.attempts net r true n delay w = (JNull, w')
             /\ fetched w' = fetched w ++ repeat r n.
Proof. apply attempts_failing. intros k. apply Hdown. Qed.

Lemma get_unreachable u accept retries custom w :
  exists w', ApiClient.get net u accept true retries custom w = (JNull, w').
Proof.
  unfold ApiClient.get, ApiClient.makeRequest.
  destruct (attempts_unreachable
              {| method := "GET"; url := u;
                 headers := ("Accept", accept) :: default [] custom; body := None |}
              retries 1000%Z w) as (w' & E & _).
  now exists w'.
Qed.

Lemma post_unreachable u data retries w :
  exists w', ApiClient.post net u data true retries w = (JNull, w').
Proof.
  unfold ApiClient.post, ApiClient.makeRequest.
  destruct (attempts_unreachable
              {| method := "POST"; url := u;
                 headers := [("Accept", "application/json");
                             ("Content-Type", "application/json")];
                 body := Some data |}
              retries 1000%Z w) as (w' & E & _).
  now exists w'.
Qed.

Lemma probe_unreachable size agoric chain contracts : forall w,
  exists w', AxelarGmp.probe net size agoric chain contracts w = (JNull, w').
Proof.
  induction contracts as [|a r IH]; intros w; cbn [AxelarGmp.probe].
  - now exists w.
  - destruct (post_unreachable AxelarGmp.searchGMP
                (AxelarGmp.search_body size agoric a chain) 3 w) as (w1 & ->).
    cbn [AxelarGmp.has_results Js.get]. apply IH.
Qed.

(** C1 fails on the code: with the provider unreachable, Steps 1 to 3 return
    their [found: false] success result; only Step 4 returns an error, and a
    fixed one.  (The specification asks for a step-level error from every
    handler.) *)
Theorem unreachable_provider_results
    (agoric noble chain dest : string) (chainInfo : ChainInfo)
    (size take : option Z) (expected : option string) (apiKey : string) (w : World) :
  agoric <> "" -> noble <> "" ->
  Schema.evmAddress dest = true ->
  getChainInfo (canonicalizeChain chain) = Some chainInfo ->
  ETHERSCAN_API_KEY P = Some apiKey -> apiKey <> "" ->
  (AxelarGmp.axelarGmpTxHandler P net
     {| AxelarGmp.destChain := Some chain; AxelarGmp.agoricAddress := Some agoric;
        AxelarGmp.size := size |} w).1
  = Success AxelarGmp.not_found
  /\ (AgoricFunding.agoricFundingTxHandler P net
        {| AgoricFunding.agoricAddress := Some agoric;
           AgoricFunding.nobleAddress := Some noble;
           AgoricFunding.take := take |} w).1
     = Success (AgoricFunding.result (JArr []) None)
  /\ (CctpNoble.cctpNobleTxHandler P net
        {| CctpNoble.nobleAddress := Some noble; CctpNoble.destChain := Some chain;
           CctpNoble.destinationEvmAddress := Some dest;
           CctpNoble.take := take |} w).1
     = Success CctpNoble.not_found
  /\ (FinalEvm.finalEvmTxHandler P net
        {| FinalEvm.destChain := Some chain;
           FinalEvm.destinationEvmAddress := Some dest;
           FinalEvm.expectedAmount := expected |} w).1
     = Error "Etherscan API request failed".
Proof.
  intros Hag Hno Hd Hc Hk Hk'.
  pose proof (getChainInfo_nonempty _ _ Hc) as Hch.
  pose proof (evmAddress_nonempty _ Hd) as Hde.
  repeat split.
  - unfold AxelarGmp.axelarGmpTxHandler.
    cbn [AxelarGmp.destChain AxelarGmp.agoricAddress AxelarGmp.size default
         from_option id].
    rewrite (missing_false _ Hch), (missing_false _ Hag), Hc. cbn [orb].
    destruct (FACTORY_CONTRACTS chainInfo) as [|a r] eqn:F.
    { now destruct (getChainInfo_contracts _ _ Hc). }
    destruct (probe_unreachable (default 1%Z size) agoric (canonicalizeChain chain)
                (a :: r) w) as (w' & ->).
    reflexivity.
  - unfold AgoricFunding.agoricFundingTxHandler.
    cbn [AgoricFunding.agoricAddress AgoricFunding.nobleAddress AgoricFunding.take
         default from_option id].
    rewrite (missing_false _ Hag), (missing_false _ Hno). cbn [orb].
    destruct (get_unreachable (AgoricFunding.request_url agoric (default 20%Z take))
                "application/json" 3 (getMintscanHeaders P) w) as (w' & E).
    cbn [default from_option id] in E. rewrite E. reflexivity.
  - destruct (get_unreachable (CctpNoble.request_url noble (default 20%Z take))
                "application/json" 3 (getMintscanHeaders P) w) as (w' & E).
    rewrite (cctpNobleTxHandler_respond P net _ _ _ _ _ _ _ _ Hno Hd Hc E).
    cbn [fst]. unfold CctpNoble.respond. now rewrite Hc.
  - unfold FinalEvm.finalEvmTxHandler.
    cbn [FinalEvm.destChain FinalEvm.destinationEvmAddress FinalEvm.expectedAmount
         default from_option id].
    rewrite (missing_false _ Hch), (missing_false _ Hde), Hc. cbn [orb].
    unfold getEtherscanApiKey. rewrite Hk, (missing_false _ Hk').
    cbn [default from_option id].
    destruct (get_unreachable
                (FinalEvm.txlist_url (CHAIN_ID chainInfo) dest apiKey)
                "application/json" 3 None w) as (w' & ->).
    reflexivity.
Qed.

End ExhaustedRetries.

Lemma down_unreachable : unreachable Sample.down.
Proof. intros n r. now exists "HTTP error! status: 503 - Service Unavailable". Qed.

Lemma unreachable_provider_results_witness :
  (AxelarGmp.axelarGmpTxHandler Sample.platform Sample.down Sample.gmp_params start).1
  = Success AxelarGmp.not_found
  /\ (AgoricFunding.agoricFundingTxHandler Sample.platform Sample.down
        Sample.funding_params start).1
     = Success (AgoricFunding.result (JArr []) None)
  /\ (CctpNoble.cctpNobleTxHandler Sample.platform Sample.down Sample.cctp_params
        start).1
     = Success CctpNoble.not_found
  /\ (FinalEvm.finalEvmTxHandler Sample.platform Sample.down (Sample.evm_params None)
        start).1
     = Error "Etherscan API request failed".
Proof.
  eapply (unreachable_provider_results Sample.platform Sample.down down_unreachable
            Sample.agoricAddress Sample.nobleAddress "avalanche" Sample.evmAddress
            _ None None None "key" start);
    first [discriminate | reflexivity].
Defined.

(** ** The transaction hash of a [found] result *)

(** C2, as stated, fails: Step 1 answers [found: true] for a GMP record
    without any hash; its result has no [txHash] field and no item. *)
Lemma found_without_hash :
  exists data w1,
    AxelarGmp.axelarGmpTxHandler Sample.platform
      (Sample.always (JObj [("data", JArr [JObj []])])) Sample.gmp_params start
    = (Success data, w1)
    /\ Js.get "found" data = JBool true
    /\ Js.get "txHash" data = JUndef
    /\ Js.get "items" data = JArr [].
Proof. do 2 eexists. split; [reflexivity|]. now repeat split. Qed.

Section FoundHash.
Context (P : Platform) (net : Network).

Lemma scan_found chainInfo dest txs data :
  CctpNoble.scan P chainInfo dest txs = Ok (Success data) ->
  Js.get "found" data = JBool true ->
  exists tx, In tx txs
             /\ Js.get "txHash" data = JStr (Js.toString (Js.get "txhash" tx)).
Proof.
  induction txs as [|tx rest IH]; cbn [CctpNoble.scan]; intros H F.
  - injection H as <-. discriminate F.
  - destruct (extractCctpDataFromLogs _) as [e|]; [|discriminate H].
    cbn [mbind Exn_bind] in H.
    destruct (_ && _).
    + exists tx. split; [now left|].
      revert H. unfold CctpNoble.matched, Js.getE.
      destruct (Js.nullish tx); [discriminate|]. cbn [mbind Exn_bind].
      destruct (Js.iterate _); [|discriminate]. cbn [mbind Exn_bind].
      destruct (CctpNoble.find_burn _) as [amount denom].
      destruct (Date_toISOString P _); [|discriminate]. cbn [mbind Exn_bind].
      intros [= <-]. reflexivity.
    + destruct (IH H F) as (tx' & I & E). exists tx'. split; [now right|exact E].
Qed.

Lemma In_insert x a l : In x (FinalEvm.insert P a l) -> x = a \/ In x l.
Proof.
  induction l as [|y r IH]; cbn [FinalEvm.insert].
  - intros [<-|[]]. now left.
  - destruct (FinalEvm.by_time_desc P a y).
    + intros [<-|H]; [now left|now right].
    + intros [<-|H]; [now left|now right].
    + intros [<-|H]; [right; now left|].
      destruct (IH H) as [->|I]; [now left|right; now right].
Qed.

Lemma In_sort x l : In x (FinalEvm.sort P l) -> In x l.
Proof.
  unfold FinalEvm.sort. induction l as [|a r IH]; cbn [fold_right]; [easy|].
  intros [->|H]%In_insert; [now left|right; now apply IH].
Qed.

Lemma In_executes ts : forall ex x,
  FinalEvm.executes_of ts = Ok ex -> In x ex -> In x ts.
Proof.
  induction ts as [|t r IH]; cbn [FinalEvm.executes_of]; intros ex x H I.
  - injection H as <-. destruct I.
  - destruct (Js.getE "functionName" t) as [fn|]; [|discriminate H].
    cbn [mbind Exn_bind] in H.
    destruct (FinalEvm.executes_of r) as [ex'|] eqn:E; [|discriminate H].
    cbn [mbind Exn_bind] in H.
    set (b := Str.startsWith _ _) in H. injection H as <-.
    destruct b.
    + destruct I as [<-|I]; [now left|right; now apply (IH ex')].
    + right. now apply (IH ex').
Qed.

Lemma report_hash chainInfo apiKey dest expected evmTx w data w1 :
  FinalEvm.report P net chainInfo apiKey dest expected evmTx w = (Ok (Success data), w1) ->
  Js.get "found" data = JBool true
  /\ Js.get "txHash" data = JStr (Js.toString (Js.get "hash" evmTx)).
Proof.
  unfold FinalEvm.report.
  destruct (FinalEvm.tx_items P _ evmTx) as [items|]; [|discriminate].
  destruct (FinalEvm.transfer_of_receipt _ _ _ _ _ _ _ _) as [[tta pushed] w2].
  unfold FinalEvm.sanitize.
  destruct (seconds_toISOString P _); [|discriminate]. cbn [mbind Exn_bind].
  intros [= <- <-]. now split.
Qed.

Lemma funding_matched_first noble tx w items w1 :
  AgoricFunding.matched net noble tx w = (Ok items, w1) ->
  exists rest, items = agoric_tx_item tx :: rest.
Proof.
  unfold AgoricFunding.matched, Js.getE.
  destruct (Js.nullish tx); cbn [mbind Exn_bind]; [discriminate|].
  destruct (Js.iterate _) as [msgs|]; cbn [mbind Exn_bind]; [|discriminate].
  destruct (Js.asArray _ _) as [found|]; cbn [mbind Exn_bind]; [|discriminate].
  destruct (AgoricFunding.noble_items _ _ _) as [noble_ w'].
  intros [= <- <-]. eexists. reflexivity.
Qed.

Lemma funding_scan_found noble txs : forall w items w1,
  AgoricFunding.scan P net noble txs w = (Ok (Some items), w1) ->
  exists tx rest,
    In tx txs /\ receiver_of P tx = Ok (JStr noble)
    /\ items = agoric_tx_item tx :: rest.
Proof.
  induction txs as [|tx r IH]; intros w items w1; cbn [AgoricFunding.scan].
  - discriminate.
  - fold (receiver_of P tx).
    destruct (receiver_of P tx) as [receiver|] eqn:R; [|discriminate].
    destruct (Js.eqStr receiver noble) eqn:E.
    + apply eqStr_iff in E. subst receiver.
      destruct (AgoricFunding.matched net noble tx w) as [[found|] w'] eqn:M;
        cbn [fmap Exn_fmap]; [|discriminate].
      intros [= <- <-]. destruct (funding_matched_first _ _ _ _ _ M) as [rest ->].
      exists tx, rest. split; [now left|]. now split.
    + intros H. destruct (IH _ _ _ H) as (tx' & rest & I & R' & ->).
      exists tx', rest. split; [now right|]. now split.
Qed.

Lemma funding_found_hash params w data w2 :
  AgoricFunding.agoricFundingTxHandler P net params w = (Success data, w2) ->
  Js.get "txHash" data = JUndef
  /\ (Js.get "found" data = JBool true ->
      exists response w1 txs tx rest,
        ApiClient.get net
          (AgoricFunding.request_url (default "" (AgoricFunding.agoricAddress params))
             (default 20%Z (AgoricFunding.take params)))
          "application/json" true 3 (getMintscanHeaders P) w
        = (response, w1)
        /\ Js.iterate (AgoricFunding.transactions_of response) = Ok txs
        /\ In tx txs
        /\ receiver_of P tx
           = Ok (JStr (default "" (AgoricFunding.nobleAddress params)))
        /\ Js.get "items" data = JArr (agoric_tx_item tx :: rest)).
Proof.
  unfold AgoricFunding.agoricFundingTxHandler.
  destruct (_ || _); [discriminate|].
  destruct (ApiClient.get _ _ _ _ _ _ _) as [response w'].
  unfold AgoricFunding.respond.
  destruct (Js.iterate _) as [txs|] eqn:I; [|discriminate].
  destruct (AgoricFunding.scan _ _ _ _ _) as [[found|] w''] eqn:S; [|discriminate].
  intros [= <- <-]. split; [reflexivity|].
  destruct found as [items|]; [|discriminate]. intros _.
  destruct (funding_scan_found _ _ _ _ _ S) as (tx & rest & Hin & R & ->).
  exists response, w', txs, tx, rest. split; [reflexivity|]. split; [exact I|].
  split; [exact Hin|]. split; [exact R|reflexivity].
Qed.

(** C2 (amended): a [found: true] result of Step 3 or of Step 4 carries a
    [txHash] field, the string rendering of the hash that the provider
    recorded for one of the listed transactions, hence that very hash when
    it is a string.  The results of Step 1 and Step 2 carry no [txHash]
    field; a [found: true] result of Step 2 shows the hash instead: its
    first item is the item [Agoric Tx] of one of the listed transactions,
    one whose receiver is the Noble address, with the hash that the provider
    recorded for it as its value. *)
Theorem found_txHash (w : World) :
  (forall params data w1,
     CctpNoble.cctpNobleTxHandler P net params w = (Success data, w1) ->
     Js.get "found" data = JBool true ->
     exists u response txs tx,
       ApiClient.get net u "application/json" true 3 (getMintscanHeaders P) w
         = (response, w1)
       /\ Js.iterate (CctpNoble.transactions_of response) = Ok txs
       /\ In tx txs
       /\ Js.get "txHash" data = JStr (Js.toString (Js.get "txhash" tx))
       /\ (forall h, Js.get "txhash" tx = JStr h -> Js.get "txHash" data = JStr h))
  /\ (forall params data w2,
        FinalEvm.finalEvmTxHandler P net params w = (Success data, w2) ->
        Js.get "found" data = JBool true ->
        exists u response w1 txs tx,
          ApiClient.get net u "application/json" true 3 None w = (response, w1)
          /\ Js.get "result" response = JArr txs
          /\ In tx txs
          /\ Js.get "txHash" data = JStr (Js.toString (Js.get "hash" tx))
          /\ (forall h, Js.get "hash" tx = JStr h -> Js.get "txHash" data = JStr h))
  /\ (forall params data w1,
        AxelarGmp.axelarGmpTxHandler P net params w = (Success data, w1) ->
        Js.get "txHash" data = JUndef)
  /\ (forall params data w2,
        AgoricFunding.agoricFundingTxHandler P net params w = (Success data, w2) ->
        Js.get "txHash" data = JUndef
        /\ (Js.get "found" data = JBool true ->
            exists response w1 txs tx rest,
              ApiClient.get net
                (AgoricFunding.request_url
                   (default "" (AgoricFunding.agoricAddress params))
                   (default 20%Z (AgoricFunding.take params)))
                "application/json" true 3 (getMintscanHeaders P) w
              = (response, w1)
              /\ Js.iterate (AgoricFunding.transactions_of response) = Ok txs
              /\ In tx txs
              /\ receiver_of P tx
                 = Ok (JStr (default "" (AgoricFunding.nobleAddress params)))
              /\ Js.get "items" data = JArr (agoric_tx_item tx :: rest))).
Proof.
  refine (conj _ (conj _ (conj _ _))).
  - intros params data w1. unfold CctpNoble.cctpNobleTxHandler.
    destruct (_ || _); [discriminate|].
    destruct (ApiClient.get _ _ _ _ _ _ _) as [response w'] eqn:G.
    unfold CctpNoble.respond.
    destruct (getChainInfo _) as [chainInfo|]; [|discriminate].
    destruct (Js.iterate _) as [txs|] eqn:I; [|discriminate].
    cbn [mbind Exn_bind].
    destruct (CctpNoble.scan _ _ _ _) as [r|] eqn:S; [|discriminate].
    intros [= -> <-] F.
    destruct (scan_found _ _ _ _ S F) as (tx & Hin & E).
    eexists _, response, txs, tx. repeat split; [exact G|exact I|exact Hin|exact E|].
    intros h Hh. now rewrite E, Hh.
  - intros params data w2. unfold FinalEvm.finalEvmTxHandler.
    destruct (_ || _); [discriminate|].
    destruct (getChainInfo _) as [chainInfo|]; [|discriminate].
    destruct (missing _); [discriminate|].
    destruct (ApiClient.get _ _ _ _ _ _ _) as [response w1] eqn:G.
    unfold FinalEvm.respond.
    destruct (negb (Js.truthy response)); [discriminate|].
    destruct (_ && _); [discriminate|].
    destruct (Js.get "result" response) as [| | | | |txs|] eqn:R;
      try (cbn [FinalEvm.executes_of FinalEvm.sort fold_right];
           intros [= <- <-]; discriminate).
    destruct (FinalEvm.executes_of txs) as [ex|] eqn:X; [|discriminate].
    destruct (FinalEvm.sort P ex) as [|evmTx rest] eqn:S.
    { intros [= <- <-]. discriminate. }
    destruct (FinalEvm.report _ _ _ _ _ _ _ _) as [[r|] w'] eqn:Rep; [|discriminate].
    intros [= -> <-] _.
    destruct (report_hash _ _ _ _ _ _ _ _ Rep) as [_ E].
    assert (Hin : In evmTx txs).
    { apply (In_executes _ _ _ X), In_sort. rewrite S. now left. }
    eexists _, response, w1, txs, evmTx.
    repeat split; [exact G|exact R|exact Hin|exact E|].
    intros h Hh. now rewrite E, Hh.
  - intros params data w1. unfold AxelarGmp.axelarGmpTxHandler.
    destruct (_ || _); [discriminate|].
    destruct (getChainInfo _) as [chainInfo|]; [|discriminate].
    destruct (FACTORY_CONTRACTS chainInfo) as [|a r]; [discriminate|].
    destruct (AxelarGmp.probe _ _ _ _ _ _) as [gmpData w'].
    unfold AxelarGmp.conclude.
    destruct (negb _); [intros [= <- <-]; reflexivity|].
    unfold AxelarGmp.report.
    destruct (Js.truthy (Js.or _ _)).
    + destruct (Date_toISOString P _); cbn [mbind Exn_bind]; [|discriminate].
      intros [= <- <-]. reflexivity.
    + cbn [mbind Exn_bind]. intros [= <- <-]. reflexivity.
  - intros params data w2. apply funding_found_hash.
Qed.

End FoundHash.

(** ** Step 1: probing the factory contracts *)

Section AxelarGmpStep.
Context (P : Platform) (index : Request -> FetchOutcome).




Lemma conclude_found chainInfo data :
  AxelarGmp.has_results data = true ->
  AxelarGmp.conclude P chainInfo data <> Success AxelarGmp.not_found.
Proof.
  unfold AxelarGmp.has_results, AxelarGmp.conclude.
  destruct (Js.get "data" data) as [| | | | |[|first rest]|]; try discriminate.
  intros _. cbn [Js.get String.eqb Ascii.eqb Bool.eqb Js.truthy negb length].
  unfold AxelarGmp.report.
  destruct (Js.truthy (Js.or _ _)).
  - destruct (Date_toISOString P _); cbn [mbind Exn_bind]; discriminate.
  - cbn [mbind Exn_bind]. discriminate.
Qed.


End AxelarGmpStep.


(** ** Step 2: the first acknowledged transfer to the Noble account *)

Section AgoricFundingStep.
Context (P : Platform) (net : Network).

Lemma funding_scan_skips noble pre rest w :
  Forall (other_receiver P noble) pre ->
  AgoricFunding.scan P net noble (pre ++ rest) w
  = AgoricFunding.scan P net noble rest w.
Proof.
  induction 1 as [|tx r (v & E & N) _ IH]; [reflexivity|].
  cbn [app AgoricFunding.scan]. unfold receiver_of in E. rewrite E.
  destruct (Js.eqStr v noble) eqn:B; [|exact IH].
  apply eqStr_iff in B. now destruct N.
Qed.

Lemma receiver_not_nullish noble tx :
  receiver_of P tx = Ok (JStr noble) -> Js.nullish tx = false.
Proof. destruct tx; try reflexivity; discriminate. Qed.

(** C8: Step 2 matches the first transaction of the page whose receiver,
    as read from its logs, is the target Noble address itself (any other
    value, a different case included, is passed over); the result is built
    from that transaction and does not depend on what follows it in the
    page. *)
Theorem agoricFunding_first_receiver
    (agoric noble : string) (take : option Z) (w w1 : World) (response : JS)
    (pre : list JS) (tx : JS) (post msgs : list JS) :
  let params :=
    {| AgoricFunding.agoricAddress := Some agoric;
       AgoricFunding.nobleAddress := Some noble; AgoricFunding.take := take |} in
  agoric <> "" -> noble <> "" ->
  ApiClient.get net (AgoricFunding.request_url agoric (default 20%Z take))
    "application/json" true 3 (getMintscanHeaders P) w = (response, w1) ->
  AgoricFunding.transactions_of response = JArr (pre ++ tx :: post) ->
  Forall (other_receiver P noble) pre ->
  receiver_of P tx = Ok (JStr noble) ->
  messages_of tx = JArr msgs ->
  (exists data w2 more,
     AgoricFunding.agoricFundingTxHandler P net params w = (Success data, w2)
     /\ Js.get "found" data = JBool true
     /\ Js.get "items" data
        = JArr (Js.item_href "Agoric Tx" (Js.get "txhash" tx)
                  (JStr ("https://www.mintscan.io/agoric/txs/"
                           +:+ Js.toString (Js.get "txhash" tx)))
                  :: Js.item "Receiver" (JStr noble) :: more))
  /\ (forall response' post',
        AgoricFunding.transactions_of response' = JArr (pre ++ tx :: post') ->
        AgoricFunding.respond P net noble response' w1
        = AgoricFunding.agoricFundingTxHandler P net params w).
Proof.
  intros params Hag Hno Hget Htxs Hpre Htx Hmsgs.
  assert (Hh : AgoricFunding.agoricFundingTxHandler P net params w
               = AgoricFunding.respond P net noble response w1).
  { unfold AgoricFunding.agoricFundingTxHandler, params.
    cbn [AgoricFunding.agoricAddress AgoricFunding.nobleAddress AgoricFunding.take
         default from_option id].
    rewrite (missing_false _ Hag), (missing_false _ Hno). cbn [orb].
    now rewrite Hget. }
  assert (Hm : AgoricFunding.matched net noble tx w1
               = (let '(nb, w2) := AgoricFunding.noble_items net msgs w1 in
                  (Ok ([ Js.item_href "Agoric Tx" (Js.get "txhash" tx)
                           (JStr ("https://www.mintscan.io/agoric/txs/"
                                    +:+ Js.toString (Js.get "txhash" tx)));
                         Js.item "Receiver" (JStr noble) ]
                       ++ List.concat (List.map AgoricFunding.packet_items msgs)
                       ++ nb), w2))).
  { unfold AgoricFunding.matched, Js.getE.
    rewrite (receiver_not_nullish _ _ Htx). cbn [mbind Exn_bind].
    fold (messages_of tx). rewrite Hmsgs. reflexivity. }
  assert (Hr : forall r p, AgoricFunding.transactions_of r = JArr (pre ++ tx :: p) ->
            AgoricFunding.respond P net noble r w1
            = (let '(nb, w2) := AgoricFunding.noble_items net msgs w1 in
               (Success (AgoricFunding.result (JArr (pre ++ tx :: p))
                  (Some ([ Js.item_href "Agoric Tx" (Js.get "txhash" tx)
                             (JStr ("https://www.mintscan.io/agoric/txs/"
                                      +:+ Js.toString (Js.get "txhash" tx)));
                           Js.item "Receiver" (JStr noble) ]
                         ++ List.concat (List.map AgoricFunding.packet_items msgs)
                         ++ nb))), w2))).
  { intros r p E. unfold AgoricFunding.respond. rewrite E. cbn [Js.iterate].
    rewrite (funding_scan_skips _ _ _ _ Hpre). cbn [AgoricFunding.scan].
    fold (receiver_of P tx). rewrite Htx.
    rewrite (proj2 (eqStr_iff (JStr noble) noble) eq_refl), Hm.
    now destruct (AgoricFunding.noble_items net msgs w1) as [nb w2]. }
  split.
  - rewrite Hh, (Hr response post Htxs).
    destruct (AgoricFunding.noble_items net msgs w1) as [nb w2].
    eexists _, w2, _. split; [reflexivity|]. split; reflexivity.
  - intros response' post' E. rewrite Hh, (Hr response post Htxs), (Hr response' post' E).
    now destruct (AgoricFunding.noble_items net msgs w1) as [nb w2].
Qed.

End AgoricFundingStep.

Lemma agoricFunding_first_receiver_witness :
  exists data w2 more,
    AgoricFunding.agoricFundingTxHandler Sample.platform
      (Sample.mintscan Sample.ack_page) Sample.funding_params start
    = (Success data, w2)
    /\ Js.get "found" data = JBool true
    /\ Js.get "items" data
       = JArr (Js.item_href "Agoric Tx" (JStr "H2")
                 (JStr "https://www.mintscan.io/agoric/txs/H2")
                 :: Js.item "Receiver" (JStr Sample.nobleAddress) :: more).
Proof.
  epose proof (agoricFunding_first_receiver Sample.platform
                 (Sample.mintscan Sample.ack_page)
                 Sample.agoricAddress Sample.nobleAddress None start _ _
                 [Sample.ack_tx "H1" "NOBLE1QQQQQQQQQQQQQQQQQQQQQQQQQQQQQQQQQQQQQQQ"]
                 (Sample.ack_tx "H2" Sample.nobleAddress)
                 [Sample.ack_tx "H3" Sample.nobleAddress] _) as T.
  cbv zeta in T.
  apply (proj1 (T ltac:(discriminate) ltac:(discriminate) eq_refl eq_refl
                  ltac:(constructor; [eexists; split; [reflexivity|discriminate]
                                     |constructor])
                  eq_refl eq_refl)).
Defined.

(** ** Step 4: the Etherscan status *)

Section FinalEvmStep.
Context (P : Platform) (net : Network).

(** The handler of Step 4 is its request followed by [respond]. *)
Lemma finalEvmTxHandler_respond chain dest expected chainInfo apiKey w w1 response :
  dest <> "" ->
  getChainInfo (canonicalizeChain chain) = Some chainInfo ->
  ETHERSCAN_API_KEY P = Some apiKey -> apiKey <> "" ->
  ApiClient.get net (FinalEvm.txlist_url (CHAIN_ID chainInfo) dest apiKey)
    "application/json" true 3 None w = (response, w1) ->
  FinalEvm.finalEvmTxHandler P net
    {| FinalEvm.destChain := Some chain; FinalEvm.destinationEvmAddress := Some dest;
       FinalEvm.expectedAmount := expected |} w
  = FinalEvm.respond P net chainInfo apiKey dest expected response w1.
Proof.
  intros Hd Hc Hk Hk' Hget. unfold FinalEvm.finalEvmTxHandler.
  cbn [FinalEvm.destChain FinalEvm.destinationEvmAddress FinalEvm.expectedAmount
       default from_option id].
  rewrite (missing_false _ (getChainInfo_nonempty _ _ Hc)), (missing_false _ Hd), Hc.
  cbn [orb]. unfold getEtherscanApiKey. rewrite Hk, (missing_false _ Hk').
  cbn [default from_option id]. now rewrite Hget.
Qed.



End FinalEvmStep.

(** ** Step 4: the amount annotation *)

Section AmountMatch.
Context (P : Platform) (net : Network).

Lemma compare_expected_iff expected amount :
  In FinalEvm.amount_match (FinalEvm.compare_expected expected amount)
  <-> supplied expected amount.
Proof.
  unfold FinalEvm.compare_expected, supplied, missing.
  destruct expected as [s|]; cbn [default from_option id].
  - destruct (String.eqb_spec s "") as [->|Hs].
    + split; [intros []|]. intros (t & [= <-] & N & _). now destruct N.
    + unfold Js.BigInt. cbn [Js.toString].
      destruct (Js.stringToBigInt s) as [n|] eqn:E.
      * destruct (Z.eqb_spec amount n) as [->|N].
        -- split; [|intros _; now left]. intros _. now exists s.
        -- split; [intros []|]. intros (t & [= <-] & _ & E').
           rewrite E in E'. injection E' as ->. now destruct N.
      * split; [intros []|]. intros (t & [= <-] & _ & E').
        rewrite E in E'. discriminate E'.
  - split; [intros []|]. intros (t & [=] & _).
Qed.

Lemma nth_string topics i :
  forallb is_string topics = true -> i < length topics ->
  exists s, nth i topics JUndef = JStr s.
Proof.
  revert i. induction topics as [|t r IH]; intros i; cbn [forallb length nth].
  - lia.
  - intros [Ht Hr]%andb_prop Hi. destruct i as [|i].
    + destruct t; try discriminate Ht. now eexists.
    + apply IH; [exact Hr|lia].
Qed.

(** What the loop does with a well-formed log: it stops on a transfer to
    the target whose data reads as an integer and passes over any other. *)
Lemma inspect_receipt_log dest expected log :
  receipt_log log = true ->
  (exists amount,
     transfer_to dest log amount
     /\ FinalEvm.inspect P dest expected log
        = Ok (FinalEvm.Transfer (Js.get "data" log)
                (Js.item "Token Transfer (base units)" (JStr (Str.of_Z amount))
                   :: FinalEvm.compare_expected expected amount)))
  \/ ((forall a, ~ transfer_to dest log a)
      /\ (FinalEvm.inspect P dest expected log = Ok FinalEvm.Skip
          \/ FinalEvm.inspect P dest expected log
             = Ok (FinalEvm.Unparsed (Js.get "data" log)))).
Proof.
  unfold receipt_log. destruct log as [| | | | | |fields]; try discriminate.
  destruct (Js.get "topics" (JObj fields)) as [| | | | |topics|] eqn:T; try discriminate.
  intros Hs. unfold FinalEvm.inspect, Js.getE. cbn [Js.nullish mbind Exn_bind].
  rewrite T. change (Js.get "length" (JArr topics)) with (JNum (Z.of_nat (length topics))).
  cbn [Js.idx FinalEvm.at_least_3].
  destruct (Js.eqStr (nth 0 topics JUndef) FinalEvm.transferTopic) eqn:E0; cbn [andb].
  2:{ right. split; [|now left].
      intros a (ts & r & Hts & _ & H0 & _). rewrite T in Hts. injection Hts as <-.
      rewrite H0 in E0. cbn in E0. discriminate E0. }
  destruct (Z.leb_spec 3 (Z.of_nat (length topics))) as [L|L].
  2:{ right. split; [|now left].
      intros a (ts & r & Hts & H3 & _). rewrite T in Hts. injection Hts as <-. lia. }
  destruct (nth_string topics 2 Hs ltac:(lia)) as [r R]. rewrite R.
  cbn [FinalEvm.slice26 mbind Exn_bind].
  destruct (String.eqb_spec (Str.toLowerCase ("0x" +:+ Str.drop 26 r))
              (Str.toLowerCase dest)) as [A|A].
  2:{ right. split; [|now left].
      intros a (ts & r' & Hts & _ & _ & H2 & HA & _).
      rewrite T in Hts. injection Hts as <-.
      rewrite R in H2. injection H2 as <-. now destruct A. }
  destruct (Js.BigInt (Js.get "data" (JObj fields))) as [amount|e] eqn:B.
  - left. exists amount. split; [|reflexivity].
    exists topics, r. apply eqStr_iff in E0. repeat split; auto. lia.
  - right. split; [|now right].
    intros a (_ & _ & _ & _ & _ & _ & _ & HB). rewrite B in HB. discriminate HB.
Qed.

Lemma token_item_not_match amount :
  Js.item "Token Transfer (base units)" (JStr (Str.of_Z amount)) <> FinalEvm.amount_match.
Proof. discriminate. Qed.

Lemma tx_items_ok explorer evmTx iso :
  seconds_toISOString P (Js.get "timeStamp" evmTx) = Ok iso ->
  exists items, FinalEvm.tx_items P explorer evmTx = Ok items
                /\ ~ In FinalEvm.amount_match items.
Proof.
  intros H. unfold FinalEvm.tx_items. rewrite H.
  assert (F : forall (b : bool) (x : JS), x <> FinalEvm.amount_match ->
            ~ In FinalEvm.amount_match (if b then [x] else [])).
  { intros [] x N; [intros [E|[]]; now destruct N|intros []]. }
  destruct (Js.truthy (Js.get "timeStamp" evmTx)); cbn [mbind Exn_bind];
    eexists; (split; [reflexivity|]);
    rewrite !in_app_iff; intros I;
    repeat (destruct I as [I|I]; [revert I; first [apply F; discriminate
                                                  | intros [E|[]]; discriminate E
                                                  | intros []]|]);
    revert I; first [apply F; discriminate | intros []].
Qed.

(** The loop stops on a transfer to the target whose data reads as an
    integer. *)
Lemma inspect_transfer dest expected log amount :
  transfer_to dest log amount ->
  FinalEvm.inspect P dest expected log
  = Ok (FinalEvm.Transfer (Js.get "data" log)
          (Js.item "Token Transfer (base units)" (JStr (Str.of_Z amount))
             :: FinalEvm.compare_expected expected amount)).
Proof.
  intros (topics & r & T & L & H0 & H2 & A & B).
  unfold FinalEvm.inspect, Js.getE.
  assert (N : Js.nullish log = false).
  { destruct log; try reflexivity; discriminate T. }
  rewrite N. cbn [mbind Exn_bind]. rewrite T.
  change (Js.get "length" (JArr topics)) with (JNum (Z.of_nat (length topics))).
  cbn [Js.idx FinalEvm.at_least_3]. rewrite H0, H2.
  rewrite (proj2 (eqStr_iff _ _) eq_refl).
  assert (L3 : (3 <=? Z.of_nat (length topics))%Z = true) by (apply Z.leb_le; lia).
  rewrite L3. cbn [andb FinalEvm.slice26 mbind Exn_bind].
  rewrite (proj2 (String.eqb_eq _ _) A). now rewrite B.
Qed.

Lemma scan_logs_others dest expected pre rest :
  Forall (other_log dest) pre ->
  forall t, exists t',
    FinalEvm.scan_logs P dest expected (pre ++ rest) t
    = FinalEvm.scan_logs P dest expected rest t'.
Proof.
  induction 1 as [|log r [Hwf Hno] _ IH]; intros t; [now exists t|].
  cbn [app FinalEvm.scan_logs].
  destruct (inspect_receipt_log dest expected log Hwf)
    as [(amount & Htr & _) | (_ & [-> | ->])].
  - now destruct (Hno amount).
  - apply IH.
  - apply IH.
Qed.

(** What the scan of the receipt pushes: the annotation follows the first
    transfer to the target exactly when the expected amount is its amount,
    and no transfer means no annotation. *)
Lemma scan_logs_annotation dest expected logs t :
  (forall pre log post amount,
     logs = pre ++ log :: post ->
     Forall (other_log dest) pre ->
     transfer_to dest log amount ->
     (In FinalEvm.amount_match (FinalEvm.scan_logs P dest expected logs t).2
      <-> supplied expected amount))
  /\ (Forall (other_log dest) logs ->
      ~ In FinalEvm.amount_match (FinalEvm.scan_logs P dest expected logs t).2).
Proof.
  split.
  - intros pre log post amount -> Hpre Htr.
    destruct (scan_logs_others dest expected pre (log :: post) Hpre t) as [t' ->].
    cbn [FinalEvm.scan_logs]. rewrite (inspect_transfer _ expected _ _ Htr).
    cbn [snd In]. rewrite <- compare_expected_iff. split; [|now right].
    intros [H|H]; [now destruct (token_item_not_match amount)|exact H].
  - intros Hall. rewrite <- (app_nil_r logs).
    destruct (scan_logs_others dest expected logs [] Hall t) as [t' ->].
    intros [].
Qed.

Lemma tx_items_untimed explorer evmTx :
  Js.truthy (Js.get "timeStamp" evmTx) = false ->
  exists items, FinalEvm.tx_items P explorer evmTx = Ok items.
Proof.
  intros H. unfold FinalEvm.tx_items. rewrite H. cbn [mbind Exn_bind]. now eexists.
Qed.

(** C9: Step 4 looks for the first log of the receipt that records a
    transfer to the target address with data that reads as an integer.  When
    [Date] reads the time stamp of the reported transaction, the annotation
    [Amount Match] is among the items of the result if and only if an
    expected amount was supplied (a non-empty string, which is what the guard
    [if (expectedAmount)] lets through) and, read as a big integer, equals
    the amount of that log; without such a log there is no annotation.  When
    [Date] rejects the time stamp, as it does a missing one, the result is
    the error of [Date] and carries no item at all. *)
Theorem finalEvm_amount_match
    (chain dest : string) (expected : option string) (chainInfo : ChainInfo)
    (apiKey : string) (w w1 w2 : World) (response receiptResponse : JS)
    (txs executes rest logs : list JS) (evmTx : JS) :
  let params :=
    {| FinalEvm.destChain := Some chain; FinalEvm.destinationEvmAddress := Some dest;
       FinalEvm.expectedAmount := expected |} in
  let out := FinalEvm.finalEvmTxHandler P net params w in
  dest <> "" ->
  getChainInfo (canonicalizeChain chain) = Some chainInfo ->
  ETHERSCAN_API_KEY P = Some apiKey -> apiKey <> "" ->
  ApiClient.get net (FinalEvm.txlist_url (CHAIN_ID chainInfo) dest apiKey)
    "application/json" true 3 None w = (response, w1) ->
  Js.get "result" response = JArr txs ->
  FinalEvm.executes_of txs = Ok executes ->
  FinalEvm.sort P executes = evmTx :: rest ->
  ApiClient.get net
    (FinalEvm.receipt_url (CHAIN_ID chainInfo) (Js.get "hash" evmTx) apiKey)
    "application/json" true 3 None w1 = (receiptResponse, w2) ->
  Js.get "logs" (Js.get "result" receiptResponse) = JArr logs ->
  (forall iso,
     seconds_toISOString P (Js.get "timeStamp" evmTx) = Ok iso ->
     exists data items,
       out = (Success data, w2)
       /\ Js.get "found" data = JBool true
       /\ Js.get "items" data = JArr items
       /\ (forall pre log post amount,
             logs = pre ++ log :: post ->
             Forall (other_log dest) pre ->
             transfer_to dest log amount ->
             (In FinalEvm.amount_match items <-> supplied expected amount))
       /\ (Forall (other_log dest) logs -> ~ In FinalEvm.amount_match items))
  /\ (forall message,
        seconds_toISOString P (Js.get "timeStamp" evmTx) = Throw message ->
        out.1 = Error ("Error tracing final EVM transaction: " +:+ message)).
Proof.
  intros params out Hd Hc Hk Hk' Hget Hres Hex Hsort Hrec Hlogs. subst params out.
  rewrite (finalEvmTxHandler_respond P net _ _ _ _ _ _ _ _ Hd Hc Hk Hk' Hget).
  unfold FinalEvm.respond.
  assert (Ht : Js.truthy response = true).
  { destruct response; try discriminate Hres; reflexivity. }
  rewrite Ht, Hres. cbn [negb Js.isArray]. rewrite andb_false_r, Hex, Hsort.
  unfold FinalEvm.report. split.
  - intros iso Hiso.
    destruct (tx_items_ok (EXPLORER_URL chainInfo) evmTx iso Hiso)
      as (items0 & -> & Hno).
    unfold FinalEvm.transfer_of_receipt. rewrite Hrec, Hlogs.
    cbn [Js.truthy Js.iterate].
    pose proof (scan_logs_annotation dest expected logs JNull) as [Hfirst Hnone].
    destruct (FinalEvm.scan_logs P dest expected logs JNull) as [tta pushed].
    cbn [snd] in Hfirst, Hnone.
    unfold FinalEvm.sanitize. rewrite Hiso. cbn [mbind Exn_bind].
    eexists _, (items0 ++ pushed). split; [reflexivity|]. split; [reflexivity|].
    split; [reflexivity|]. split.
    + intros pre log post amount E Hpre Htr.
      rewrite in_app_iff, <- (Hfirst pre log post amount E Hpre Htr). tauto.
    + intros Hall. rewrite in_app_iff. intros [I|I]; [now apply Hno|].
      now apply (Hnone Hall).
  - intros message Hm.
    destruct (Js.truthy (Js.get "timeStamp" evmTx)) eqn:T.
    + unfold FinalEvm.tx_items. rewrite T, Hm. reflexivity.
    + destruct (tx_items_untimed (EXPLORER_URL chainInfo) evmTx T) as (items0 & ->).
      destruct (FinalEvm.transfer_of_receipt _ _ _ _ _ _ _ _) as [[tta pushed] w'].
      unfold FinalEvm.sanitize. rewrite Hm. reflexivity.
Qed.

End AmountMatch.

Lemma finalEvm_amount_match_witness :
  (exists data items w2,
     FinalEvm.finalEvmTxHandler Sample.platform Sample.settled
       (Sample.evm_params (Some "1000000")) start = (Success data, w2)
     /\ Js.get "items" data = JArr items
     /\ In FinalEvm.amount_match items)
  /\ (exists data items w2,
        FinalEvm.finalEvmTxHandler Sample.platform Sample.settled
          (Sample.evm_params (Some "1000000.0")) start = (Success data, w2)
        /\ Js.get "items" data = JArr items
        /\ ~ In FinalEvm.amount_match items)
  /\ (FinalEvm.finalEvmTxHandler Sample.platform Cases.untimed
        (Sample.evm_params (Some "1000000")) start).1
     = Error "Error tracing final EVM transaction: Invalid time value".
Proof.
  assert (Happroval : other_log Sample.evmAddress Sample.approval_log).
  { split; [reflexivity|].
    intros a (ts & r & Hts & _ & H0 & _). injection Hts as <-. discriminate H0. }
  assert (Htransfer : transfer_to Sample.evmAddress Sample.transfer_log 1000000).
  { eexists _, _. repeat split; try reflexivity; try (cbn; lia). }
  split; [|split].
  - epose proof (finalEvm_amount_match Sample.platform Sample.settled "avalanche"
                   Sample.evmAddress
                   (Some "1000000") _ "key" start _ _ _ _ _ _ _ _ _) as T.
    cbv zeta in T.
    destruct (T ltac:(discriminate) eq_refl eq_refl ltac:(discriminate) eq_refl eq_refl
                eq_refl eq_refl eq_refl eq_refl) as [Found _].
    destruct (Found "1970-01-01T00:00:00.000Z" eq_refl)
      as (data & items & H & _ & I & Hiff & _).
    exists data, items. eexists. split; [exact H|]. split; [exact I|].
    apply (Hiff [Sample.approval_log] Sample.transfer_log [] 1000000%Z eq_refl);
      [now constructor|exact Htransfer|].
    exists "1000000". split; [reflexivity|]. split; [discriminate|reflexivity].
  - epose proof (finalEvm_amount_match Sample.platform Sample.settled "avalanche"
                   Sample.evmAddress
                   (Some "1000000.0") _ "key" start _ _ _ _ _ _ _ _ _) as T.
    cbv zeta in T.
    destruct (T ltac:(discriminate) eq_refl eq_refl ltac:(discriminate) eq_refl eq_refl
                eq_refl eq_refl eq_refl eq_refl) as [Found _].
    destruct (Found "1970-01-01T00:00:00.000Z" eq_refl)
      as (data & items & H & _ & I & Hiff & _).
    exists data, items. eexists. split; [exact H|]. split; [exact I|].
    intros Hin.
    apply (Hiff [Sample.approval_log] Sample.transfer_log [] 1000000%Z eq_refl) in Hin;
      [|now constructor|exact Htransfer].
    destruct Hin as (x & [= <-] & _ & Hx). discriminate Hx.
  - epose proof (finalEvm_amount_match Sample.platform Cases.untimed "avalanche"
                   Sample.evmAddress
                   (Some "1000000") _ "key" start _ _ _ _ _ _ _ _ _) as T.
    cbv zeta in T.
    destruct (T ltac:(discriminate) eq_refl eq_refl ltac:(discriminate) eq_refl eq_refl
                eq_refl eq_refl eq_refl eq_refl) as [_ Lost].
    exact (Lost "Invalid time value" eq_refl).
Defined.


Lemma found_txHash_witness :
  (exists data w1,
     CctpNoble.cctpNobleTxHandler Sample.platform
       (Sample.mintscan [Sample.burn_tx "BB22" "1"])
       Sample.cctp_params start = (Success data, w1)
     /\ exists u response txs tx,
          ApiClient.get
            (Sample.mintscan [Sample.burn_tx "BB22" "1"])
            u "application/json" true 3 (getMintscanHeaders Sample.platform) start
          = (response, w1)
          /\ Js.iterate (CctpNoble.transactions_of response) = Ok txs
          /\ In tx txs
          /\ Js.get "txHash" data = JStr (Js.toString (Js.get "txhash" tx))
          /\ (forall h, Js.get "txhash" tx = JStr h -> Js.get "txHash" data = JStr h))
  /\ (exists data w1 rest,
        AgoricFunding.agoricFundingTxHandler Sample.platform
          (Sample.mintscan [Sample.ack_tx "H2" Sample.nobleAddress])
          Sample.funding_params start = (Success data, w1)
        /\ Js.get "found" data = JBool true
        /\ Js.get "txHash" data = JUndef
        /\ Js.get "items" data
           = JArr (Js.item_href "Agoric Tx" (JStr "H2")
                     (JStr "https://www.mintscan.io/agoric/txs/H2") :: rest)).
Proof.
  split.
  - do 2 eexists. split; [reflexivity|].
    apply (proj1 (found_txHash Sample.platform _ start) Sample.cctp_params);
      reflexivity.
  - pose proof (proj2 (proj2 (proj2 (found_txHash Sample.platform
                  (Sample.mintscan [Sample.ack_tx "H2" Sample.nobleAddress]) start)))
                  Sample.funding_params) as T.
    edestruct T as [Hno Hfound]; [reflexivity|].
    destruct (Hfound eq_refl) as (response & w1 & txs & tx & rest & G & I & Hin & _ & Items).
    injection G as <- _. injection I as <-. destruct Hin as [<-|[]].
    eexists _, _, rest. split; [reflexivity|]. split; [reflexivity|].
    split; [exact Hno|exact Items].
Defined.

(** * Further properties of the code *)

(** ** The retrying client: attempts and pauses *)

Section Backoff.
Context (net : Network).

Lemma attempts_trace r toJson : forall n d w,
  let out := ApiClient.attempts net r toJson n d w in
  exists k,
    k <= n
    /\ fetched out.2 = fetched w ++ repeat r k
    /\ clock out.2 = clock w + k
    /\ delays out.2 = delays w ++ backoff d (k - 1)
    /\ ((k = n /\ out.1 = JNull /\ forall i, i < k -> fails net toJson r (clock w + i))
        \/ (0 < k /\ ApiClient.read toJson (net (clock w + (k - 1)) r) = Ok out.1
            /\ forall i, i < k - 1 -> fails net toJson r (clock w + i))).
Proof.
  induction n as [|n IH]; intros d w; cbn zeta.
  - exists 0. cbn. rewrite !app_nil_r, Nat.add_0_r.
    refine (conj _ (conj _ (conj _ (conj _ _)))); auto.
    left. refine (conj _ (conj _ _)); auto. intros i Hi. lia.
  - cbn [ApiClient.attempts]. unfold fetch.
    destruct (ApiClient.read toJson (net (clock w) r)) as [v|e] eqn:E.
    + exists 1. cbn [fst snd fetched clock delays repeat backoff Nat.sub].
      rewrite app_nil_r.
      refine (conj _ (conj _ (conj _ (conj _ _)))); auto; try lia.
      right. rewrite Nat.add_0_r.
      refine (conj _ (conj _ _)); auto. intros i Hi. lia.
    + set (w1 := {| clock := S (clock w); fetched := fetched w ++ [r];
                    delays := delays w |}).
      destruct n as [|n'].
      * exists 1. cbn [ApiClient.attempts fst snd]. subst w1.
        cbn [fetched clock delays repeat backoff Nat.sub].
        rewrite app_nil_r.
        refine (conj _ (conj _ (conj _ (conj _ _)))); auto; try lia.
        left. refine (conj _ (conj _ _)); auto.
        intros i Hi. assert (i = 0) as -> by lia.
        rewrite Nat.add_0_r. now exists e.
      * destruct (IH (d * 2)%Z (sleep d w1)) as (k & Hk & F & C & D & R).
        cbv zeta in F, C, D, R.
        assert (Hc : clock (sleep d w1) = S (clock w)) by reflexivity.
        rewrite Hc in R.
        exists (S k). refine (conj _ (conj _ (conj _ (conj _ _)))).
        -- lia.
        -- rewrite F. subst w1. cbn [sleep fetched repeat].
           now rewrite <- app_assoc.
        -- rewrite C. subst w1. cbn [sleep clock]. lia.
        -- rewrite D. subst w1. cbn [sleep delays]. rewrite <- app_assoc.
           cbn [app]. f_equal.
           destruct R as [(-> & _ & _) | (Hpos & _ & _)].
           ++ cbn [Nat.sub]. now rewrite Nat.sub_0_r.
           ++ destruct k as [|k']; [lia|]. cbn [Nat.sub].
              now rewrite Nat.sub_0_r.
        -- destruct R as [(-> & N & Fl) | (Hpos & Rd & Fl)].
           ++ left. refine (conj _ (conj _ _)); auto. intros [|i] Hi.
              ** rewrite Nat.add_0_r. now exists e.
              ** replace (clock w + S i) with (S (clock w) + i) by lia.
                 apply Fl. lia.
           ++ right. refine (conj _ (conj _ _)); [lia| |].
              ** replace (clock w + (S k - 1)) with (S (clock w) + (k - 1)) by lia.
                 exact Rd.
              ** intros [|i] Hi.
                 --- rewrite Nat.add_0_r. now exists e.
                 --- replace (clock w + S i) with (S (clock w) + i) by lia.
                     apply Fl. lia.
Qed.

Lemma get_log u accept toJson custom w :
  let out := ApiClient.get net u accept toJson 3 custom w in
  exists k, 1 <= k <= 3
    /\ fetched out.2
       = fetched w ++ repeat (request_of u "GET" (default [] custom) None accept) k.
Proof.
  cbv zeta. unfold ApiClient.get, ApiClient.makeRequest.
  destruct (attempts_trace (request_of u "GET" (default [] custom) None accept)
              toJson 3 1000%Z w) as (k & Hk & F & _ & _ & R).
  cbv zeta in F, R. exists k. split; [|exact F].
  destruct R as [(-> & _) | (Hpos & _)]; lia.
Qed.

Lemma post_log u data toJson w :
  let out := ApiClient.post net u data toJson 3 w in
  exists k, 1 <= k <= 3
    /\ fetched out.2
       = fetched w ++ repeat (request_of u "POST" [("Content-Type", "application/json")]
                                (Some data) "application/json") k.
Proof.
  cbv zeta. unfold ApiClient.post, ApiClient.makeRequest.
  destruct (attempts_trace
              (request_of u "POST" [("Content-Type", "application/json")]
                 (Some data) "application/json")
              toJson 3 1000%Z w) as (k & Hk & F & _ & _ & R).
  cbv zeta in F, R. exists k. split; [|exact F].
  destruct R as [(-> & _) | (Hpos & _)]; lia.
Qed.

End Backoff.

(** X1: against every network, [makeRequest] reading JSON, with option
    headers that do not name [Accept] themselves, sends one and the same
    request [k] times, with [k] at most [retries], and sleeps [retryDelay],
    [2 * retryDelay], [4 * retryDelay], ... between consecutive attempts:
    [k - 1] pauses, none after the last attempt.  Either all [retries]
    attempts failed and the result is [null], or the [k]-th attempt is the
    first that succeeded and the result is the body it read.  (An option
    header [Accept] would replace the default one, and the text of a body,
    which is returned without [await], is read outside the loop: neither is
    covered here.) *)
Theorem makeRequest_backoff (net : Network) (u : Url) (meth : string)
    (optionHeaders : list (string * string)) (payload : option JS)
    (acceptHeaders : string) (retries : nat) (retryDelay : Z) (w : World) :
  let r := request_of u meth optionHeaders payload acceptHeaders in
  let out := ApiClient.makeRequest net u meth optionHeaders payload acceptHeaders
               true retries retryDelay w in
  Forall (fun h => Str.toLowerCase h.1 <> "accept") optionHeaders ->
  exists k,
    k <= retries
    /\ fetched out.2 = fetched w ++ repeat r k
    /\ clock out.2 = clock w + k
    /\ delays out.2 = delays w ++ backoff retryDelay (k - 1)
    /\ ((k = retries /\ out.1 = JNull
         /\ forall i, i < k -> fails net true r (clock w + i))
        \/ (0 < k
            /\ ApiClient.read true (net (clock w + (k - 1)) r) = Ok out.1
            /\ forall i, i < k - 1 -> fails net true r (clock w + i))).
Proof. intros r out _. apply attempts_trace. Qed.

Lemma makeRequest_backoff_witness :
  (ApiClient.get (Cases.flaky 2 (JObj [])) (Href "https://example.org")
     "application/json" true 3 None start).1 = JObj []
  /\ length (fetched (ApiClient.get (Cases.flaky 2 (JObj [])) (Href "https://example.org")
                        "application/json" true 3 None start).2) = 3
  /\ delays (ApiClient.get (Cases.flaky 2 (JObj [])) (Href "https://example.org")
               "application/json" true 3 None start).2 = [1000; 2000]%Z.
Proof.
  pose proof (makeRequest_backoff (Cases.flaky 2 (JObj [])) (Href "https://example.org")
                "GET" [] None "application/json" 3 1000 start) as T.
  cbv zeta in T. destruct (T ltac:(constructor)) as (k & _ & F & C & D & _).
  change (ApiClient.makeRequest (Cases.flaky 2 (JObj [])) (Href "https://example.org")
            "GET" [] None "application/json" true 3 1000 start)
    with (ApiClient.get (Cases.flaky 2 (JObj [])) (Href "https://example.org")
            "application/json" true 3 None start) in *.
  assert (K : k = 3) by (vm_compute in C; lia). subst k.
  split; [reflexivity|]. split; [now rewrite F|now rewrite D].
Defined.

(** ** Step 1: the requests it sends *)

Section AxelarGmpRequests.
Context (P : Platform) (net : Network).

Lemma probe_log size agoric chain contracts : forall w,
  let out := AxelarGmp.probe net size agoric chain contracts w in
  exists probed rest ks,
    contracts = probed ++ rest
    /\ length ks = length probed
    /\ Forall attempted ks
    /\ fetched out.2
       = fetched w ++ calls (List.map (gmp_request size agoric chain) probed) ks
    /\ ((AxelarGmp.has_results out.1 = true /\ probed <> [])
        \/ (out.1 = JNull /\ rest = [])).
Proof.
  induction contracts as [|a r IH]; intros w; cbv zeta; cbn [AxelarGmp.probe].
  - exists [], [], []. cbn. rewrite app_nil_r.
    refine (conj _ (conj _ (conj _ (conj _ _)))); auto.
  - destruct (post_log net AxelarGmp.searchGMP
                (AxelarGmp.search_body size agoric a chain) true w) as (k & Hk & F).
    cbv zeta in F.
    destruct (ApiClient.post net AxelarGmp.searchGMP
                (AxelarGmp.search_body size agoric a chain) true 3 w) as [data w1].
    cbn [fst snd] in F.
    destruct (AxelarGmp.has_results data) eqn:H.
    + exists [a], r, [k]. cbn [fst snd List.map calls length app].
      rewrite app_nil_r.
      refine (conj _ (conj _ (conj _ (conj _ _)))).
      * reflexivity.
      * reflexivity.
      * constructor; [exact Hk|constructor].
      * exact F.
      * left. split; [exact H|discriminate].
    + destruct (IH w1) as (probed & rest & ks & E & L & B & F' & R).
      cbv zeta in F', R.
      exists (a :: probed), rest, (k :: ks). cbn [List.map calls length app].
      refine (conj _ (conj _ (conj _ (conj _ _)))).
      * now rewrite E.
      * now rewrite L.
      * constructor; [exact Hk|exact B].
      * rewrite F', F. now rewrite <- app_assoc.
      * destruct R as [[R1 R2] | [R1 R2]]; [left|right]; split; auto.
Qed.

(** X9: the requests of Step 1.  With a parameter absent or a chain
    without an entry the handler answers with an error and sends nothing.
    Otherwise it probes the factory contracts of the chain in the order of
    the table, each with the same search between one and three times; it
    probes at least one contract, and when it stops before the last one the
    result is not the bare [not found]. *)
Theorem axelarGmp_requests (params : AxelarGmp.Params) (w : World) :
  let chain := canonicalizeChain (default "" (AxelarGmp.destChain params)) in
  let request :=
    gmp_request (default 1%Z (AxelarGmp.size params))
      (default "" (AxelarGmp.agoricAddress params)) chain in
  let out := AxelarGmp.axelarGmpTxHandler P net params w in
  (missing (AxelarGmp.destChain params) || missing (AxelarGmp.agoricAddress params)
   = true \/ getChainInfo chain = None ->
   out.2 = w /\ exists message, out.1 = Error message)
  /\ (forall chainInfo,
        missing (AxelarGmp.destChain params) || missing (AxelarGmp.agoricAddress params)
        = false ->
        getChainInfo chain = Some chainInfo ->
        exists probed rest ks,
          FACTORY_CONTRACTS chainInfo = probed ++ rest
          /\ probed <> []
          /\ length ks = length probed
          /\ Forall attempted ks
          /\ fetched out.2 = fetched w ++ calls (List.map request probed) ks
          /\ (rest <> [] -> out.1 <> Success AxelarGmp.not_found)).
Proof.
  cbv zeta. unfold AxelarGmp.axelarGmpTxHandler. split.
  - intros [G|G].
    + rewrite G. cbn. eauto.
    + destruct (_ || _); [cbn; eauto|]. rewrite G. cbn. eauto.
  - intros chainInfo G C. rewrite G, C.
    pose proof (getChainInfo_contracts _ _ C) as Hne.
    destruct (FACTORY_CONTRACTS chainInfo) as [|a r] eqn:F; [now destruct Hne|].
    destruct (probe_log (default 1%Z (AxelarGmp.size params))
                (default "" (AxelarGmp.agoricAddress params))
                (canonicalizeChain (default "" (AxelarGmp.destChain params)))
                (a :: r) w) as (probed & rest & ks & E & L & B & F' & R).
    cbv zeta in F', R.
    destruct (AxelarGmp.probe _ _ _ _ _ _) as [gmpData w1]. cbn [fst snd] in *.
    exists probed, rest, ks.
    refine (conj _ (conj _ (conj _ (conj _ (conj _ _))))).
    + exact E.
    + destruct R as [[_ R] | [_ ->]]; [exact R|].
      rewrite app_nil_r in E. rewrite <- E. discriminate.
    + exact L.
    + exact B.
    + exact F'.
    + intros Hrest. destruct R as [[R _] | [_ R]]; [|now destruct Hrest].
      now apply conclude_found.
Qed.

End AxelarGmpRequests.

Lemma axelarGmp_requests_witness :
  exists probed rest ks,
    [Sample.contract1; Sample.contract2; Sample.contract3] = probed ++ rest
    /\ probed <> []
    /\ length ks = length probed
    /\ Forall attempted ks
    /\ fetched (AxelarGmp.axelarGmpTxHandler Sample.platform
                  (Cases.flaky 1 (JObj [("data", JArr [Sample.gmp_record "first"])]))
                  {| AxelarGmp.destChain := Some "Ethereum";
                     AxelarGmp.agoricAddress := Some Sample.agoricAddress;
                     AxelarGmp.size := None |} start).2
       = fetched start
         ++ calls (List.map (gmp_request 1 Sample.agoricAddress "ethereum") probed) ks
    /\ (rest <> [] ->
        (AxelarGmp.axelarGmpTxHandler Sample.platform
           (Cases.flaky 1 (JObj [("data", JArr [Sample.gmp_record "first"])]))
           {| AxelarGmp.destChain := Some "Ethereum";
              AxelarGmp.agoricAddress := Some Sample.agoricAddress;
              AxelarGmp.size := None |} start).1
        <> Success AxelarGmp.not_found).
Proof.
  exact (proj2 (axelarGmp_requests Sample.platform
                  (Cases.flaky 1 (JObj [("data", JArr [Sample.gmp_record "first"])]))
                  {| AxelarGmp.destChain := Some "Ethereum";
                     AxelarGmp.agoricAddress := Some Sample.agoricAddress;
                     AxelarGmp.size := None |} start)
           _ eq_refl eq_refl).
Defined.

(** ** Step 3: the requests it sends *)

Section CctpNobleRequests.
Context (P : Platform) (net : Network).

(** X8: the requests of Step 3.  With a required parameter absent the
    handler answers [Missing required parameters] and sends nothing.
    Otherwise it sends the same Mintscan request between one and three times
    and nothing else; an unsupported chain is reported only after that
    request; and without an access token the request carries no
    [Authorization] header. *)
Theorem cctpNoble_requests (params : CctpNoble.Params) (w : World) :
  let chain := canonicalizeChain (default "" (CctpNoble.destChain params)) in
  let request :=
    request_of (CctpNoble.request_url (default "" (CctpNoble.nobleAddress params))
                  (default 20%Z (CctpNoble.take params)))
      "GET" (default [] (getMintscanHeaders P)) None "application/json" in
  let absent :=
    missing (CctpNoble.nobleAddress params) || missing (CctpNoble.destChain params)
    || missing (CctpNoble.destinationEvmAddress params) in
  let out := CctpNoble.cctpNobleTxHandler P net params w in
  (absent = true -> out = (Error "Missing required parameters", w))
  /\ (absent = false ->
      (exists k, attempted k /\ fetched out.2 = fetched w ++ repeat request k)
      /\ (getChainInfo chain = None ->
          out.1 = Error ("Unsupported destination chain: " +:+ chain))
      /\ (missing (MINTSCAN_ACCESS_TOKEN P) = true ->
          headers request = [("Accept", "application/json")])).
Proof.
  cbv zeta. unfold CctpNoble.cctpNobleTxHandler. split.
  - intros ->. reflexivity.
  - intros ->.
    destruct (get_log net
                (CctpNoble.request_url (default "" (CctpNoble.nobleAddress params))
                   (default 20%Z (CctpNoble.take params)))
                "application/json" true (getMintscanHeaders P) w) as (k & Hk & F).
    cbv zeta in F.
    destruct (ApiClient.get net _ _ _ _ _ _) as [response w1]. cbn [fst snd] in *.
    split; [|split].
    + exists k. split; [exact Hk|exact F].
    + intros C. unfold CctpNoble.respond. now rewrite C.
    + intros T. unfold getMintscanHeaders. now rewrite T.
Qed.

End CctpNobleRequests.

Lemma cctpNoble_requests_witness :
  (exists k, attempted k
     /\ fetched (CctpNoble.cctpNobleTxHandler Cases.platform Sample.down
                   {| CctpNoble.nobleAddress := Some Sample.nobleAddress;
                      CctpNoble.destChain := Some "solana";
                      CctpNoble.destinationEvmAddress := Some Sample.evmAddress;
                      CctpNoble.take := None |} start).2
        = fetched start
          ++ repeat (request_of (CctpNoble.request_url Sample.nobleAddress 20) "GET" []
                       None "application/json") k)
  /\ (CctpNoble.cctpNobleTxHandler Cases.platform Sample.down
        {| CctpNoble.nobleAddress := Some Sample.nobleAddress;
           CctpNoble.destChain := Some "solana";
           CctpNoble.destinationEvmAddress := Some Sample.evmAddress;
           CctpNoble.take := None |} start).1
     = Error "Unsupported destination chain: solana".
Proof.
  destruct (proj2 (cctpNoble_requests Cases.platform Sample.down
                     {| CctpNoble.nobleAddress := Some Sample.nobleAddress;
                        CctpNoble.destChain := Some "solana";
                        CctpNoble.destinationEvmAddress := Some Sample.evmAddress;
                        CctpNoble.take := None |} start) eq_refl) as (K & U & _).
  split; [exact K|exact (U eq_refl)].
Defined.

(** ** The reverse lookup on Noble *)

Section NobleLookup.
Context (net : Network).

Lemma occurrences_app c s t :
  occurrences c (s +:+ t) = occurrences c s + occurrences c t.
Proof.
  induction s as [|a r IH]; [reflexivity|].
  rewrite append_cons. cbn [occurrences]. rewrite IH. lia.
Qed.

Lemma remove_squotes_clean s : occurrences "'" (Str.remove_squotes s) = 0.
Proof.
  induction s as [|a r IH]; [reflexivity|]. cbn [Str.remove_squotes].
  destruct (Ascii.eqb a "'") eqn:E; [exact IH|].
  cbn [occurrences]. now rewrite E, IH.
Qed.

Lemma filter_truthy hs : Forall (fun h => Js.truthy h = true) (List.filter Js.truthy hs).
Proof.
  induction hs as [|h r IH]; cbn [List.filter]; [constructor|].
  destruct (Js.truthy h) eqn:E; [constructor; assumption|exact IH].
Qed.

Lemma getNobleTxByIbc_log (channel sequence : JS) (w : World) :
  Js.truthy channel && Js.truthy sequence = true ->
  exists k, attempted k
    /\ fetched (getNobleTxByIbc net channel sequence w).2
       = fetched w ++ repeat (ibc_request channel sequence) k.
Proof.
  unfold getNobleTxByIbc. intros [-> ->]%andb_prop. cbn [negb orb].
  fold (ibc_query channel sequence).
  destruct (get_log net
              (WithParams "https://noble-api.polkachu.com/cosmos/tx/v1beta1/txs"
                 [("pagination.limit", "3"); ("limit", "3");
                  ("query", ibc_query channel sequence)])
              "application/json" true None w) as (k & Hk & F).
  cbv zeta in F.
  destruct (ApiClient.get net _ _ _ _ _ _) as [data w1]. cbn [fst snd] in F.
  exists k. split; [exact Hk|].
  destruct (negb (Js.truthy data)); [exact F|].
  destruct (_ ≫= _); exact F.
Qed.

(** X10: the reverse lookup on Noble.  Without a channel or without a
    sequence [getNobleTxByIbc] returns no hash and sends nothing.  Otherwise
    it sends one request, between one and three times.  Every hash it returns
    is truthy, and the query holds exactly the four quotes that the template
    writes: a quote inside the channel or the sequence never reaches it. *)
Theorem getNobleTxByIbc_requests (channel sequence : JS) (w : World) :
  let out := getNobleTxByIbc net channel sequence w in
  (Js.truthy channel && Js.truthy sequence = false -> out = ([], w))
  /\ (Js.truthy channel && Js.truthy sequence = true ->
      exists k, attempted k
        /\ fetched out.2 = fetched w ++ repeat (ibc_request channel sequence) k)
  /\ Forall (fun h => Js.truthy h = true) out.1
  /\ occurrences "'" (ibc_query channel sequence) = 4.
Proof.
  cbv zeta. refine (conj _ (conj _ (conj _ _))).
  - unfold getNobleTxByIbc. intros H.
    destruct (Js.truthy channel), (Js.truthy sequence);
      try discriminate H; reflexivity.
  - apply getNobleTxByIbc_log.
  - unfold getNobleTxByIbc.
    destruct (negb (Js.truthy channel) || negb (Js.truthy sequence)); [constructor|].
    destruct (ApiClient.get net _ _ _ _ _ _) as [data w1].
    destruct (negb (Js.truthy data)); [constructor|].
    destruct (_ ≫= _); [apply filter_truthy|constructor].
  - unfold ibc_query. rewrite !occurrences_app, !remove_squotes_clean. reflexivity.
Qed.

End NobleLookup.

Lemma getNobleTxByIbc_requests_witness :
  getNobleTxByIbc Sample.down (JStr "channel-62") (JNum 0) start = ([], start)
  /\ (exists k, attempted k
        /\ fetched (getNobleTxByIbc Sample.down (JStr "channel-62'") (JNum 7) start).2
           = fetched start ++ repeat (ibc_request (JStr "channel-62'") (JNum 7)) k)
  /\ ibc_query (JStr "channel-62'") (JNum 7)
     = "recv_packet.packet_dst_channel='channel-62' AND recv_packet.packet_sequence='7'".
Proof.
  split; [|split].
  - exact (proj1 (getNobleTxByIbc_requests Sample.down (JStr "channel-62") (JNum 0) start)
             eq_refl).
  - exact (proj1 (proj2 (getNobleTxByIbc_requests Sample.down (JStr "channel-62'")
                           (JNum 7) start)) eq_refl).
  - reflexivity.
Defined.

(** ** Step 2: the requests it sends *)

Section AgoricFundingRequests.
Context (P : Platform) (net : Network).

Lemma noble_items_log messages w :
  let out := AgoricFunding.noble_items net messages w in
  exists channel sequence j,
    j <= 3 /\ fetched out.2 = fetched w ++ repeat (ibc_request channel sequence) j.
Proof.
  cbv zeta. unfold AgoricFunding.noble_items.
  set (packet := Js.get "packet" _).
  destruct (Js.truthy packet);
    [|exists JNull, JNull, 0; cbn; rewrite app_nil_r; split; [lia|reflexivity]].
  destruct (Js.truthy (Js.get "destination_channel" packet)
            && Js.truthy (Js.get "sequence" packet)) eqn:T;
    [|exists JNull, JNull, 0; cbn; rewrite app_nil_r; split; [lia|reflexivity]].
  destruct (getNobleTxByIbc_log net (Js.get "destination_channel" packet)
              (Js.get "sequence" packet) w T) as (k & Hk & F).
  destruct (getNobleTxByIbc net _ _ w) as [hashes w1]. cbn [fst snd] in F.
  exists (Js.get "destination_channel" packet), (Js.get "sequence" packet), k.
  split; [unfold attempted in Hk; lia|].
  destruct hashes; exact F.
Qed.

Lemma matched_log noble tx w :
  let out := AgoricFunding.matched net noble tx w in
  exists channel sequence j,
    j <= 3 /\ fetched out.2 = fetched w ++ repeat (ibc_request channel sequence) j
    /\ (0 < j -> exists items, out.1 = Ok items).
Proof.
  cbv zeta. unfold AgoricFunding.matched.
  destruct (_ ≫= _) as [[[txHash msgs] found]|m].
  - destruct (noble_items_log found w) as (channel & sequence & j & Hj & F).
    cbv zeta in F.
    destruct (AgoricFunding.noble_items net found w) as [noble_ w1].
    cbn [fst snd] in *. exists channel, sequence, j.
    split; [exact Hj|]. split; [exact F|]. intros _. eauto.
  - exists JNull, JNull, 0. cbn. rewrite app_nil_r.
    split; [lia|]. split; [reflexivity|]. intros H. lia.
Qed.

Lemma funding_scan_log noble txs : forall w,
  let out := AgoricFunding.scan P net noble txs w in
  exists channel sequence j,
    j <= 3 /\ fetched out.2 = fetched w ++ repeat (ibc_request channel sequence) j
    /\ (0 < j -> exists items, out.1 = Ok (Some items)).
Proof.
  induction txs as [|tx rest IH]; intros w; cbv zeta; cbn [AgoricFunding.scan].
  - exists JNull, JNull, 0. cbn. rewrite app_nil_r.
    split; [lia|]. split; [reflexivity|]. intros H. lia.
  - destruct (AgoricFunding.extractReceiverFromLogs P _) as [receiverAddress|m].
    + destruct (Js.eqStr receiverAddress noble); [|apply IH].
      destruct (matched_log noble tx w) as (channel & sequence & j & Hj & F & R).
      cbv zeta in F, R.
      destruct (AgoricFunding.matched net noble tx w) as [r w1].
      cbn [fst snd] in *. exists channel, sequence, j.
      split; [exact Hj|]. split; [exact F|].
      intros Hpos. destruct (R Hpos) as [items ->]. now exists items.
    + exists JNull, JNull, 0. cbn. rewrite app_nil_r.
      split; [lia|]. split; [reflexivity|]. intros H. lia.
Qed.

(** X12: the requests of Step 2.  With a parameter absent the handler
    answers [Missing required parameters] and sends nothing.  Otherwise it
    sends the Mintscan request between one and three times, followed by at
    most one reverse lookup on Noble (at most three attempts of one request);
    and the lookup is made only for a transaction that is then reported as
    found. *)
Theorem agoricFunding_requests (params : AgoricFunding.Params) (w : World) :
  let request :=
    request_of
      (AgoricFunding.request_url (default "" (AgoricFunding.agoricAddress params))
         (default 20%Z (AgoricFunding.take params)))
      "GET" (default [] (getMintscanHeaders P)) None "application/json" in
  let absent :=
    missing (AgoricFunding.agoricAddress params)
    || missing (AgoricFunding.nobleAddress params) in
  let out := AgoricFunding.agoricFundingTxHandler P net params w in
  (absent = true -> out = (Error "Missing required parameters", w))
  /\ (absent = false ->
      exists k channel sequence j,
        attempted k /\ j <= 3
        /\ fetched out.2
           = fetched w ++ repeat request k ++ repeat (ibc_request channel sequence) j
        /\ (0 < j ->
            exists data, out.1 = Success data /\ Js.get "found" data = JBool true)).
Proof.
  cbv zeta. unfold AgoricFunding.agoricFundingTxHandler. split.
  - intros ->. reflexivity.
  - intros ->.
    destruct (get_log net
                (AgoricFunding.request_url
                   (default "" (AgoricFunding.agoricAddress params))
                   (default 20%Z (AgoricFunding.take params)))
                "application/json" true (getMintscanHeaders P) w) as (k & Hk & F).
    cbv zeta in F.
    destruct (ApiClient.get net _ _ _ _ _ _) as [response w1]. cbn [fst snd] in F.
    unfold AgoricFunding.respond.
    destruct (Js.iterate (AgoricFunding.transactions_of response)) as [txs|m].
    + destruct (funding_scan_log (default "" (AgoricFunding.nobleAddress params))
                  txs w1) as (channel & sequence & j & Hj & F' & R).
      cbv zeta in F', R.
      destruct (AgoricFunding.scan P net _ txs w1) as [[found|m] w2];
        cbn [fst snd] in *; exists k, channel, sequence, j;
        (split; [exact Hk|]); (split; [exact Hj|]);
        (split; [now rewrite F', F, <- app_assoc|]); intros Hpos;
        destruct (R Hpos) as [items [= ->]].
      eexists. split; reflexivity.
    + exists k, JNull, JNull, 0. cbn [fst snd repeat]. rewrite app_nil_r.
      split; [exact Hk|]. split; [lia|]. split; [exact F|]. intros H. lia.
Qed.

End AgoricFundingRequests.

Lemma agoricFunding_requests_witness :
  exists k channel sequence j,
    attempted k /\ j <= 3
    /\ fetched (AgoricFunding.agoricFundingTxHandler Sample.platform
                  (Sample.mintscan Sample.ack_page) Sample.funding_params start).2
       = fetched start
         ++ repeat (request_of (AgoricFunding.request_url Sample.agoricAddress 20) "GET"
                      [("Authorization", "Bearer token")] None "application/json") k
         ++ repeat (ibc_request channel sequence) j
    /\ (0 < j ->
        exists data,
          (AgoricFunding.agoricFundingTxHandler Sample.platform
             (Sample.mintscan Sample.ack_page) Sample.funding_params start).1
          = Success data
          /\ Js.get "found" data = JBool true).
Proof.
  exact (proj2 (agoricFunding_requests Sample.platform (Sample.mintscan Sample.ack_page)
                  Sample.funding_params start) eq_refl).
Defined.

(** ** Step 4: the requests it sends *)

Section FinalEvmRequests.
Context (P : Platform) (net : Network).

Lemma transfer_of_receipt_log chainId apiKey dest expected evmTx w :
  let out := FinalEvm.transfer_of_receipt P net chainId apiKey dest expected evmTx w in
  exists j, attempted j
    /\ fetched out.2
       = fetched w
         ++ repeat (request_of (FinalEvm.receipt_url chainId (Js.get "hash" evmTx) apiKey)
                      "GET" [] None "application/json") j.
Proof.
  cbv zeta. unfold FinalEvm.transfer_of_receipt.
  destruct (get_log net (FinalEvm.receipt_url chainId (Js.get "hash" evmTx) apiKey)
              "application/json" true None w) as (j & Hj & F).
  cbv zeta in F.
  destruct (ApiClient.get net _ _ _ _ _ _) as [receiptResponse w1].
  cbn [fst snd] in F. exists j. split; [exact Hj|].
  destruct (Js.truthy _); [|exact F].
  destruct (Js.iterate _); exact F.
Qed.

Lemma report_log chainInfo apiKey dest expected evmTx w :
  let out := FinalEvm.report P net chainInfo apiKey dest expected evmTx w in
  exists j, j <= 3
    /\ fetched out.2
       = fetched w
         ++ repeat (request_of
                      (FinalEvm.receipt_url (CHAIN_ID chainInfo) (Js.get "hash" evmTx) apiKey)
                      "GET" [] None "application/json") j
    /\ forall r, out.1 = Ok r ->
         exists data, r = Success data /\ Js.get "found" data = JBool true.
Proof.
  cbv zeta. unfold FinalEvm.report.
  destruct (FinalEvm.tx_items P (EXPLORER_URL chainInfo) evmTx) as [items|m].
  - destruct (transfer_of_receipt_log (CHAIN_ID chainInfo) apiKey dest expected evmTx w)
      as (j & Hj & F).
    cbv zeta in F.
    destruct (FinalEvm.transfer_of_receipt P net _ _ _ _ _ _) as [[amount pushed] w1].
    cbn [fst snd] in *. exists j. split; [unfold attempted in Hj; lia|].
    split; [exact F|].
    intros r. destruct (FinalEvm.sanitize P _ _) as [sanitizedTx|m];
      cbn [mbind Exn_bind]; intros [= <-].
    eexists. split; reflexivity.
  - exists 0. cbn. rewrite app_nil_r. split; [lia|]. split; [reflexivity|].
    intros r [=].
Qed.

(** X13: the requests of Step 4.  With a parameter absent, a chain
    without an entry or no API key the handler answers with the matching
    error and sends nothing.  Otherwise it sends the transaction list request
    between one and three times, followed by the receipt request of at most
    one transaction (at most three attempts); when a receipt was requested
    the result is a found transaction or a tracing error. *)
Theorem finalEvm_requests (params : FinalEvm.Params) (w : World) :
  let chain := canonicalizeChain (default "" (FinalEvm.destChain params)) in
  let dest := default "" (FinalEvm.destinationEvmAddress params) in
  let apiKey := default "" (getEtherscanApiKey P) in
  let absent :=
    missing (FinalEvm.destChain params)
    || missing (FinalEvm.destinationEvmAddress params) in
  let out := FinalEvm.finalEvmTxHandler P net params w in
  (absent = true \/ getChainInfo chain = None \/ missing (getEtherscanApiKey P) = true ->
   out.2 = w
   /\ In out.1 [Error "Missing required parameters";
                Error ("Unsupported destination chain: " +:+ chain);
                Error "Missing Etherscan API key"])
  /\ (forall chainInfo,
        absent = false -> getChainInfo chain = Some chainInfo ->
        missing (getEtherscanApiKey P) = false ->
        exists k hash j,
          attempted k /\ j <= 3
          /\ fetched out.2
             = fetched w
               ++ repeat (request_of (FinalEvm.txlist_url (CHAIN_ID chainInfo) dest apiKey)
                            "GET" [] None "application/json") k
               ++ repeat (request_of (FinalEvm.receipt_url (CHAIN_ID chainInfo) hash apiKey)
                            "GET" [] None "application/json") j
          /\ (0 < j ->
              (exists data, out.1 = Success data /\ Js.get "found" data = JBool true)
              \/ (exists message,
                    out.1 = Error ("Error tracing final EVM transaction: " +:+ message)))).
Proof.
  cbv zeta. unfold FinalEvm.finalEvmTxHandler. split.
  - intros [G|[G|G]].
    + rewrite G. cbn. auto.
    + destruct (_ || _); [cbn; auto|]. rewrite G. cbn. auto.
    + destruct (_ || _); [cbn; auto|].
      destruct (getChainInfo _); [|cbn; auto]. rewrite G. cbn. auto.
  - intros chainInfo -> -> ->.
    destruct (get_log net
                (FinalEvm.txlist_url (CHAIN_ID chainInfo)
                   (default "" (FinalEvm.destinationEvmAddress params))
                   (default "" (getEtherscanApiKey P)))
                "application/json" true None w) as (k & Hk & F).
    cbv zeta in F.
    destruct (ApiClient.get net _ _ _ _ _ _) as [response w1]. cbn [fst snd] in F.
    assert (Hnone : forall r : ToolResponse,
              exists (k0 : nat) (hash : JS) (j : nat),
                attempted k0 /\ j <= 3
                /\ fetched w1
                   = fetched w
                     ++ repeat (request_of
                                  (FinalEvm.txlist_url (CHAIN_ID chainInfo)
                                     (default "" (FinalEvm.destinationEvmAddress params))
                                     (default "" (getEtherscanApiKey P)))
                                  "GET" [] None "application/json") k0
                     ++ repeat (request_of
                                  (FinalEvm.receipt_url (CHAIN_ID chainInfo) hash
                                     (default "" (getEtherscanApiKey P)))
                                  "GET" [] None "application/json") j
                /\ (0 < j ->
                    (exists data, r = Success data /\ Js.get "found" data = JBool true)
                    \/ (exists message,
                          r = Error ("Error tracing final EVM transaction: " +:+ message)))).
    { intros r. exists k, JNull, 0. cbn [repeat]. rewrite app_nil_r.
      split; [exact Hk|]. split; [lia|]. split; [exact F|]. intros H. lia. }
    unfold FinalEvm.respond.
    destruct (negb (Js.truthy response)); [apply Hnone|].
    destruct (_ && _); [apply Hnone|].
    destruct (FinalEvm.executes_of _) as [executes|m]; [|apply Hnone].
    destruct (FinalEvm.sort P executes) as [|evmTx rest]; [apply Hnone|].
    destruct (report_log chainInfo (default "" (getEtherscanApiKey P))
                (default "" (FinalEvm.destinationEvmAddress params))
                (FinalEvm.expectedAmount params) evmTx w1) as (j & Hj & F' & R).
    cbv zeta in F', R.
    destruct (FinalEvm.report P net _ _ _ _ _ _) as [[r|m] w2]; cbn [fst snd] in *;
      exists k, (Js.get "hash" evmTx), j;
      (split; [exact Hk|]); (split; [exact Hj|]);
      (split; [now rewrite F', F, <- app_assoc|]); intros _.
    + left. now apply R.
    + right. now exists m.
Qed.

End FinalEvmRequests.

Lemma finalEvm_requests_witness :
  ((FinalEvm.finalEvmTxHandler Sample.platform Sample.settled
      {| FinalEvm.destChain := Some "solana";
         FinalEvm.destinationEvmAddress := Some Sample.evmAddress;
         FinalEvm.expectedAmount := None |} start).2 = start
   /\ In (FinalEvm.finalEvmTxHandler Sample.platform Sample.settled
            {| FinalEvm.destChain := Some "solana";
               FinalEvm.destinationEvmAddress := Some Sample.evmAddress;
               FinalEvm.expectedAmount := None |} start).1
        [Error "Missing required parameters";
         Error "Unsupported destination chain: solana";
         Error "Missing Etherscan API key"])
  /\ (exists k hash j,
        attempted k /\ j <= 3
        /\ fetched (FinalEvm.finalEvmTxHandler Sample.platform Sample.settled
                      (Sample.evm_params None) start).2
           = fetched start
             ++ repeat (request_of (FinalEvm.txlist_url 43114 Sample.evmAddress "key")
                          "GET" [] None "application/json") k
             ++ repeat (request_of (FinalEvm.receipt_url 43114 hash "key")
                          "GET" [] None "application/json") j
        /\ (0 < j ->
            (exists data,
               (FinalEvm.finalEvmTxHandler Sample.platform Sample.settled
                  (Sample.evm_params None) start).1 = Success data
               /\ Js.get "found" data = JBool true)
            \/ (exists message,
                  (FinalEvm.finalEvmTxHandler Sample.platform Sample.settled
                     (Sample.evm_params None) start).1
                  = Error ("Error tracing final EVM transaction: " +:+ message)))).
Proof.
  split.
  - exact (proj1 (finalEvm_requests Sample.platform Sample.settled
                    {| FinalEvm.destChain := Some "solana";
                       FinalEvm.destinationEvmAddress := Some Sample.evmAddress;
                       FinalEvm.expectedAmount := None |} start)
             (or_intror (or_introl eq_refl))).
  - exact (proj2 (finalEvm_requests Sample.platform Sample.settled
                    (Sample.evm_params None) start) _ eq_refl eq_refl eq_refl).
Defined.

(** ** Step 4: the transaction that is reported *)

Section NewestExecute.
Context (P : Platform) (net : Network).

Lemma executes_filter txs :
  Forall (fun t => Js.nullish t = false) txs ->
  FinalEvm.executes_of txs = Ok (List.filter is_execute txs).
Proof.
  induction 1 as [|t r Ht _ IH]; [reflexivity|].
  cbn [FinalEvm.executes_of List.filter]. unfold Js.getE. rewrite Ht, IH.
  cbn [mbind Exn_bind]. reflexivity.
Qed.

Lemma sort_newest key l : forall pre e post,
  dated P key l ->
  l = pre ++ e :: post ->
  Forall (fun x => (key x < key e)%Z) pre ->
  Forall (fun x => (key x <= key e)%Z) post ->
  exists rest, FinalEvm.sort P l = e :: rest.
Proof.
  intros pre e post D -> Hpre Hpost.
  assert (He : In e (pre ++ e :: post)) by (apply in_or_app; right; now left).
  assert (Hs : exists rest, FinalEvm.sort P (e :: post) = e :: rest).
  { unfold FinalEvm.sort. cbn [fold_right]. fold (FinalEvm.sort P post).
    destruct (FinalEvm.sort P post) as [|y r] eqn:S; [now exists []|].
    assert (Iy : In y post) by (apply (In_sort P); rewrite S; now left).
    cbn [FinalEvm.insert]. unfold FinalEvm.by_time_desc.
    fold (timeStamp_of y) (timeStamp_of e).
    rewrite (D y e) by (auto; apply in_or_app; right; now right).
    cbn [default from_option id].
    rewrite List.Forall_forall in Hpost. specialize (Hpost y Iy).
    destruct (Z.compare_spec (key y) (key e)); try lia; eauto. }
  clear Hpost. induction Hpre as [|x pre' Hx _ IH].
  - exact Hs.
  - destruct IH as [rest IH].
    + intros a b Ia Ib. apply D; now right.
    + apply in_or_app; right; now left.
    + unfold FinalEvm.sort in *. cbn [app fold_right]. rewrite IH.
      cbn [FinalEvm.insert]. unfold FinalEvm.by_time_desc.
      fold (timeStamp_of x) (timeStamp_of e).
      rewrite (D e x) by (auto; now left). cbn [default from_option id].
      destruct (Z.compare_spec (key e) (key x)); try lia. eauto.
Qed.

(** X14: Step 4 reports the newest call of [execute].  Among the
    transactions whose function name starts with [execute], with numeric time
    stamps, the one reported is the first in the order of the list that no
    other is newer than: the result is the report on that transaction, and a
    success names its hash and is marked found. *)
Theorem finalEvm_newest_execute
    (chain dest : string) (expected : option string) (chainInfo : ChainInfo)
    (apiKey : string) (w w1 : World) (response : JS)
    (txs : list JS) (key : JS -> Z) (pre : list JS) (e : JS) (post : list JS) :
  let params :=
    {| FinalEvm.destChain := Some chain; FinalEvm.destinationEvmAddress := Some dest;
       FinalEvm.expectedAmount := expected |} in
  let out := FinalEvm.finalEvmTxHandler P net params w in
  dest <> "" ->
  getChainInfo (canonicalizeChain chain) = Some chainInfo ->
  ETHERSCAN_API_KEY P = Some apiKey -> apiKey <> "" ->
  ApiClient.get net (FinalEvm.txlist_url (CHAIN_ID chainInfo) dest apiKey)
    "application/json" true 3 None w = (response, w1) ->
  Js.get "result" response = JArr txs ->
  Forall (fun t => Js.nullish t = false) txs ->
  dated P key (List.filter is_execute txs) ->
  List.filter is_execute txs = pre ++ e :: post ->
  Forall (fun x => (key x < key e)%Z) pre ->
  Forall (fun x => (key x <= key e)%Z) post ->
  out = match FinalEvm.report P net chainInfo apiKey dest expected e w1 with
        | (Ok r, w2) => (r, w2)
        | (Throw m, w2) => (Error ("Error tracing final EVM transaction: " +:+ m), w2)
        end
  /\ (forall data, out.1 = Success data ->
        Js.get "found" data = JBool true
        /\ Js.get "txHash" data = JStr (Js.toString (Js.get "hash" e))).
Proof.
  intros params out Hd Hc Hk Hk' Hget Hres Htxs Hdated Hsplit Hpre Hpost.
  subst out params.
  rewrite (finalEvmTxHandler_respond _ _ _ _ _ _ _ _ _ _ Hd Hc Hk Hk' Hget).
  assert (Ht : Js.truthy response = true).
  { destruct response as [| | | | s | xs |]; try discriminate Hres; try reflexivity;
      cbn in Hres; destruct (String.eqb _ _); discriminate Hres. }
  destruct (sort_newest key _ pre e post Hdated Hsplit Hpre Hpost) as [rest Hs].
  unfold FinalEvm.respond. rewrite Ht, Hres, (executes_filter _ Htxs), Hs.
  cbn [negb Js.isArray andb]. rewrite andb_false_r.
  split; [reflexivity|].
  intros data.
  destruct (FinalEvm.report P net chainInfo apiKey dest expected e w1) as [[r|m] w2] eqn:R;
    cbn [fst]; [|discriminate].
  intros ->. exact (report_hash _ _ _ _ _ _ _ _ _ _ R).
Qed.

End NewestExecute.

Lemma finalEvm_newest_execute_witness :
  exists data,
    (FinalEvm.finalEvmTxHandler Cases.platform
       (Sample.etherscan (Sample.txlist "1" (JArr Cases.account_txs)) Sample.receipt)
       (Sample.evm_params None) start).1 = Success data
    /\ Js.get "found" data = JBool true
    /\ Js.get "txHash" data = JStr "0xc3".
Proof.
  eexists. split; [reflexivity|].
  refine (proj2 (finalEvm_newest_execute Cases.platform
                   (Sample.etherscan (Sample.txlist "1" (JArr Cases.account_txs))
                      Sample.receipt)
                   "avalanche" Sample.evmAddress None _ "key" start _
                   (Sample.txlist "1" (JArr Cases.account_txs))
                   Cases.account_txs Cases.seconds
                   [Cases.call "0xb2" "execute(bytes32 commandId)" "1740830300"]
                   (Cases.call "0xc3" "execute(bytes32 commandId)" "1740830400")
                   [Cases.call "0xd4" "executeWithToken(bytes32 commandId)" "1740830400"]
                   ltac:(discriminate) eq_refl eq_refl ltac:(discriminate) eq_refl
                   eq_refl ltac:(repeat constructor) _ eq_refl
                   ltac:(repeat constructor)
                   ltac:(constructor; [vm_compute; discriminate|constructor]))
            _ eq_refl).
  intros a b Ha Hb. cbn in Ha, Hb.
  destruct Ha as [<-|[<-|[<-|[]]]]; destruct Hb as [<-|[<-|[<-|[]]]]; reflexivity.
Defined.

(** ** The chain registry and the case of a chain name *)

Section ChainRegistry.

Lemma upper_lower_char c : Str.upper_char (Str.lower_char c) = Str.upper_char c.
Proof. destruct c as [[] [] [] [] [] [] [] []]; reflexivity. Qed.

Lemma toUpperCase_lower s : Str.toUpperCase (Str.toLowerCase s) = Str.toUpperCase s.
Proof.
  unfold Str.toUpperCase, Str.toLowerCase.
  induction s as [|c r IH]; cbn [Str.map]; [reflexivity|].
  now rewrite upper_lower_char, IH.
Qed.

Lemma assoc_In {A} k (l : list (string * A)) v : assoc k l = Some v -> In (k, v) l.
Proof.
  induction l as [|[k' v'] r IH]; cbn [assoc]; [discriminate|].
  destruct (String.eqb_spec k k') as [->|N].
  - intros [= ->]. now left.
  - intros H. right. now apply IH.
Qed.

(** X3: the chain registry ignores the case of the name it is asked for: a
    name and its canonical form, and any two names with the same canonical
    form, have the same entry; each of the five names of the schema has an
    entry; and two names whose entries share the CCTP domain or the chain id
    have the same entry, so that no two chains of the table can be confused
    by domain or by id. *)
Theorem getChainInfo_any_case (chain other : string) :
  getChainInfo (canonicalizeChain chain) = getChainInfo chain
  /\ (canonicalizeChain other = canonicalizeChain chain ->
      getChainInfo other = getChainInfo chain)
  /\ (Schema.evmChainEnum chain = true -> is_Some (getChainInfo chain))
  /\ (forall a b,
        getChainInfo chain = Some a -> getChainInfo other = Some b ->
        DOMAIN a = DOMAIN b \/ CHAIN_ID a = CHAIN_ID b ->
        a = b).
Proof.
  refine (conj _ (conj _ (conj _ _))).
  - unfold getChainInfo, canonicalizeChain. now rewrite toUpperCase_lower.
  - unfold getChainInfo, canonicalizeChain. intros H.
    now rewrite <- (toUpperCase_lower other), H, toUpperCase_lower.
  - unfold Schema.evmChainEnum. cbn [existsb]. rewrite !orb_true_iff, !String.eqb_eq.
    intros [->|[->|[->|[->|[->|[=]]]]]]; eexists; reflexivity.
  - intros a b Ha Hb Hsame. unfold getChainInfo in Ha, Hb.
    apply assoc_In in Ha, Hb.
    unfold EVM_CHAIN_INFO in Ha, Hb. cbn [In] in Ha, Hb.
    destruct Ha as [Ha|[Ha|[Ha|[Ha|[Ha|[]]]]]];
      destruct Hb as [Hb|[Hb|[Hb|[Hb|[Hb|[]]]]]];
      injection Ha as Ka <-; injection Hb as Kb <-;
      cbn [DOMAIN CHAIN_ID] in Hsame;
      try (destruct Hsame as [Hsame|Hsame]; discriminate Hsame);
      reflexivity.
Qed.

Lemma canonical_empty chain other :
  canonicalizeChain other = canonicalizeChain chain ->
  missing (Some other) = missing (Some chain).
Proof.
  unfold canonicalizeChain, missing. intros H.
  destruct other, chain; try reflexivity; discriminate H.
Qed.

(** X4: Steps 1, 3 and 4 and the planner depend on the destination chain
    through its canonical form only: two spellings of the chain with the same
    lower-case form give the same result, the same requests and the same
    plan, whatever the other parameters and the network. *)
Theorem handlers_chain_case (P : Platform) (net : Network) (chain other : string)
    (agoric noble dest position expected : option string) (size take : option Z)
    (w : World) :
  canonicalizeChain other = canonicalizeChain chain ->
  AxelarGmp.axelarGmpTxHandler P net
    {| AxelarGmp.destChain := Some other; AxelarGmp.agoricAddress := agoric;
       AxelarGmp.size := size |} w
  = AxelarGmp.axelarGmpTxHandler P net
      {| AxelarGmp.destChain := Some chain; AxelarGmp.agoricAddress := agoric;
         AxelarGmp.size := size |} w
  /\ CctpNoble.cctpNobleTxHandler P net
       {| CctpNoble.nobleAddress := noble; CctpNoble.destChain := Some other;
          CctpNoble.destinationEvmAddress := dest; CctpNoble.take := take |} w
     = CctpNoble.cctpNobleTxHandler P net
         {| CctpNoble.nobleAddress := noble; CctpNoble.destChain := Some chain;
            CctpNoble.destinationEvmAddress := dest; CctpNoble.take := take |} w
  /\ FinalEvm.finalEvmTxHandler P net
       {| FinalEvm.destChain := Some other; FinalEvm.destinationEvmAddress := dest;
          FinalEvm.expectedAmount := expected |} w
     = FinalEvm.finalEvmTxHandler P net
         {| FinalEvm.destChain := Some chain; FinalEvm.destinationEvmAddress := dest;
            FinalEvm.expectedAmount := expected |} w
  /\ CompleteFlow.completeFlowHandler
       {| CompleteFlow.agoricAddress := agoric; CompleteFlow.nobleAddress := noble;
          CompleteFlow.destChain := Some other;
          CompleteFlow.destinationEvmAddress := dest;
          CompleteFlow.positionName := position |}
     = CompleteFlow.completeFlowHandler
         {| CompleteFlow.agoricAddress := agoric; CompleteFlow.nobleAddress := noble;
            CompleteFlow.destChain := Some chain;
            CompleteFlow.destinationEvmAddress := dest;
            CompleteFlow.positionName := position |}.
Proof.
  intros H. pose proof (canonical_empty _ _ H) as M.
  unfold AxelarGmp.axelarGmpTxHandler, CctpNoble.cctpNobleTxHandler,
    FinalEvm.finalEvmTxHandler, CompleteFlow.completeFlowHandler.
  cbn [AxelarGmp.destChain AxelarGmp.agoricAddress AxelarGmp.size
       CctpNoble.nobleAddress CctpNoble.destChain CctpNoble.destinationEvmAddress
       CctpNoble.take FinalEvm.destChain FinalEvm.destinationEvmAddress
       FinalEvm.expectedAmount CompleteFlow.agoricAddress CompleteFlow.nobleAddress
       CompleteFlow.destChain CompleteFlow.destinationEvmAddress
       CompleteFlow.positionName].
  cbn [default from_option id]. rewrite M, H. repeat split.
Qed.

End ChainRegistry.

Lemma handlers_chain_case_witness :
  CctpNoble.cctpNobleTxHandler Sample.platform (Sample.mintscan Sample.burn_page)
    {| CctpNoble.nobleAddress := Some Sample.nobleAddress;
       CctpNoble.destChain := Some "Avalanche";
       CctpNoble.destinationEvmAddress := Some Sample.evmAddress;
       CctpNoble.take := None |} start
  = CctpNoble.cctpNobleTxHandler Sample.platform (Sample.mintscan Sample.burn_page)
      Sample.cctp_params start.
Proof.
  exact (proj1 (proj2 (handlers_chain_case Sample.platform
                         (Sample.mintscan Sample.burn_page) "avalanche" "Avalanche"
                         None (Some Sample.nobleAddress) (Some Sample.evmAddress)
                         None None None None start eq_refl))).
Defined.

(** ** Joining a base address and an endpoint *)

Section BuildUrl.

Lemma strip_trailing_slash_app base : strip_trailing_slash (base +:+ "/") = base.
Proof.
  induction base as [|c r IH]; [reflexivity|].
  rewrite append_cons. cbn [strip_trailing_slash]. rewrite IH.
  destruct r; reflexivity.
Qed.

Lemma strip_trailing_slash_none base :
  ends_with_slash base = false -> strip_trailing_slash base = base.
Proof.
  induction base as [|c r IH]; [reflexivity|].
  cbn [ends_with_slash strip_trailing_slash]. destruct r as [|d r'].
  - now intros ->.
  - intros H. now rewrite (IH H).
Qed.

(** X2: [buildUrl] joins a base address and an endpoint by plain
    concatenation after removing one trailing slash of the base: a base
    written with and without the final slash gives the same address, and
    nothing else of the base or of the endpoint is touched. *)
Theorem buildUrl_trailing_slash (base endpoint : string) :
  buildUrl (base +:+ "/") endpoint = base +:+ endpoint
  /\ (ends_with_slash base = false ->
      buildUrl base endpoint = base +:+ endpoint
      /\ buildUrl (base +:+ "/") endpoint = buildUrl base endpoint).
Proof.
  unfold buildUrl. rewrite strip_trailing_slash_app. split; [reflexivity|].
  intros H. now rewrite (strip_trailing_slash_none _ H).
Qed.

End BuildUrl.

(** ** Addresses: the two comparisons and the decoder *)

Section AddressMatching.

Lemma hex_digit_value_char (c : ascii) :
  Str.is_hex_digit c = true ->
  exists a, Str.digit_value c = Some a /\ (a < 16)%N
            /\ hex_digit a = Str.lower_char c.
Proof.
  destruct c as [[] [] [] [] [] [] [] []]; try discriminate; intros _;
    eexists; (split; [reflexivity|]); split; reflexivity.
Qed.

Lemma string_ind2 (Q : string -> Prop) :
  Q EmptyString ->
  (forall c, Q (String c EmptyString)) ->
  (forall a b r, Q r -> Q (String a (String b r))) ->
  forall s, Q s.
Proof.
  intros H0 H1 H2 s.
  assert (H : Q s /\ forall c, Q (String c s)); [|exact (proj1 H)].
  induction s as [|c r [IH1 IH2]]; split; auto.
Qed.

(** Hexadecimal digits that spell [bytes], in either case, are rendered
    back in lower case. *)
Lemma hex_of_bytes_of_hex s : forall bytes,
  Str.forallb Str.is_hex_digit s = true ->
  bytes_of_hex s = Some bytes ->
  hex_of_bytes bytes = Str.toLowerCase s
  /\ Forall (fun b => (b < 256)%N) bytes.
Proof.
  induction s as [|c|h l r IH] using string_ind2; intros bytes Hs Hb.
  - injection Hb as <-. now split.
  - discriminate Hb.
  - cbn [Str.forallb] in Hs.
    apply andb_prop in Hs as [Hh [Hl Hr]%andb_prop].
    destruct (hex_digit_value_char h Hh) as (a & Da & La & Ea).
    destruct (hex_digit_value_char l Hl) as (b & Db & Lb & Eb).
    cbn [bytes_of_hex] in Hb. rewrite Da, Db in Hb.
    destruct (bytes_of_hex r) as [bs|] eqn:R; [|discriminate Hb].
    injection Hb as <-. destruct (IH bs Hr eq_refl) as [E F].
    assert (B : (a * 16 + b < 256)%N) by lia.
    split; [|constructor; assumption].
    unfold hex_of_bytes in *. cbn [List.map Str.concat].
    destruct (hex_pair _ B) as (P & _). rewrite P, E.
    rewrite !append_cons, append_nil.
    replace ((a * 16 + b) / 16)%N with a
      by (apply (N.div_unique _ 16 a b); lia).
    replace ((a * 16 + b) mod 16)%N with b
      by (apply (N.mod_unique _ 16 a b); lia).
    now rewrite Ea, Eb.
Qed.

Lemma skipn_app_exact {A} (pad addr : list A) n :
  length addr = n -> skipn (length (pad ++ addr) - n) (pad ++ addr) = addr.
Proof.
  intros <-. rewrite length_app.
  replace (length pad + length addr - length addr) with (length pad) by lia.
  induction pad as [|x r IH]; [reflexivity|exact IH].
Qed.

(** X6: the decoder inverts the encoding of a mint recipient.  When the
    base64 text encodes any padding followed by the twenty bytes of the
    destination address, [decodeMintRecipient] returns that address in lower
    case, and Step 3 finds it equal to the destination however the
    destination is capitalised. *)
Theorem mint_recipient_round_trip
    (pad addr : list N) (dest : string) (domain : option string) :
  let blob := Base64.encode (pad ++ addr) in
  Forall (fun b => (b < 256)%N) pad ->
  length addr = 20 ->
  Schema.evmAddress dest = true ->
  bytes_of_hex (Str.drop 2 dest) = Some addr ->
  decodeMintRecipient blob = Some (Str.toLowerCase dest)
  /\ CctpNoble.sameAddress dest
       {| mintRecipient := decodeMintRecipient blob; destinationDomain := domain |}
     = true.
Proof.
  intros blob Hpad Hlen Hdest Hhex. subst blob.
  destruct (evmAddress_shape _ Hdest) as (b & -> & Lb & Hb).
  change (Str.drop 2 ("0x" +:+ b)) with b in Hhex.
  destruct (hex_of_bytes_of_hex _ _ Hb Hhex) as [E F].
  assert (D : decodeMintRecipient (Base64.encode (pad ++ addr))
              = Some (Str.toLowerCase ("0x" +:+ b))).
  { rewrite decodeMintRecipient_encoded.
    - rewrite (skipn_app_exact _ _ _ Hlen), E. reflexivity.
    - apply Forall_app; now split.
    - rewrite length_app. lia. }
  split; [exact D|].
  unfold CctpNoble.sameAddress. cbn [mintRecipient]. rewrite D.
  cbn [default from_option id]. apply String.eqb_eq.
  apply normalizeAddress_case. apply toLowerCase_idem.
Qed.

(** X5: on addresses that the schema admits, the comparison of Step 3
    (equal after [normalizeAddress]) and the comparison of Step 4 (equal
    after [toLowerCase]) agree; the normal form is the lower-case address
    without its prefix [0x], forty characters long. *)
Theorem address_comparisons_agree (a b : string) :
  Schema.evmAddress a = true -> Schema.evmAddress b = true ->
  (normalizeAddress a = normalizeAddress b <-> Str.toLowerCase a = Str.toLowerCase b)
  /\ "0x" +:+ normalizeAddress a = Str.toLowerCase a
  /\ String.length (normalizeAddress a) = 40.
Proof.
  intros (x & -> & Lx & Hx)%evmAddress_shape (y & -> & Ly & Hy)%evmAddress_shape.
  assert (P : hex_prefix "0x") by (right; now left).
  rewrite !(normalizeAddress_prefixed "0x" _ P) by assumption.
  rewrite !toLowerCase_app. change (Str.toLowerCase "0x") with "0x".
  split; [|split; [reflexivity|now rewrite toLowerCase_length]].
  split; [now intros ->|]. intros E. now injection E.
Qed.

End AddressMatching.

Lemma address_comparisons_agree_witness :
  (normalizeAddress Sample.evmAddress
   = normalizeAddress "0x1234567890ABCDEF1234567890abcdef1234ABCD"
   <-> Str.toLowerCase Sample.evmAddress
       = Str.toLowerCase "0x1234567890ABCDEF1234567890abcdef1234ABCD")
  /\ "0x" +:+ normalizeAddress Sample.evmAddress = Str.toLowerCase Sample.evmAddress
  /\ String.length (normalizeAddress Sample.evmAddress) = 40.
Proof. apply address_comparisons_agree; reflexivity. Defined.

Lemma mint_recipient_round_trip_witness :
  decodeMintRecipient (Base64.encode (Cases.padding ++ Cases.address_bytes))
  = Some Sample.evmAddress
  /\ CctpNoble.sameAddress "0x1234567890ABCDEF1234567890abcdef1234ABCD"
       {| mintRecipient :=
            decodeMintRecipient (Base64.encode (Cases.padding ++ Cases.address_bytes));
          destinationDomain := Some "1" |}
     = true.
Proof.
  apply (mint_recipient_round_trip Cases.padding Cases.address_bytes
           "0x1234567890ABCDEF1234567890abcdef1234ABCD" (Some "1")).
  - repeat constructor.
  - reflexivity.
  - reflexivity.
  - reflexivity.
Defined.

(** ** Step 3: repeated attributes *)

Section Attributes.

Lemma dropWhileEnd_cons p c r :
  Str.dropWhileEnd p (String c r)
  = match Str.dropWhileEnd p r with
    | EmptyString => if p c then EmptyString else String c EmptyString
    | r' => String c r'
    end.
Proof. reflexivity. Qed.

Lemma dropWhileEnd_idem p s :
  Str.dropWhileEnd p (Str.dropWhileEnd p s) = Str.dropWhileEnd p s.
Proof.
  induction s as [|c r IH]; [reflexivity|]. cbn [Str.dropWhileEnd].
  destruct (Str.dropWhileEnd p r) as [|d r'] eqn:E.
  - destruct (p c) eqn:Pc; [reflexivity|]. cbn [Str.dropWhileEnd]. now rewrite Pc.
  - now rewrite dropWhileEnd_cons, IH.
Qed.

Lemma dropWhile_fixed p s :
  Str.dropWhile p (Str.dropWhile p s) = Str.dropWhile p s.
Proof.
  induction s as [|c r IH]; [reflexivity|]. cbn [Str.dropWhile].
  destruct (p c) eqn:Pc; [exact IH|]. cbn [Str.dropWhile]. now rewrite Pc.
Qed.

Lemma dropWhile_dropWhileEnd p t :
  Str.dropWhile p t = t ->
  Str.dropWhile p (Str.dropWhileEnd p t) = Str.dropWhileEnd p t.
Proof.
  destruct t as [|c r]; [reflexivity|]. cbn [Str.dropWhile Str.dropWhileEnd].
  destruct (p c) eqn:Pc.
  - intros H. apply (f_equal String.length) in H.
    assert (L : forall s, String.length (Str.dropWhile p s) <= String.length s).
    { induction s as [|x s IH]; cbn [Str.dropWhile String.length]; [lia|].
      destruct (p x); cbn [String.length]; lia. }
    specialize (L r). cbn [String.length] in H. lia.
  - intros _. destruct (Str.dropWhileEnd p r); cbn [Str.dropWhile]; now rewrite Pc.
Qed.

Lemma strip_quotes_idem s : Str.strip_quotes (Str.strip_quotes s) = Str.strip_quotes s.
Proof.
  unfold Str.strip_quotes.
  rewrite (dropWhile_dropWhileEnd _ _ (dropWhile_fixed _ s)).
  apply dropWhileEnd_idem.
Qed.

Lemma add_attribute_skip k m b :
  records k b = false -> add_attribute m b !! k = m !! k.
Proof.
  unfold records, add_attribute.
  destruct (Js.truthy (Js.get "key" b) && negb (Js.nullish (Js.get "value" b)));
    [|reflexivity].
  cbn [andb]. intros N%String.eqb_neq. now rewrite lookup_insert_ne.
Qed.

Lemma fold_add_attribute_skip k l : forall m,
  Forall (fun b => records k b = false) l ->
  fold_left add_attribute l m !! k = m !! k.
Proof.
  induction l as [|b r IH]; intros m H; [reflexivity|].
  apply Forall_cons in H as [Hb Hr]. cbn [fold_left].
  rewrite (IH _ Hr). now apply add_attribute_skip.
Qed.

Lemma fold_add_attribute_last k pre a post m :
  records k a = true ->
  Forall (fun b => records k b = false) post ->
  fold_left add_attribute (pre ++ a :: post) m !! k
  = Some (Str.strip_quotes (Js.toString (Js.get "value" a))).
Proof.
  intros Ha Hpost. rewrite fold_left_app. cbn [fold_left].
  rewrite (fold_add_attribute_skip _ _ _ Hpost).
  unfold records in Ha. apply andb_prop in Ha as [Hw Hk].
  unfold add_attribute. rewrite Hw. apply String.eqb_eq in Hk. rewrite Hk.
  apply lookup_insert_eq.
Qed.

(** X7: when a burn event repeats a key, its last attribute with that key
    wins.  On logs that hold one burn event, the value that
    [extractCctpDataFromLogs] records for a key is the one of the last
    attribute with that key and a value other than [null] and [undefined],
    stripped of the double quotes around it, and stripping it again changes
    nothing.  Under [destination_domain] that value is the destination
    domain; under [mint_recipient] its decoding (nothing, if the value is
    empty) is the mint recipient. *)
Theorem extractCctpDataFromLogs_last_attribute
    (evt : JS) (k : string) (pre : list JS) (a : JS) (post : list JS) :
  let value := Str.strip_quotes (Js.toString (Js.get "value" a)) in
  is_event DepositForBurn evt = true ->
  Js.get "attributes" evt = JArr (pre ++ a :: post) ->
  records k a = true ->
  Forall (fun b => records k b = false) post ->
  Str.strip_quotes value = value
  /\ exists e,
       extractCctpDataFromLogs (only_event evt) = Ok e
       /\ (k = "destination_domain" -> destinationDomain e = Some value)
       /\ (k = "mint_recipient" ->
           mintRecipient e
           = if String.eqb value "" then None else decodeMintRecipient value).
Proof.
  intros value Hevt Hattrs Ha Hpost. split; [apply strip_quotes_idem|].
  unfold extractCctpDataFromLogs, only_event.
  cbn [Js.coalesce Js.nullish Js.asArray mbind Exn_bind].
  rewrite events_of_only_event. cbn [Js.find]. rewrite Hevt.
  destruct evt as [| | | | | |fields]; try discriminate Hattrs;
    try (cbn in Hattrs; destruct (String.eqb _ _); discriminate Hattrs).
  rewrite Hattrs. cbn [Js.coalesce Js.nullish Js.asArray mbind Exn_bind].
  eexists. split; [reflexivity|]. cbn [destinationDomain mintRecipient].
  split; intros ->; now rewrite (fold_add_attribute_last _ _ _ _ _ Ha Hpost).
Qed.

End Attributes.

Lemma extractCctpDataFromLogs_last_attribute_witness :
  exists e,
    extractCctpDataFromLogs (only_event Cases.twice_event) = Ok e
    /\ destinationDomain e = Some "3".
Proof.
  destruct (extractCctpDataFromLogs_last_attribute Cases.twice_event
              "destination_domain"
              [Sample.attribute "destination_domain" "1"]
              (Sample.attribute "destination_domain" (Sample.quoted "3"))
              [Sample.attribute "amount" "1000000"]
              eq_refl eq_refl eq_refl ltac:(repeat constructor))
    as (_ & e & E & D & _).
  exists e. split; [exact E|exact (D eq_refl)].
Defined.

(** ** Step 2: the receiver of a packet *)

Section Receiver.
Context (P : Platform).

(** One step of the loop over the events. *)
Lemma receiver_of_events_cons event rest :
  AgoricFunding.receiver_of_events P (event :: rest)
  = match AgoricFunding.receiver_of_events P [event] with
    | Ok JNull => AgoricFunding.receiver_of_events P rest
    | r => r
    end
  /\ (forall r, AgoricFunding.receiver_of_events P [event] = Ok r ->
        r = JNull \/ Js.truthy r = true).
Proof.
  cbn [AgoricFunding.receiver_of_events].
  destruct (Js.eqStr (Js.get "type" event) LogEventType.RecvPacket
            || Js.eqStr (Js.get "type" event) LogEventType.WriteAcknowledgement).
  - destruct (Js.asArray "find" _) as [attrs|m]; cbn [mbind Exn_bind];
      [|split; [reflexivity|discriminate]].
    destruct (AgoricFunding.find_attribute "packet_data" attrs) as [a|m];
      cbn [mbind Exn_bind]; [|split; [reflexivity|discriminate]].
    destruct (negb (Js.truthy (Js.get "value" a)));
      [split; [reflexivity|intros r [= <-]; now left]|].
    destruct (JSON_parse P (Js.get "value" a)) as [packet|m];
      [|split; [reflexivity|intros r [= <-]; now left]].
    destruct (Js.truthy (Js.get "receiver" packet)) eqn:T;
      [|split; [reflexivity|intros r [= <-]; now left]].
    split; [|intros r [= <-]; now right].
    destruct (Js.get "receiver" packet); try reflexivity; discriminate T.
  - destruct (Js.eqStr (Js.get "type" event) LogEventType.FungibleTokenPacket);
      [|split; [reflexivity|intros r [= <-]; now left]].
    destruct (Js.asArray "find" _) as [attrs|m]; cbn [mbind Exn_bind];
      [|split; [reflexivity|discriminate]].
    destruct (AgoricFunding.find_attribute "receiver" attrs) as [a|m];
      cbn [mbind Exn_bind]; [|split; [reflexivity|discriminate]].
    destruct (Js.truthy (Js.get "value" a)) eqn:T;
      [|split; [reflexivity|intros r [= <-]; now left]].
    split; [|intros r [= <-]; now right].
    destruct (Js.get "value" a); try reflexivity; discriminate T.
Qed.

Lemma receiver_of_events_result events : forall r,
  AgoricFunding.receiver_of_events P events = Ok r -> r = JNull \/ Js.truthy r = true.
Proof.
  induction events as [|event rest IH]; intros r.
  - intros [= <-]. now left.
  - destruct (receiver_of_events_cons event rest) as [-> H].
    destruct (AgoricFunding.receiver_of_events P [event]) as [v|m]; [|discriminate].
    specialize (H v eq_refl). destruct v; try (intros [= <-]; exact H).
    apply IH.
Qed.

Lemma receiver_of_events_skip pre rest :
  Forall (fun e => AgoricFunding.receiver_of_events P [e] = Ok JNull) pre ->
  AgoricFunding.receiver_of_events P (pre ++ rest)
  = AgoricFunding.receiver_of_events P rest.
Proof.
  induction 1 as [|e r He _ IH]; [reflexivity|]. cbn [app].
  destruct (receiver_of_events_cons e (r ++ rest)) as [-> _]. now rewrite He.
Qed.

(** X11: [extractReceiverFromLogs] answers [null] when the logs are not
    an array; an answer without an exception is [null] or a truthy value;
    events that carry no receiver, each taken alone, can be dropped from the
    front of the logs without changing the answer; and a packet event whose
    data is not JSON is such an event: the parse error is swallowed and the
    search goes on. *)
Theorem extractReceiverFromLogs_skips (logs : JS) :
  (Js.isArray logs = false -> AgoricFunding.extractReceiverFromLogs P logs = Ok JNull)
  /\ (forall r, AgoricFunding.extractReceiverFromLogs P logs = Ok r ->
        r = JNull \/ Js.truthy r = true)
  /\ (forall ls pre rest,
        logs = JArr ls -> events_of_logs ls = pre ++ rest ->
        Forall (fun e => AgoricFunding.receiver_of_events P [e] = Ok JNull) pre ->
        AgoricFunding.extractReceiverFromLogs P logs
        = AgoricFunding.receiver_of_events P rest)
  /\ (forall type attrs a message,
        type = LogEventType.RecvPacket \/ type = LogEventType.WriteAcknowledgement ->
        AgoricFunding.find_attribute "packet_data" attrs = Ok a ->
        JSON_parse P (Js.get "value" a) = Throw message ->
        AgoricFunding.receiver_of_events P
          [JObj [("type", JStr type); ("attributes", JArr attrs)]] = Ok JNull).
Proof.
  refine (conj _ (conj _ (conj _ _))).
  - destruct logs; try reflexivity. discriminate.
  - intros r. destruct logs; try (intros [= <-]; now left).
    apply receiver_of_events_result.
  - intros ls pre rest -> E H. cbn [AgoricFunding.extractReceiverFromLogs].
    rewrite E. now apply receiver_of_events_skip.
  - intros type attrs a message Ht Ha Hp.
    cbn [AgoricFunding.receiver_of_events].
    assert (T : Js.eqStr (Js.get "type" (JObj [("type", JStr type); ("attributes", JArr attrs)]))
                  LogEventType.RecvPacket
                || Js.eqStr (Js.get "type" (JObj [("type", JStr type); ("attributes", JArr attrs)]))
                     LogEventType.WriteAcknowledgement = true).
    { destruct Ht as [-> | ->]; reflexivity. }
    rewrite T.
    change (AgoricFunding.attributes_of (JObj [("type", JStr type); ("attributes", JArr attrs)]))
      with (JArr attrs).
    cbn [Js.asArray mbind Exn_bind]. rewrite Ha. cbn [mbind Exn_bind].
    rewrite Hp. now destruct (negb _).
Qed.

End Receiver.

Lemma extractReceiverFromLogs_skips_witness :
  AgoricFunding.extractReceiverFromLogs Sample.platform
    (JArr [JObj [("events",
       JArr [JObj [("type", JStr "recv_packet");
                   ("attributes", JArr [Sample.attribute "packet_data" "{not json"])];
             JObj [("type", JStr "fungible_token_packet");
                   ("attributes", JArr [Sample.attribute "receiver" Sample.nobleAddress])]])]])
  = AgoricFunding.receiver_of_events Sample.platform
      [JObj [("type", JStr "fungible_token_packet");
             ("attributes", JArr [Sample.attribute "receiver" Sample.nobleAddress])]].
Proof.
  apply (proj1 (proj2 (proj2 (extractReceiverFromLogs_skips Sample.platform _)))
           [JObj [("events",
              JArr [JObj [("type", JStr "recv_packet");
                          ("attributes",
                           JArr [Sample.attribute "packet_data" "{not json"])];
                    JObj [("type", JStr "fungible_token_packet");
                          ("attributes",
                           JArr [Sample.attribute "receiver" Sample.nobleAddress])]])]]
           [JObj [("type", JStr "recv_packet");
                  ("attributes", JArr [Sample.attribute "packet_data" "{not json"])]]).
  - reflexivity.
  - reflexivity.
  - constructor; [|constructor].
    exact (proj2 (proj2 (proj2 (extractReceiverFromLogs_skips Sample.platform JNull)))
             "recv_packet" [Sample.attribute "packet_data" "{not json"]
             (Sample.attribute "packet_data" "{not json") "Unexpected token"
             (or_introl eq_refl) eq_refl eq_refl).
Defined.

(** ** The planner *)

Section Planner.

Lemma evmChainEnum_canonical chain :
  Schema.evmChainEnum chain = true ->
  canonicalizeChain chain = chain.
Proof.
  unfold Schema.evmChainEnum. cbn [existsb]. rewrite !orb_true_iff, !String.eqb_eq.
  intros [->|[->|[->|[->|[->|[=]]]]]]; reflexivity.
Qed.

Lemma bech32_nonempty prefix s : Schema.bech32 prefix s = true -> s <> "".
Proof.
  intros H ->. unfold Schema.bech32 in H. apply andb_prop in H as [_ H].
  cbv zeta in H. destruct (String.length prefix); discriminate H.
Qed.

(** X15: on parameters that its schema admits the planner succeeds, and
    every step of the plan can be called as written: the tool it names is
    registered and the parameters it lists pass the schema of that tool.
    The plan for the position [USDN] is the funding step followed by the
    Mintscan transaction search; every other plan is the four tracing steps,
    numbered 1 to 4 in order. *)
Theorem completeFlow_plan (agoric noble chain dest : string) (position : option string) :
  let params :=
    {| CompleteFlow.agoricAddress := Some agoric;
       CompleteFlow.nobleAddress := Some noble;
       CompleteFlow.destChain := Some chain;
       CompleteFlow.destinationEvmAddress := Some dest;
       CompleteFlow.positionName := position |} in
  Schema.bech32Agoric agoric = true ->
  Schema.bech32Noble noble = true ->
  Schema.evmChainEnum chain = true ->
  Schema.evmAddress dest = true ->
  exists plan steps,
    CompleteFlow.completeFlowHandler params = Success plan
    /\ Js.get "recommendedSequence" plan = JArr steps
    /\ Forall (callable (registerMintscan ++ registerCrossChainTracing)) steps
    /\ List.map tool_of steps
       = (if bool_decide (position = Some "USDN")
          then ["trace-agoric-funding-ack-step"; "mintscan-get-address-transactions"]
          else ["trace-axelar-gmp-step"; "trace-agoric-funding-ack-step";
                "trace-cctp-noble-step"; "trace-final-evm-step"])
    /\ (position <> Some "USDN" ->
        List.map (Js.get "step") steps = [JNum 1; JNum 2; JNum 3; JNum 4]).
Proof.
  intros params Ha Hn Hc Hd. subst params. unfold CompleteFlow.completeFlowHandler.
  cbn [CompleteFlow.agoricAddress CompleteFlow.nobleAddress CompleteFlow.destChain
       CompleteFlow.destinationEvmAddress CompleteFlow.positionName default
       from_option id].
  rewrite (missing_false _ (bech32_nonempty _ _ Ha)),
          (missing_false _ (bech32_nonempty _ _ Hn)),
          (missing_false _ (evmAddress_nonempty _ Hd)).
  assert (Hchain : chain <> "") by (intros ->; discriminate Hc).
  rewrite (missing_false _ Hchain), (evmChainEnum_canonical _ Hc). cbn [orb].
  assert (Hn' : negb (String.eqb noble "") = true).
  { apply negb_true_iff, String.eqb_neq. exact (bech32_nonempty _ _ Hn). }
  destruct (decide (position = Some "USDN")) as [->|N].
  - do 2 eexists. split; [reflexivity|]. split; [reflexivity|].
    split; [|split; [reflexivity|intros H; now destruct H]].
    repeat constructor.
    + eexists. split; [reflexivity|]. cbn -[Schema.evmChainEnum Schema.bech32Agoric Schema.bech32Noble Schema.evmAddress]. now rewrite Ha, Hn.
    + eexists. split; [reflexivity|]. cbn -[Schema.evmChainEnum Schema.bech32Agoric Schema.bech32Noble Schema.evmAddress]. now rewrite Hn'.
  - assert (E : match position with
                | Some "USDN" => Success (CompleteFlow.usdn_plan agoric noble)
                | _ => Success (CompleteFlow.cross_chain_plan agoric noble chain dest)
                end = Success (CompleteFlow.cross_chain_plan agoric noble chain dest)).
    { destruct position as [s|]; [|reflexivity].
      destruct (String.eqb_spec s "USDN") as [->|Ns]; [now destruct N|].
      repeat (try reflexivity;
              match goal with
              | |- context [match ?x with _ => _ end] => destruct x
              end).
      now destruct Ns. }
    rewrite E. do 2 eexists. split; [reflexivity|]. split; [reflexivity|].
    split; [|split; [|reflexivity]].
    + repeat constructor.
      * eexists. split; [reflexivity|]. cbn -[Schema.evmChainEnum Schema.bech32Agoric Schema.bech32Noble Schema.evmAddress]. now rewrite Ha, Hc.
      * eexists. split; [reflexivity|]. cbn -[Schema.evmChainEnum Schema.bech32Agoric Schema.bech32Noble Schema.evmAddress]. now rewrite Ha, Hn.
      * eexists. split; [reflexivity|]. cbn -[Schema.evmChainEnum Schema.bech32Agoric Schema.bech32Noble Schema.evmAddress]. now rewrite Hn, Hc, Hd.
      * eexists. split; [reflexivity|]. cbn -[Schema.evmChainEnum Schema.bech32Agoric Schema.bech32Noble Schema.evmAddress]. now rewrite Hc, Hd.
    + rewrite bool_decide_eq_false_2 by exact N. reflexivity.
Qed.

End Planner.

Lemma completeFlow_plan_witness :
  (exists plan steps,
     CompleteFlow.completeFlowHandler
       {| CompleteFlow.agoricAddress := Some Sample.agoricAddress;
          CompleteFlow.nobleAddress := Some Sample.nobleAddress;
          CompleteFlow.destChain := Some "avalanche";
          CompleteFlow.destinationEvmAddress := Some Sample.evmAddress;
          CompleteFlow.positionName := Some "USDN" |} = Success plan
     /\ Js.get "recommendedSequence" plan = JArr steps
     /\ Forall (callable (registerMintscan ++ registerCrossChainTracing)) steps
     /\ List.map tool_of steps
        = ["trace-agoric-funding-ack-step"; "mintscan-get-address-transactions"]
     /\ (Some "USDN" <> Some "USDN" ->
         List.map (Js.get "step") steps = [JNum 1; JNum 2; JNum 3; JNum 4]))
  /\ (exists plan steps,
        CompleteFlow.completeFlowHandler
          {| CompleteFlow.agoricAddress := Some Sample.agoricAddress;
             CompleteFlow.nobleAddress := Some Sample.nobleAddress;
             CompleteFlow.destChain := Some "avalanche";
             CompleteFlow.destinationEvmAddress := Some Sample.evmAddress;
             CompleteFlow.positionName := None |} = Success plan
        /\ Js.get "recommendedSequence" plan = JArr steps
        /\ Forall (callable (registerMintscan ++ registerCrossChainTracing)) steps
        /\ List.map tool_of steps
           = ["trace-axelar-gmp-step"; "trace-agoric-funding-ack-step";
              "trace-cctp-noble-step"; "trace-final-evm-step"]
        /\ (None <> Some "USDN" ->
            List.map (Js.get "step") steps = [JNum 1; JNum 2; JNum 3; JNum 4])).
Proof.
  split.
  - exact (completeFlow_plan Sample.agoricAddress Sample.nobleAddress "avalanche"
             Sample.evmAddress (Some "USDN") eq_refl eq_refl eq_refl eq_refl).
  - exact (completeFlow_plan Sample.agoricAddress Sample.nobleAddress "avalanche"
             Sample.evmAddress None eq_refl eq_refl eq_refl eq_refl).
Defined.

(** ** The addresses of a portfolio *)

Section PortfolioAddresses.

Lemma split_nonempty sep s : Portfolio.split sep s <> [].
Proof.
  destruct s as [|c r]; cbn [Portfolio.split]; [discriminate|].
  destruct (Ascii.eqb c sep); [discriminate|].
  destruct (Portfolio.split sep r); discriminate.
Qed.

(** A string without the separator is one piece. *)
Lemma split_clean sep a : occurrences sep a = 0 -> Portfolio.split sep a = [a].
Proof.
  induction a as [|c r IH]; [reflexivity|]. cbn [occurrences Portfolio.split].
  destruct (Ascii.eqb c sep); [discriminate|]. intros H. now rewrite IH.
Qed.

(** The first piece ends at the first separator. *)
Lemma split_cons sep a b :
  occurrences sep a = 0 ->
  Portfolio.split sep (a +:+ String sep b) = a :: Portfolio.split sep b.
Proof.
  induction a as [|c r IH]; cbn [occurrences].
  - intros _. rewrite append_nil. cbn [Portfolio.split]. now rewrite Ascii.eqb_refl.
  - rewrite append_cons. cbn [Portfolio.split].
    destruct (Ascii.eqb c sep); [discriminate|]. intros H. now rewrite IH.
Qed.

(** The pieces hold no separator, and the first separator of [s] follows
    the first piece. *)
Lemma split_inv sep s : forall a pieces,
  Portfolio.split sep s = a :: pieces ->
  occurrences sep a = 0
  /\ match pieces with
     | [] => s = a
     | _ => exists rest, s = a +:+ String sep rest /\ Portfolio.split sep rest = pieces
     end.
Proof.
  induction s as [|c r IH]; intros a pieces; cbn [Portfolio.split].
  - intros [= <- <-]. now split.
  - destruct (Ascii.eqb_spec c sep) as [->|N].
    + intros [= <- <-]. split; [reflexivity|].
      pose proof (split_nonempty sep r) as Hne.
      destruct (Portfolio.split sep r) eqn:E; [now destruct Hne|].
      exists r. now split.
    + destruct (Portfolio.split sep r) as [|piece rest] eqn:E;
        [now destruct (split_nonempty sep r)|].
      intros [= <- <-]. destruct (IH piece rest eq_refl) as [O T].
      split.
      * cbn [occurrences]. apply Ascii.eqb_neq in N. now rewrite N, O.
      * destruct rest as [|x xs]; [now rewrite T|].
        destruct T as (rest' & -> & S'). exists rest'. now rewrite append_cons.
Qed.

Lemma split_length sep s :
  length (Portfolio.split sep s) = S (occurrences sep s).
Proof.
  induction s as [|c r IH]; [reflexivity|]. cbn [Portfolio.split occurrences].
  destruct (Ascii.eqb c sep); cbn [length Nat.add].
  - now rewrite IH.
  - destruct (Portfolio.split sep r) as [|piece rest];
      [discriminate IH|exact IH].
Qed.

Lemma last_cons_nonempty {A} (x : A) l d : l <> [] -> List.last (x :: l) d = List.last l d.
Proof. destruct l; [now intros []|reflexivity]. Qed.

(** The last piece holds no separator and ends the string, either as the
    whole of it or behind a separator. *)
Lemma last_split sep s :
  let a := List.last (Portfolio.split sep s) EmptyString in
  occurrences sep a = 0
  /\ (s = a \/ exists pre, s = pre +:+ String sep a).
Proof.
  cbv zeta. induction s as [|c r (O & IH)]; [now split; [|left]|].
  cbn [Portfolio.split]. destruct (Ascii.eqb_spec c sep) as [->|N].
  - rewrite (last_cons_nonempty _ _ _ (split_nonempty sep r)).
    split; [exact O|]. right. destruct IH as [IH|[pre IH]].
    + exists "". now rewrite append_nil, <- IH.
    + exists (String sep pre). now rewrite append_cons, <- IH.
  - pose proof (split_length sep r) as L.
    destruct (Portfolio.split sep r) as [|piece rest] eqn:E; [discriminate L|].
    destruct rest as [|x xs].
    + cbn [List.last] in *. split.
      * cbn [occurrences]. apply Ascii.eqb_neq in N. now rewrite N, O.
      * left. destruct IH as [->|[pre ->]]; [reflexivity|].
        rewrite occurrences_app in L. cbn [occurrences length] in L.
        rewrite Ascii.eqb_refl in L. lia.
    + rewrite last_cons_nonempty by discriminate.
      rewrite last_cons_nonempty in O, IH by discriminate.
      split; [exact O|]. right. destruct IH as [IH|[pre IH]].
      * rewrite IH in E at 1. rewrite (split_clean _ _ O) in E. discriminate E.
      * exists (String c pre). now rewrite append_cons, <- IH.
Qed.

(** Conversely, what follows the last separator is the last piece. *)
Lemma last_split_suffix sep pre a :
  occurrences sep a = 0 ->
  List.last (Portfolio.split sep (pre +:+ String sep a)) EmptyString = a.
Proof.
  intros O. induction pre as [|c r IH].
  - rewrite append_nil. cbn [Portfolio.split]. rewrite Ascii.eqb_refl.
    rewrite (split_clean _ _ O). reflexivity.
  - rewrite append_cons. cbn [Portfolio.split].
    destruct (Ascii.eqb c sep).
    + now rewrite (last_cons_nonempty _ _ _ (split_nonempty sep _)).
    + pose proof (split_length sep (r +:+ String sep a)) as L.
      rewrite occurrences_app in L. cbn [occurrences] in L.
      rewrite Ascii.eqb_refl in L.
      destruct (Portfolio.split sep (r +:+ String sep a)) as [|piece [|x xs]] eqn:E;
        cbn [length] in L; try lia.
      rewrite last_cons_nonempty by discriminate.
      now rewrite last_cons_nonempty in IH by discriminate.
Qed.

Lemma last_segment_spec id a :
  Portfolio.last_segment id = Some a <-> last_segment_is id a.
Proof.
  unfold Portfolio.last_segment, last_segment_is. cbv zeta.
  destruct (last_split ":" id) as [O D]. cbv zeta in O, D. split.
  - destruct (String.eqb_spec (List.last (Portfolio.split ":" id) "") "") as [E|N];
      [discriminate|].
    intros [= <-]. split; [exact N|]. split; [exact O|].
    destruct D as [D|[pre D]]; [now left|right; now exists pre].
  - intros (N & Oa & [->|[pre ->]]).
    + rewrite (split_clean _ _ Oa). cbn [List.last].
      apply String.eqb_neq in N. now rewrite N.
    + change (pre +:+ ":" +:+ a) with (pre +:+ String ":" a).
      rewrite (last_split_suffix _ _ _ Oa). apply String.eqb_neq in N. now rewrite N.
Qed.

(** X16: the Agoric and the Noble address of a portfolio are the last
    segment of the account id stored under [agoric] and under [noble]: the
    extractor returns [a] exactly when the id is a string that is [a] or ends
    in a colon followed by [a], with [a] not empty and free of colons. *)
Theorem extract_account_address (portfolio : JS) (a : string) :
  (Portfolio.extractAgoricLCAAddress portfolio = Some a <->
   exists id, Js.get "agoric" (Js.get "accountIdByChain" portfolio) = JStr id
              /\ last_segment_is id a)
  /\ (Portfolio.extractNobleAddress portfolio = Some a <->
      exists id, Js.get "noble" (Js.get "accountIdByChain" portfolio) = JStr id
                 /\ last_segment_is id a).
Proof.
  assert (H : forall v, Portfolio.address_of_id v = Some a <->
                        exists id, v = JStr id /\ last_segment_is id a).
  { intros v. unfold Portfolio.address_of_id. split.
    - destruct v as [| | | | id | |]; try discriminate.
      destruct (String.eqb id ""); [discriminate|].
      intros L%last_segment_spec. now exists id.
    - intros (id & -> & L). pose proof L as (N & _ & D).
      assert (Hid : String.eqb id "" = false).
      { apply String.eqb_neq. intros ->. destruct D as [<-|[pre D]]; [now destruct N|].
        destruct pre; discriminate D. }
      rewrite Hid. now apply last_segment_spec. }
  split; apply H.
Qed.

Lemma toLowerCase_empty s : Str.toLowerCase s = "" -> s = "".
Proof. destruct s; [reflexivity|discriminate]. Qed.

(** X17: the chain of a position.  [extractChainFromPosition] answers
    [noble] for the position [USDN]; otherwise it answers exactly for a
    position of the form [protocol_name] with a single underscore and a name
    that is not empty, and the answer is that name in lower case. *)
Theorem extractChainFromPosition_spec (position chain : string) :
  Portfolio.extractChainFromPosition position = Some chain <->
  (position = "USDN" /\ chain = "noble")
  \/ (exists protocol name,
        position = protocol +:+ "_" +:+ name
        /\ occurrences "_" protocol = 0 /\ occurrences "_" name = 0
        /\ name <> "" /\ chain = Str.toLowerCase name).
Proof.
  unfold Portfolio.extractChainFromPosition. split.
  - destruct (String.eqb_spec position "USDN") as [->|N].
    + intros [= <-]. now left.
    + destruct (Portfolio.split "_" position) as [|p [|n [|x xs]]] eqn:E;
        try discriminate.
      destruct (String.eqb_spec (Str.toLowerCase n) "") as [Z|NZ]; [discriminate|].
      intros [= <-]. right.
      destruct (split_inv _ _ _ _ E) as (Op & rest & -> & E').
      destruct (split_inv _ _ _ _ E') as (On & ->).
      exists p, n. repeat split; auto. intros ->. now destruct NZ.
  - intros [[-> ->]|(p & n & -> & Op & On & Nn & ->)]; [reflexivity|].
    assert (NU : String.eqb (p +:+ "_" +:+ n) "USDN" = false).
    { apply String.eqb_neq. intros E. apply (f_equal (occurrences "_")) in E.
      rewrite !occurrences_app in E. cbn in E. lia. }
    rewrite NU. change (p +:+ "_" +:+ n) with (p +:+ String "_" n).
    rewrite (split_cons _ _ _ Op), (split_clean _ _ On).
    destruct (String.eqb_spec (Str.toLowerCase n) "") as [Z|NZ]; [|reflexivity].
    now apply toLowerCase_empty in Z.
Qed.

Lemma is_string_false_add acc k v key :
  (Str.toLowerCase k = key -> is_string v = false) ->
  Portfolio.add_lower acc (k, v) !! key = acc !! key.
Proof.
  intros H. unfold Portfolio.add_lower.
  destruct v as [| | | | s | |]; try reflexivity.
  destruct (String.eqb _ "__proto__"); [reflexivity|].
  destruct (decide (Str.toLowerCase k = key)) as [E|N].
  - now specialize (H E).
  - now rewrite lookup_insert_ne.
Qed.

Lemma fold_add_lower_skip key l : forall acc,
  Forall (fun entry => Str.toLowerCase entry.1 = key -> is_string entry.2 = false) l ->
  fold_left Portfolio.add_lower l acc !! key = acc !! key.
Proof.
  induction l as [|[k v] r IH]; intros acc H; [reflexivity|].
  apply Forall_cons in H as [Hk Hr]. cbn [fold_left fst snd] in *.
  rewrite (IH _ Hr). now apply is_string_false_add.
Qed.

Lemma eqb_empty_map f s : String.eqb (Str.map f s) "" = String.eqb s "".
Proof. now destruct s. Qed.

(** X18: [extractEvmAddress] matches the chain without regard to case, on
    both sides.  Two spellings of the chain with the same lower-case form
    give the same answer; for a chain other than the empty string and
    [__proto__], the id used is the one of the last key of [accountIdByChain]
    that equals the chain up to case and holds a string, whatever the case of
    that key; and without such a key there is no address. *)
Theorem extractEvmAddress_any_case (portfolio : JS) (evmChain : string) :
  let unrelated (entry : string * JS) :=
    Str.toLowerCase entry.1 = Str.toLowerCase evmChain -> is_string entry.2 = false in
  (forall other,
     Str.toLowerCase other = Str.toLowerCase evmChain ->
     Portfolio.extractEvmAddress portfolio other
     = Portfolio.extractEvmAddress portfolio evmChain)
  /\ (forall pre key id post,
        evmChain <> "" ->
        Str.toLowerCase evmChain <> "__proto__" ->
        Js.get "accountIdByChain" portfolio = JObj (pre ++ (key, JStr id) :: post) ->
        Str.toLowerCase key = Str.toLowerCase evmChain ->
        Forall unrelated post ->
        Portfolio.extractEvmAddress portfolio evmChain
        = Portfolio.address_of_id (JStr id))
  /\ (forall fields,
        Js.get "accountIdByChain" portfolio = JObj fields ->
        Forall unrelated fields ->
        Portfolio.extractEvmAddress portfolio evmChain = None).
Proof.
  cbv zeta. unfold Portfolio.extractEvmAddress.
  refine (conj _ (conj _ _)).
  - intros other H.
    rewrite <- (eqb_empty_map Str.lower_char other),
      <- (eqb_empty_map Str.lower_char evmChain).
    fold (Str.toLowerCase other). fold (Str.toLowerCase evmChain).
    now rewrite H.
  - intros pre key id post Hne Hproto Hget Hkey Hpost.
    apply String.eqb_neq in Hne. rewrite Hne, Hget.
    cbn [Js.coalesce Js.nullish Portfolio.entries].
    rewrite fold_left_app. cbn [fold_left].
    rewrite (fold_add_lower_skip _ _ _ Hpost).
    unfold Portfolio.add_lower at 1. rewrite Hkey.
    apply String.eqb_neq in Hproto. rewrite Hproto.
    now rewrite lookup_insert_eq.
  - intros fields Hget Hall. destruct (String.eqb evmChain ""); [reflexivity|].
    rewrite Hget. cbn [Js.coalesce Js.nullish Portfolio.entries].
    now rewrite (fold_add_lower_skip _ _ _ Hall), lookup_empty.
Qed.

End PortfolioAddresses.

Lemma extract_account_address_witness :
  Portfolio.extractAgoricLCAAddress (Cases.portfolio "Aave_Arbitrum")
  = Some Sample.agoricAddress
  /\ Portfolio.extractNobleAddress (Cases.portfolio "Aave_Arbitrum")
     = Some Sample.nobleAddress.
Proof.
  split.
  - apply (proj1 (extract_account_address (Cases.portfolio "Aave_Arbitrum") _)).
    eexists. split; [reflexivity|]. split; [discriminate|]. split; [reflexivity|].
    right. exists "cosmos:agoric-3". reflexivity.
  - apply (proj2 (extract_account_address (Cases.portfolio "Aave_Arbitrum") _)).
    eexists. split; [reflexivity|]. split; [discriminate|]. split; [reflexivity|].
    right. exists "cosmos:noble-1". reflexivity.
Defined.

Lemma extractChainFromPosition_spec_witness :
  Portfolio.extractChainFromPosition "Aave_Arbitrum" = Some "arbitrum"
  /\ Portfolio.extractChainFromPosition "USDN" = Some "noble".
Proof.
  split.
  - apply extractChainFromPosition_spec. right. exists "Aave", "Arbitrum".
    repeat split. discriminate.
  - apply extractChainFromPosition_spec. left. now split.
Defined.

Lemma extractEvmAddress_any_case_witness :
  Portfolio.extractEvmAddress (Cases.portfolio "Aave_Arbitrum") "arbitrum"
  = Some Sample.evmAddress
  /\ Portfolio.extractEvmAddress (Cases.portfolio "Aave_Arbitrum") "base" = None.
Proof.
  split.
  - exact (proj1 (proj2 (extractEvmAddress_any_case
                           (Cases.portfolio "Aave_Arbitrum") "arbitrum"))
             [("agoric", JStr "cosmos:agoric-3:agoric1qqqqqqqqqqqqqqqqqqqqqqqqqqqqqqqqqqqqqqq");
              ("noble", JStr "cosmos:noble-1:noble1qqqqqqqqqqqqqqqqqqqqqqqqqqqqqqqqqqqqqqq")]
             "Arbitrum" "eip155:42161:0x1234567890abcdef1234567890abcdef1234abcd" []
             ltac:(discriminate) ltac:(discriminate) eq_refl eq_refl ltac:(constructor)).
  - refine (proj2 (proj2 (extractEvmAddress_any_case
                            (Cases.portfolio "Aave_Arbitrum") "base"))
              _ eq_refl _).
    repeat constructor; discriminate.
Defined.

(** ** The portfolio handler *)

Section FetchPortfolioHandler.
Context (P : Platform) (makeGetRequest : string -> Exn JS) (JSON_stringify : JS -> string).

Lemma extractEvmAddress_segment portfolio chain addr :
  Portfolio.extractEvmAddress portfolio chain = Some addr ->
  addr <> "" /\ occurrences ":" addr = 0.
Proof.
  unfold Portfolio.extractEvmAddress. destruct (String.eqb chain ""); [discriminate|].
  cbv zeta. destruct (_ !! _) as [id|]; [|discriminate].
  destruct (String.eqb id ""); [discriminate|].
  intros (N & O & _)%last_segment_spec. now split.
Qed.

Lemma lookup_strings k (entries : list (string * string)) :
  Js.lookup k (List.map (fun '(k, v) => (k, JStr v)) entries)
  = match assoc k entries with
    | Some v => JStr v
    | None => JUndef
    end.
Proof.
  induction entries as [|[k' v] r IH]; [reflexivity|].
  cbn [List.map Js.lookup assoc]. now destruct (String.eqb k k').
Qed.

Lemma evmAddresses_of_entries portfolio :
  sublist (List.map fst (FetchPortfolio.evmAddresses_of portfolio))
    FetchPortfolio.supportedChains
  /\ Forall (fun entry => entry.2 <> "" /\ occurrences ":" entry.2 = 0
                          /\ Portfolio.extractEvmAddress portfolio entry.1 = Some entry.2)
       (FetchPortfolio.evmAddresses_of portfolio).
Proof.
  unfold FetchPortfolio.evmAddresses_of.
  induction FetchPortfolio.supportedChains as [|chain r [IH1 IH2]];
    cbn [flat_map]; [split; constructor|].
  destruct (Portfolio.extractEvmAddress portfolio chain) as [addr|] eqn:E;
    cbn [app List.map fst].
  - split; [now apply sublist_skip|].
    constructor; [|exact IH2]. cbn [fst snd].
    destruct (extractEvmAddress_segment _ _ _ E). auto.
  - split; [now apply sublist_cons|exact IH2].
Qed.

Lemma handler_success params data :
  FetchPortfolio.fetchPortfolioAddressesHandler P makeGetRequest JSON_stringify params
  = Success data ->
  exists path portfolio, FetchPortfolio.summary path portfolio = Ok data.
Proof.
  unfold FetchPortfolio.fetchPortfolioAddressesHandler.
  destruct (missing _); [discriminate|].
  destruct (makeGetRequest _) as [response|]; [|discriminate].
  destruct (negb _); [discriminate|].
  destruct (FetchPortfolio.parse_portfolio _ _ _) as [portfolio|]; [|discriminate].
  destruct (FetchPortfolio.summary _ portfolio) as [d|] eqn:E; [|discriminate].
  intros [= <-]. eauto.
Qed.

Lemma assoc_supported portfolio chain addr :
  assoc chain (FetchPortfolio.evmAddresses_of portfolio) = Some addr ->
  In chain FetchPortfolio.supportedChains.
Proof.
  intros H%assoc_In.
  destruct (evmAddresses_of_entries portfolio) as [S _].
  apply (in_map fst) in H. cbn [fst] in H.
  apply list_elem_of_In. apply list_elem_of_In in H.
  eapply elem_of_sublist; eauto.
Qed.

(** X19: in a successful answer of [fetchPortfolioAddressesHandler] the
    keys of [evmAddresses] are supported chains in the order of the list of
    supported chains, each with an address that is not empty and holds no
    colon; a destination address, when there is one, is the entry of
    [evmAddresses] for the destination chain, which is then a supported
    chain; and the next step names a registered tool. *)
Theorem fetchPortfolio_destination (params : FetchPortfolio.Params) (data : JS) :
  FetchPortfolio.fetchPortfolioAddressesHandler P makeGetRequest JSON_stringify params
  = Success data ->
  (exists entries,
     Js.get "evmAddresses" data = JObj (List.map (fun '(k, v) => (k, JStr v)) entries)
     /\ sublist (List.map fst entries) FetchPortfolio.supportedChains
     /\ Forall (fun entry => entry.2 <> "" /\ occurrences ":" entry.2 = 0) entries)
  /\ (forall addr,
        Js.get "destinationEvmAddress" data = JStr addr ->
        exists chain,
          Js.get "destChain" data = JStr chain
          /\ In chain FetchPortfolio.supportedChains
          /\ Js.get chain (Js.get "evmAddresses" data) = JStr addr)
  /\ In (Js.toString (Js.get "tool" (Js.get "nextSteps" data)))
        (List.map fst registerCrossChainTracing).
Proof.
  intros (path & portfolio & H)%handler_success.
  unfold FetchPortfolio.summary in H. cbv zeta in H.
  destruct (FetchPortfolio.destChain_of _) as [destChain|]; [|discriminate H].
  cbn [mbind Exn_bind] in H. injection H as <-.
  destruct (evmAddresses_of_entries portfolio) as [S F].
  refine (conj _ (conj _ _)).
  - exists (FetchPortfolio.evmAddresses_of portfolio).
    split; [reflexivity|]. split; [exact S|].
    eapply Forall_impl; [exact F|]. intros entry (A & B & _). now split.
  - intros addr. cbn [Js.get Js.lookup String.eqb Ascii.eqb Bool.eqb].
    unfold FetchPortfolio.destination_of.
    destruct destChain as [chain|]; [|discriminate].
    destruct (assoc chain (FetchPortfolio.evmAddresses_of portfolio)) as [a|] eqn:E.
    + intros [= <-]. exists chain. split; [reflexivity|].
      split; [exact (assoc_supported _ _ _ E)|].
      now rewrite lookup_strings, E.
    + destruct (String.eqb chain "constructor"); discriminate.
  - cbn. auto 10.
Qed.

(** X20: what the next step of a portfolio answer is worth.  For a
    portfolio whose first position is [USDN] the destination chain is
    [noble], and the proposed parameters do not pass the schema of the
    planner.  Whenever the proposed parameters pass that schema, the chain is
    the destination chain of the answer and the address is a well-formed EVM
    address, the one [evmAddresses] holds for that chain. *)
Theorem fetchPortfolio_next_step (params : FetchPortfolio.Params) (data : JS) :
  let args := Js.get "params" (Js.get "nextSteps" data) in
  FetchPortfolio.fetchPortfolioAddressesHandler P makeGetRequest JSON_stringify params
  = Success data ->
  (Js.get "positionName" data = JStr "USDN" ->
   Js.get "destChain" data = JStr "noble"
   /\ accepts completeFlowSchema args = false)
  /\ (accepts completeFlowSchema args = true ->
      exists chain dest,
        Js.get "destChain" args = JStr chain
        /\ Js.get "destinationEvmAddress" args = JStr dest
        /\ Js.get "destChain" data = JStr chain
        /\ Schema.evmChainEnum chain = true
        /\ Schema.evmAddress dest = true
        /\ Js.get chain (Js.get "evmAddresses" data) = JStr dest).
Proof.
  intros args (path & portfolio & H)%handler_success. subst args.
  unfold FetchPortfolio.summary in H. cbv zeta in H.
  destruct (FetchPortfolio.destChain_of _) as [destChain|] eqn:D; [|discriminate H].
  cbn [mbind Exn_bind] in H. injection H as <-.
  cbn [Js.get Js.lookup String.eqb Ascii.eqb Bool.eqb].
  split.
  - intros E. rewrite E in D. cbn in D. injection D as <-.
    split; [reflexivity|]. unfold accepts, completeFlowSchema. cbn [forallb].
    cbn [Js.get Js.lookup String.eqb Ascii.eqb Bool.eqb parses].
    change (Schema.evmChainEnum "noble") with false.
    cbn [andb]. now rewrite !andb_false_r.
  - unfold accepts, completeFlowSchema. cbn [forallb].
    cbn [Js.get Js.lookup String.eqb Ascii.eqb Bool.eqb parses].
    rewrite !andb_true_iff. intros (_ & _ & Hc & Hd & _).
    destruct destChain as [chain|]; [|discriminate Hc].
    unfold FetchPortfolio.destination_of in *.
    destruct (assoc chain (FetchPortfolio.evmAddresses_of portfolio)) as [dest|] eqn:E.
    + exists chain, dest. rewrite lookup_strings, E. now repeat split.
    + destruct (String.eqb chain "constructor"); discriminate Hd.
Qed.

End FetchPortfolioHandler.

Lemma fetchPortfolio_destination_witness :
  exists data,
    FetchPortfolio.fetchPortfolioAddressesHandler Sample.platform
      (Cases.vstorage "Aave_Arbitrum") Cases.stringify Cases.portfolio_params
    = Success data
    /\ Js.get "destinationEvmAddress" data = JStr Sample.evmAddress
    /\ exists chain,
         Js.get "destChain" data = JStr chain
         /\ In chain FetchPortfolio.supportedChains
         /\ Js.get chain (Js.get "evmAddresses" data) = JStr Sample.evmAddress.
Proof.
  eexists. split; [reflexivity|]. split; [reflexivity|].
  exact (proj1 (proj2 (fetchPortfolio_destination Sample.platform
                         (Cases.vstorage "Aave_Arbitrum") Cases.stringify
                         Cases.portfolio_params _ eq_refl)) _ eq_refl).
Defined.

Lemma fetchPortfolio_next_step_witness :
  (exists data,
     FetchPortfolio.fetchPortfolioAddressesHandler Sample.platform
       (Cases.vstorage "USDN") Cases.stringify Cases.portfolio_params = Success data
     /\ Js.get "destChain" data = JStr "noble"
     /\ accepts completeFlowSchema (Js.get "params" (Js.get "nextSteps" data)) = false)
  /\ (exists data chain dest,
        FetchPortfolio.fetchPortfolioAddressesHandler Sample.platform
          (Cases.vstorage "Aave_Arbitrum") Cases.stringify Cases.portfolio_params
        = Success data
        /\ Js.get "destChain" (Js.get "params" (Js.get "nextSteps" data)) = JStr chain
        /\ Js.get "destinationEvmAddress" (Js.get "params" (Js.get "nextSteps" data))
           = JStr dest
        /\ Js.get "destChain" data = JStr chain
        /\ Schema.evmChainEnum chain = true
        /\ Schema.evmAddress dest = true
        /\ Js.get chain (Js.get "evmAddresses" data) = JStr dest).
Proof.
  split.
  - eexists. split; [reflexivity|].
    exact (proj1 (fetchPortfolio_next_step Sample.platform (Cases.vstorage "USDN")
                    Cases.stringify Cases.portfolio_params _ eq_refl) eq_refl).
  - destruct (proj2 (fetchPortfolio_next_step Sample.platform
                       (Cases.vstorage "Aave_Arbitrum") Cases.stringify
                       Cases.portfolio_params _ eq_refl) eq_refl)
      as (chain & dest & H).
    eexists _, chain, dest. split; [reflexivity|exact H].
Defined.
